(** * Evaluation harness: per-instance pipeline, scheduler and run reconciler

    A shallow embedding of [swe-factory/evaluation/run_evaluation.py].

    - Python strings are [string]; the digit class of the exit-code regular
      expression is the ASCII one.
    - [pathlib.Path] values are lists of components.  [p </> name] appends
      one component and is used for the file names the source spells out;
      [joinpath p s] is [p / s] for any string [s], split and normalised as
      [pathlib] does it (empty components and dots dropped, an absolute [s]
      replacing [p]).  What the operating system makes of [..] and of links
      is not modelled: statements that rest on two directories being
      different are about ids that are plain components.
    - The file system is typed: text files (logs, test outputs, scripts) and
      JSON report documents live in two stores keyed by path.  The source
      never reads a file of one kind as the other.
    - A prediction is a record with the three keys of the docstring
      ("Prediction w/ model_name_or_path, model_patch, instance_id");
      [model_patch] is [None] for Python's [None].
    - Calls into the container engine and into modules that are not part of
      this file (docker_build, docker_utils, test_spec) take their outcome
      from a [Plan]: the value returned or the exception raised.  Only
      subclasses of [Exception] are modelled.
    - Side effects are threaded through a state-and-exception monad; the state
      survives a raise, as in Python.
    - [run_instances] and [main] take what their own calls of the engine
      answer from an [Engine], and [main] what the operating system and the
      file of predictions answer from an [Env]; a line of a .jsonl file is blank,
      undecodable or decoded.  The dataset is the list that
      [load_omnigirl_dataset] returns, and [datum["patch"]] a function on its
      entries. *)

From stdpp Require Import gmap strings list fin_maps pretty.
From Stdlib Require Import ZArith String Ascii Lia.

Open Scope string_scope.
Open Scope list_scope.

(** ** Strings *)

Module Str.

(** [needle in hay] *)
Fixpoint contains (needle hay : string) : bool :=
  String.prefix needle hay ||
  match hay with
  | EmptyString => false
  | String _ rest => contains needle rest
  end.

(** [s.replace("/", "__")] *)
Fixpoint replace_slash (s : string) : string :=
  match s with
  | EmptyString => EmptyString
  | String c rest =>
      if Ascii.eqb c "/" then String "_" (String "_" (replace_slash rest))
      else String c (replace_slash rest)
  end.

(** [s.replace(":", "__")] *)
Fixpoint replace_colon (s : string) : string :=
  match s with
  | EmptyString => EmptyString
  | String c rest =>
      if Ascii.eqb c ":" then String "_" (String "_" (replace_colon rest))
      else String c (replace_colon rest)
  end.

Definition nonempty (s : string) : bool :=
  match s with EmptyString => false | String _ _ => true end.

Fixpoint drop (n : nat) (s : string) : string :=
  match n, s with
  | O, _ => s
  | S n', String _ rest => drop n' rest
  | S _, EmptyString => EmptyString
  end.

Definition is_digit (c : ascii) : bool :=
  let n := nat_of_ascii c in (48 <=? n)%nat && (n <=? 57)%nat.

Fixpoint join (sep : string) (l : list string) : string :=
  match l with
  | [] => ""
  | [x] => x
  | x :: rest => x +:+ sep +:+ join sep rest
  end.

(** [s.split("/")] *)
Fixpoint split_slash (s : string) : list string :=
  match s with
  | EmptyString => [EmptyString]
  | String c rest =>
      if Ascii.eqb c "/" then EmptyString :: split_slash rest
      else match split_slash rest with
           | [] => [String c EmptyString]
           | x :: l => String c x :: l
           end
  end.

(** ["/" in s] *)
Fixpoint has_slash (s : string) : bool :=
  match s with
  | EmptyString => false
  | String c rest => Ascii.eqb c "/" || has_slash rest
  end.

End Str.

(** ** Exceptions and results *)

Inductive Exn : Type :=
| EvaluationError (instance_id message : string)
| KeyError (key : string)
| IndexError
| TypeError (message : string)
| AttributeError (message : string)
| ValueError (message : string)
| FileNotFoundError (path : list string)
| JSONDecodeError
| EngineError (message : string).

Definition is_EvaluationError (e : Exn) : bool :=
  match e with EvaluationError _ _ => true | _ => false end.

Inductive Res (A : Type) : Type :=
| Ret (a : A)
| Raise (e : Exn).
Arguments Ret {A} a.
Arguments Raise {A} e.

Definition raised {A} (r : Res A) : bool :=
  match r with Ret _ => false | Raise _ => true end.

(** ** Data model *)

(** A [pathlib] path is the list of its components; the root of an absolute
    path, "/" or "//", is the first of them. *)
Definition Path := list string.

(** [p / name] for a [name] that is one component, as the file names spelt
    out in the source are. *)
Definition path_div (p : Path) (s : string) : Path := p ++ [s].
Infix "</>" := path_div (at level 50, left associativity).
Definition parent (p : Path) : Path := removelast p.

(** The root [pathlib] splits off a string: "//" for exactly two leading
    slashes, "/" for one, or for three and more. *)
Definition path_root (s : string) : option string :=
  if String.prefix "//" s && negb (String.prefix "///" s) then Some "//"
  else if String.prefix "/" s then Some "/"
  else None.

(** The names of a string: what lies between its slashes, without the empty
    names and the dots, which [pathlib] drops. *)
Definition path_names (s : string) : list string :=
  filter (fun name => name ≠ "" ∧ name ≠ ".") (Str.split_slash s).

(** [p / s] for any string [s]; an absolute [s] replaces [p]. *)
Definition joinpath (p : Path) (s : string) : Path :=
  match path_root s with
  | Some root => root :: path_names s
  | None => p ++ path_names s
  end.

(** [Path(s)] *)
Definition path_of (s : string) : Path := joinpath [] s.

(** [str(p)] *)
Definition path_str (p : Path) : string :=
  match p with
  | [] => "."
  | root :: names =>
      if String.prefix "/" root then root +:+ Str.join "/" names
      else Str.join "/" p
  end.

(** A string that is one path component and names a directory entry: not
    empty, without a slash, and neither "." nor "..". *)
Definition plain_component (s : string) : bool :=
  negb (Str.has_slash s) && negb (String.eqb s "") && negb (String.eqb s ".")
  && negb (String.eqb s "..").

Definition Container := string.

Record TestSpec := {
  ts_instance_id : string;
  ts_patch : option string;
  ts_eval_script : string;
  ts_instance_image_key : string;
}.

Record Prediction := {
  pred_instance_id : string;
  model_name_or_path : string;
  model_patch : option string;
}.

Record Instance := {
  instance_id : string;
  version : string;
}.

Record Report := {
  patch_is_None : bool;
  patch_exists : bool;
  patch_successfully_applied : bool;
  resolved : bool;
}.

(** The dict [{instance_id: {...}}] held by a report.json document. *)
Abbreviation ReportDoc := (gmap string Report).

Inductive Mode := not_apply_patch | apply_patch.

Definition is_not_apply_patch (m : Mode) : bool :=
  match m with not_apply_patch => true | apply_patch => false end.

Record ExecResult := {
  exit_code : Z;
  output : string;
}.

(** Calls that create, use or remove a container or an image, in the order
    they are made.  The listings of images and of containers, which change
    nothing, are not recorded. *)
Inductive Event : Type :=
| EvCreate (c : Container) (image_key : string)
| EvStart (c : Container)
| EvCopy (c : Container) (src : Path) (dst : string)
| EvExec (c : Container) (cmd : string)
| EvExecTimeout (c : Container) (cmd : string)
| EvRelease (c : Container)
| EvRemoveImage (image_key : string)
| EvCleanImages (cache_level : string) (clean : bool).

(** The aggregate document of [make_run_report]; a sorted list of ids is the
    set of its elements. *)
Record RunReport := {
  total_instances : nat;
  submitted_instances : nat;
  completed_instances : nat;
  resolved_instances : nat;
  unresolved_instances : nat;
  empty_patch_instances : nat;
  error_instances : nat;
  unstopped_instances : nat;
  completed_ids : gset string;
  incomplete_ids : gset string;
  empty_patch_ids : gset string;
  submitted_ids : gset string;
  resolved_ids : gset string;
  unresolved_ids : gset string;
  error_ids : gset string;
  unstopped_containers : gset string;
  unremoved_images : gset string;
}.

(** Stable storage ([texts], [reports], [run_reports]), the container engine
    ([live] containers, [images], and the [trace] of calls made to it), the
    standard output and the progress bar. *)
Record World := {
  texts : gmap Path string;
  reports : gmap Path (gmap string Report);
  run_reports : gmap Path RunReport;
  live : gset Container;
  images : gset string;
  trace : list Event;
  stdout : list string;
  pbar : nat;
}.

(** ** State and exception monad *)

Definition M (S A : Type) : Type := S -> Res A * S.

#[global] Instance M_ret {S} : MRet (M S) := fun A a s => (Ret a, s).
#[global] Instance M_bind {S} : MBind (M S) :=
  fun A B f m s => match m s with
                   | (Ret a, s') => f a s'
                   | (Raise e, s') => (Raise e, s')
                   end.

Definition raise {S A} (e : Exn) : M S A := fun s => (Raise e, s).
Definition gets {S A} (f : S -> A) : M S A := fun s => (Ret (f s), s).
Definition modify {S} (f : S -> S) : M S unit := fun s => (Ret tt, f s).

(** [try: body except Exception as e: handler e] *)
Definition try_except {S A} (body : M S A) (handler : Exn -> M S A) : M S A :=
  fun s => match body s with
           | (Ret a, s') => (Ret a, s')
           | (Raise e, s') => handler e s'
           end.

(** [try: body finally: fin]; an exception of [fin] replaces the outcome. *)
Definition try_finally {S A} (body : M S A) (fin : M S unit) : M S A :=
  fun s => match body s with
           | (r, s') =>
               match fin s' with
               | (Ret _, s'') => (r, s'')
               | (Raise e, s'') => (Raise e, s'')
               end
           end.

(** The outcome of a call decided outside this file. *)
Definition outcome {S A} (r : Res A) : M S A := fun s => (r, s).

Definition nl : string := String (ascii_of_nat 10) EmptyString.

(** ** Primitive effects on the world *)

Definition with_texts (f : gmap Path string -> gmap Path string) (w : World) : World :=
  {| texts := f (texts w); reports := reports w; run_reports := run_reports w;
     live := live w; images := images w; trace := trace w; stdout := stdout w;
     pbar := pbar w |}.
Definition with_reports (f : gmap Path (gmap string Report) -> gmap Path (gmap string Report))
    (w : World) : World :=
  {| texts := texts w; reports := f (reports w); run_reports := run_reports w;
     live := live w; images := images w; trace := trace w; stdout := stdout w;
     pbar := pbar w |}.
Definition with_run_reports (f : gmap Path RunReport -> gmap Path RunReport)
    (w : World) : World :=
  {| texts := texts w; reports := reports w; run_reports := f (run_reports w);
     live := live w; images := images w; trace := trace w; stdout := stdout w;
     pbar := pbar w |}.
Definition with_live (f : gset Container -> gset Container) (w : World) : World :=
  {| texts := texts w; reports := reports w; run_reports := run_reports w;
     live := f (live w); images := images w; trace := trace w; stdout := stdout w;
     pbar := pbar w |}.
Definition with_images (f : gset string -> gset string) (w : World) : World :=
  {| texts := texts w; reports := reports w; run_reports := run_reports w;
     live := live w; images := f (images w); trace := trace w; stdout := stdout w;
     pbar := pbar w |}.
Definition with_trace (f : list Event -> list Event) (w : World) : World :=
  {| texts := texts w; reports := reports w; run_reports := run_reports w;
     live := live w; images := images w; trace := f (trace w); stdout := stdout w;
     pbar := pbar w |}.
Definition with_stdout (f : list string -> list string) (w : World) : World :=
  {| texts := texts w; reports := reports w; run_reports := run_reports w;
     live := live w; images := images w; trace := trace w; stdout := f (stdout w);
     pbar := pbar w |}.
Definition with_pbar (f : nat -> nat) (w : World) : World :=
  {| texts := texts w; reports := reports w; run_reports := run_reports w;
     live := live w; images := images w; trace := trace w; stdout := stdout w;
     pbar := f (pbar w) |}.

Definition emit (e : Event) : M World unit :=
  modify (with_trace (fun t => t ++ [e])).

(** [print(msg)] *)
Definition print (msg : string) : M World unit :=
  modify (with_stdout (fun o => o ++ [msg])).

(** [p.exists()] for a text file *)
Definition text_exists (p : Path) : M World bool :=
  gets (fun w => bool_decide (is_Some (texts w !! p))).

(** [open(p).read()] *)
Definition read_text (p : Path) : M World string :=
  fun w => match texts w !! p with
           | Some s => (Ret s, w)
           | None => (Raise (FileNotFoundError p), w)
           end.

(** [p.write_text(s)], [open(p, "w").write(s)] *)
Definition write_text (p : Path) (s : string) : M World unit :=
  modify (with_texts (fun t => <[p := s]> t)).

(** [report_path.exists()] *)
Definition report_exists (p : Path) : M World bool :=
  gets (fun w => bool_decide (is_Some (reports w !! p))).

(** [json.loads(p.read_text())] *)
Definition read_report (p : Path) : M World (gmap string Report) :=
  fun w => match reports w !! p with
           | Some d => (Ret d, w)
           | None => (Raise (FileNotFoundError p), w)
           end.

(** [open(p, "w").write(json.dumps(doc, indent=4))] *)
Definition write_report (p : Path) (doc : gmap string Report) : M World unit :=
  modify (with_reports (fun r => <[p := doc]> r)).

(** [logger.info(msg)]: one more record in the logger's file. *)
Definition logger_info (log_file : Path) (msg : string) : M World unit :=
  modify (with_texts (fun t => <[log_file := default "" (t !! log_file) +:+ msg +:+ nl]> t)).

(** ** Grading: [get_pred_report] *)

Definition APPLY_PATCH_FAIL : string := ">>>>> Patch Apply Failed".
Definition APPLY_PATCH_PASS : string := ">>>>> Patch Apply Passed".

Definition EXIT_CODE_MARKER : string := "echo OMNIGRIL_EXIT_CODE=".

(** [EXIT_CODE_RE.match] at the start of [s]: the digit captured by group 1. *)
Definition exit_code_match_here (s : string) : option ascii :=
  if String.prefix EXIT_CODE_MARKER s then
    match Str.drop (String.length EXIT_CODE_MARKER) s with
    | String d _ => if Str.is_digit d then Some d else None
    | EmptyString => None
    end
  else None.

(** [EXIT_CODE_RE.search(s)]: the leftmost match. *)
Fixpoint exit_code_search (s : string) : option ascii :=
  match exit_code_match_here s with
  | Some d => Some d
  | None =>
      match s with
      | EmptyString => None
      | String _ rest => exit_code_search rest
      end
  end.

Definition report_init : Report :=
  {| patch_is_None := false; patch_exists := false;
     patch_successfully_applied := false; resolved := false |}.

Definition set_patch_is_None (b : bool) (r : Report) : Report :=
  {| patch_is_None := b; patch_exists := patch_exists r;
     patch_successfully_applied := patch_successfully_applied r; resolved := resolved r |}.
Definition set_patch_exists (b : bool) (r : Report) : Report :=
  {| patch_is_None := patch_is_None r; patch_exists := b;
     patch_successfully_applied := patch_successfully_applied r; resolved := resolved r |}.
Definition set_patch_successfully_applied (b : bool) (r : Report) : Report :=
  {| patch_is_None := patch_is_None r; patch_exists := patch_exists r;
     patch_successfully_applied := b; resolved := resolved r |}.
Definition set_resolved (b : bool) (r : Report) : Report :=
  {| patch_is_None := patch_is_None r; patch_exists := patch_exists r;
     patch_successfully_applied := patch_successfully_applied r; resolved := b |}.

(** Reading a file behind an [exists()] guard, with the warning of the
    [else] branch. *)
Definition read_or_warn (p : Path) (warning : string) : M World string :=
  found ← text_exists p;
  if found : bool then read_text p
  else print warning;; mret "".

Definition grade_patch_status (instance_id run_instance_log_content : string)
    (r : Report) : M World Report :=
  if Str.nonempty run_instance_log_content then
    if Str.contains APPLY_PATCH_PASS run_instance_log_content then
      mret (set_patch_successfully_applied true r)
    else if Str.contains APPLY_PATCH_FAIL run_instance_log_content then
      mret (set_patch_successfully_applied false r)
    else
      print ("[WARN] No patch status found in run instance log for " +:+ instance_id);;
      mret r
  else
    print ("[WARN] Empty run instance log content for " +:+ instance_id);;
    mret r.

Definition grade_exit_code (instance_id test_output_content : string)
    (r : Report) : M World Report :=
  if Str.nonempty test_output_content then
    match exit_code_search test_output_content with
    | Some exit_code =>
        if Ascii.eqb exit_code "0" then mret (set_resolved true r) else mret r
    | None =>
        print ("[WARN] No exit code found in test output for " +:+ instance_id);;
        mret r
    end
  else
    print ("[WARN] Empty test output content for " +:+ instance_id);;
    mret r.

Definition get_pred_report (test_spec : TestSpec) (prediction : Prediction)
    (test_output_path : Path) : M World (gmap string Report) :=
  let instance_id := pred_instance_id prediction in
  let r := report_init in
  match model_patch prediction with
  | None => mret {[ instance_id := set_patch_is_None true r ]}
  | Some _ =>
      let r := set_patch_exists true r in
      test_output_content ←
        read_or_warn test_output_path
          ("[WARN] Test output file not found: " +:+ path_str test_output_path);
      let run_instance_log_path := parent test_output_path </> "run_instance_after_apply.log" in
      run_instance_log_content ←
        read_or_warn run_instance_log_path
          ("[WARN] Run instance log file not found: " +:+ path_str run_instance_log_path);
      r ← grade_patch_status instance_id run_instance_log_content r;
      r ← grade_exit_code instance_id test_output_content r;
      mret {[ instance_id := r ]}
  end.

(** ** Collaborators outside this file

    What one pipeline invocation gets back from the container engine and from
    docker_build / docker_utils: for each call the value returned or the
    exception raised.  [on_grading] is an exception injected while grading
    (the fault point "grading exception"). *)

Record Plan := {
  on_setup_logger : Res unit;
  on_build : Res Container;
  on_start : Res unit;
  on_copy_patch : Res unit;
  on_git_apply : Res ExecResult;
  on_patch_fuzz : Res ExecResult;
  on_git_diff : Res ExecResult;
  on_copy_eval : Res unit;
  on_eval : Res string;
  on_grading : Res unit;
  on_remove_image : Res unit;
  on_close_logger : Res unit;
}.

(** [setup_logger(instance_id, log_file)]: opens the log file afresh. *)
Definition setup_logger (r : Res unit) (log_file : Path) : M World unit :=
  outcome r;; write_text log_file "".

Definition close_logger (r : Res unit) : M World unit := outcome r.

(** [build_setup_container(...)]: a created container joins the live ones,
    and the image it was created from is present. *)
Definition build_setup_container (r : Res Container) (test_spec : TestSpec)
    : M World Container :=
  c ← outcome r;
  modify (with_live (fun l => {[ c ]} ∪ l));;
  modify (with_images (fun i => {[ ts_instance_image_key test_spec ]} ∪ i));;
  emit (EvCreate c (ts_instance_image_key test_spec));;
  mret c.

Definition container_start (r : Res unit) (c : Container) : M World unit :=
  emit (EvStart c);; outcome r.

Definition copy_to_container (r : Res unit) (c : Container) (src : Path) (dst : string)
    : M World unit :=
  emit (EvCopy c src dst);; outcome r.

Definition exec_run (r : Res ExecResult) (c : Container) (cmd : string)
    : M World ExecResult :=
  emit (EvExec c cmd);; outcome r.

Definition exec_run_with_timeout (r : Res string) (c : Container) (cmd : string)
    : M World string :=
  emit (EvExecTimeout c cmd);; outcome r.

(** [remove_image(client, image_key, logger)]: the image is gone when the
    call returns. *)
Definition remove_image (r : Res unit) (image_key : string) : M World unit :=
  emit (EvRemoveImage image_key);;
  outcome r;;
  modify (with_images (fun i => i ∖ {[ image_key ]})).

(** What the calls that the scheduler and [main] make to the engine
    themselves get back: [docker.from_env()] and
    [client.images.list(all=True)] in [run_instances], and
    [list_images(client)] in [main]. *)
Record Engine := {
  on_client : Res unit;
  on_images_list : Res unit;
  on_list_images : Res unit;
}.

(** Modelled from the spec: [cleanup_container] is defined in docker_utils,
    which is not among the sources.  Section 4.1, [release]: "stops and
    removes the container unconditionally"; "must be safe to call with a
    partially-initialized or null resource (no-op)". *)
Definition cleanup_container (container : option Container) : M World unit :=
  match container with
  | None => mret tt
  | Some c =>
      emit (EvRelease c);;
      modify (with_live (fun l => l ∖ {[ c ]}))
  end.

(** ** The pipeline's local variable [container] *)

Record Frame := {
  fr_world : World;
  fr_container : option Container;
}.

Definition lift {A} (m : M World A) : M Frame A :=
  fun fr => match m (fr_world fr) with
            | (r, w) => (r, {| fr_world := w; fr_container := fr_container fr |})
            end.

Definition set_container (c : option Container) : M Frame unit :=
  modify (fun fr => {| fr_world := fr_world fr; fr_container := c |}).

Definition get_container : M Frame (option Container) := gets fr_container.

(** Runs a block whose [container] starts as [None] and forgets the local. *)
Definition with_locals {A} (m : M Frame A) : M World A :=
  fun w => match m {| fr_world := w; fr_container := None |} with
           | (r, fr) => (r, fr_world fr)
           end.

(** ** Text of the log records *)

Definition show_bool (b : bool) : string := if b then "True" else "False".

Definition show_report (r : Report) : string :=
  "{'patch_is_None': " +:+ show_bool (patch_is_None r) +:+
  ", 'patch_exists': " +:+ show_bool (patch_exists r) +:+
  ", 'patch_successfully_applied': " +:+ show_bool (patch_successfully_applied r) +:+
  ", 'resolved': " +:+ show_bool (resolved r) +:+ "}".

Definition show_doc (d : gmap string Report) : string :=
  "{" +:+ Str.join ", "
            (map (fun kv => "'" +:+ fst kv +:+ "': " +:+ show_report (snd kv))
                 (map_to_list d)) +:+ "}".

(** [traceback.format_exc()]: the text is not inspected by any caller. *)
Definition format_exc : string := "Traceback (most recent call last):".

Definition check_log (log_file : Path) : string :=
  "Check (" +:+ path_str log_file +:+ ") for more information.".

(** [str(e)]; [EvaluationError.__str__] also logs the traceback. *)
Definition exn_str (log_file : Path) (e : Exn) : M World string :=
  match e with
  | EvaluationError instance_id message =>
      logger_info log_file format_exc;;
      mret (instance_id +:+ ": " +:+ message +:+ nl +:+ check_log log_file)
  | KeyError k => mret ("'" +:+ k +:+ "'")
  | IndexError => mret "list index out of range"
  | TypeError m => mret m
  | AttributeError m => mret m
  | ValueError m => mret m
  | FileNotFoundError p => mret ("[Errno 2] No such file or directory: '" +:+ path_str p +:+ "'")
  | JSONDecodeError => mret "Expecting value: line 1 column 1 (char 0)"
  | EngineError m => mret m
  end.

(** The two [except] clauses of the pipelines. *)
Definition report_failure {A} (instance_id : string) (log_file : Path) (e : Exn)
    : M World (option A) :=
  text ← exn_str log_file e;
  let error_msg :=
    (if is_EvaluationError e then "EvaluationError " +:+ instance_id
     else "Error in evaluating model for " +:+ instance_id)
    +:+ ": " +:+ text +:+ nl +:+ format_exc +:+ nl +:+ check_log log_file in
  logger_info log_file error_msg;;
  print error_msg;;
  mret None.

(** ** The per-instance pipeline *)

Definition GIT_APPLY : string := "git apply --allow-empty -v /tmp/patch.diff".
Definition PATCH_FUZZ : string := "patch --batch --fuzz=5 -p1 -i /tmp/patch.diff".
Definition RUN_EVAL : string := "/bin/bash /eval.sh".

(** The result of a pipeline call: [(instance_id, report)] or [None]. *)
Abbreviation PipelineResult := (option (string * option (gmap string Report))).

(** "Attempt to apply patch to container": strict apply, then the fuzzy one. *)
Definition apply_patch_to_container (plan : Plan) (instance_id : string)
    (log_file : Path) (container : Container) : M World unit :=
  val ← exec_run (on_git_apply plan) container GIT_APPLY;
  if negb (exit_code val =? 0)%Z then
    logger_info log_file "Failed to apply patch to container, trying again...";;
    val ← exec_run (on_patch_fuzz plan) container PATCH_FUZZ;
    if negb (exit_code val =? 0)%Z then
      logger_info log_file (APPLY_PATCH_FAIL +:+ ":" +:+ nl +:+ output val);;
      raise (EvaluationError instance_id (APPLY_PATCH_FAIL +:+ ":" +:+ nl +:+ output val))
    else
      logger_info log_file (APPLY_PATCH_PASS +:+ ":" +:+ nl +:+ output val)
  else
    logger_info log_file (APPLY_PATCH_PASS +:+ ":" +:+ nl +:+ output val).

(** The [finally] clause of both pipelines. *)
Definition pipeline_finally (plan : Plan) (test_spec : TestSpec) (rm_image : bool)
    : M Frame unit :=
  container ← get_container;
  lift (cleanup_container container);;
  (if rm_image
   then lift (remove_image (on_remove_image plan) (ts_instance_image_key test_spec))
   else mret tt);;
  lift (close_logger (on_close_logger plan)).

(** [Path(output_path) / run_id / model_name_or_path / instance_id], the
    model name with its slashes replaced. *)
Definition log_dir_of (output_path run_id : string) (pred : Prediction)
    (instance_id : string) : Path :=
  joinpath
    (joinpath (joinpath (path_of output_path) run_id)
       (Str.replace_slash (model_name_or_path pred)))
    instance_id.

(** The [try] block of [run_instance_setup]. *)
Definition run_instance_setup_body (plan : Plan) (test_spec : TestSpec)
    (pred : Prediction) (log_dir log_file report_path : Path) (mode : Mode)
    : M Frame PipelineResult :=
  let instance_id := ts_instance_id test_spec in
  container ← lift (build_setup_container (on_build plan) test_spec);
  set_container (Some container);;
  lift (
    container_start (on_start plan) container;;
    logger_info log_file
      ("Container for " +:+ instance_id +:+ " started: " +:+ container);;
    let patch_file := log_dir </> "patch.diff" in
    write_text patch_file (default "" (ts_patch test_spec));;
    logger_info log_file
      ("Intermediate patch for " +:+ instance_id +:+ " written to "
       +:+ path_str patch_file +:+ ", now applying to container...");;
    copy_to_container (on_copy_patch plan) container patch_file "/tmp/patch.diff";;
    (if negb (is_not_apply_patch mode)
     then apply_patch_to_container plan instance_id log_file container
     else mret tt);;
    let eval_file := log_dir </> "eval.sh" in
    write_text eval_file (ts_eval_script test_spec);;
    logger_info log_file
      ("Eval script for " +:+ instance_id +:+ " written to "
       +:+ path_str eval_file +:+ ", now applying to container...");;
    copy_to_container (on_copy_eval plan) container eval_file "/eval.sh";;
    test_output ← exec_run_with_timeout (on_eval plan) container RUN_EVAL;
    let test_output_name :=
      if is_not_apply_patch mode then "test_output_prev_apply.txt"
      else "test_output_after_apply.txt" in
    let test_output_path := log_dir </> test_output_name in
    write_text test_output_path test_output;;
    logger_info log_file
      ("Test output for " +:+ instance_id +:+ " written to " +:+ path_str test_output_path);;
    if negb (is_not_apply_patch mode) then
      logger_info log_file ("Grading answer for " +:+ instance_id +:+ "...");;
      outcome (on_grading plan);;
      report ← get_pred_report test_spec pred test_output_path;
      entry ← match report !! instance_id with
              | Some entry => mret entry
              | None => raise (KeyError instance_id)
              end;
      logger_info log_file
        ("report: " +:+ show_doc report +:+ nl +:+ "Result for " +:+ instance_id
         +:+ ": resolved: " +:+ show_bool (resolved entry));;
      write_report report_path report;;
      mret (Some (instance_id, Some report))
    else
      mret (Some (instance_id, None))).

Definition run_instance_setup (plan : Plan) (test_spec : TestSpec) (pred : Prediction)
    (rm_image force_rebuild : bool) (run_id output_path : string) (mode : Mode)
    (timeout : option Z) : M World PipelineResult :=
  let instance_id := ts_instance_id test_spec in
  let log_dir := log_dir_of output_path run_id pred instance_id in
  let run_instance_log_name :=
    if is_not_apply_patch mode then "run_instance_prev_apply.log"
    else "run_instance_after_apply.log" in
  let log_file := log_dir </> run_instance_log_name in
  let report_path := log_dir </> "report.json" in
  found ← report_exists report_path;
  if found : bool then
    report ← read_report report_path;
    mret (Some (instance_id, Some report))
  else
    setup_logger (on_setup_logger plan) log_file;;
    with_locals
      (try_finally
         (try_except
            (run_instance_setup_body plan test_spec pred log_dir log_file report_path mode)
            (fun e => lift (report_failure instance_id log_file e)))
         (pipeline_finally plan test_spec rm_image)).

(** The [try] block of [run_instance].  Its call of [get_pred_report] passes
    the keywords [log_path] and [include_tests_status], which the function
    defined in this file does not take: the call raises [TypeError] and the
    statements after it are never reached. *)
Definition run_instance_body (plan : Plan) (test_spec : TestSpec)
    (pred : Prediction) (log_dir log_file report_path : Path)
    : M Frame PipelineResult :=
  let instance_id := ts_instance_id test_spec in
  container ← lift (build_setup_container (on_build plan) test_spec);
  set_container (Some container);;
  lift (
    container_start (on_start plan) container;;
    logger_info log_file
      ("Container for " +:+ instance_id +:+ " started: " +:+ container);;
    let patch_file := log_dir </> "patch.diff" in
    write_text patch_file (default "" (ts_patch test_spec));;
    logger_info log_file
      ("Intermediate patch for " +:+ instance_id +:+ " written to "
       +:+ path_str patch_file +:+ ", now applying to container...");;
    copy_to_container (on_copy_patch plan) container patch_file "/tmp/patch.diff";;
    (if negb (bool_decide (model_patch pred = Some "none"))
     then apply_patch_to_container plan instance_id log_file container
     else mret tt);;
    git_diff ← exec_run (on_git_diff plan) container "git diff";
    logger_info log_file ("Git diff before:" +:+ nl +:+ output git_diff);;
    let eval_file := log_dir </> "eval.sh" in
    write_text eval_file (ts_eval_script test_spec);;
    logger_info log_file
      ("Eval script for " +:+ instance_id +:+ " written to "
       +:+ path_str patch_file +:+ ", now applying to container...");;
    copy_to_container (on_copy_eval plan) container [ts_eval_script test_spec] "/eval.sh";;
    test_output ← exec_run_with_timeout (on_eval plan) container RUN_EVAL;
    let test_output_path := log_dir </> "test_output.txt" in
    write_text test_output_path test_output;;
    logger_info log_file
      ("Test output for " +:+ instance_id +:+ " written to " +:+ path_str test_output_path);;
    logger_info log_file ("Grading answer for " +:+ instance_id +:+ "...");;
    raise (TypeError "get_pred_report() got an unexpected keyword argument 'log_path'")).

Definition run_instance (plan : Plan) (test_spec : TestSpec) (pred : Prediction)
    (rm_image force_rebuild : bool) (run_id output_path : string)
    (timeout : option Z) : M World PipelineResult :=
  let instance_id := ts_instance_id test_spec in
  let log_dir := log_dir_of output_path run_id pred instance_id in
  let log_file := log_dir </> "run_instance.log" in
  let report_path := log_dir </> "report.json" in
  found ← report_exists report_path;
  if found : bool then
    report ← read_report report_path;
    mret (Some (instance_id, Some report))
  else
    setup_logger (on_setup_logger plan) log_file;;
    with_locals
      (try_finally
         (try_except
            (run_instance_body plan test_spec pred log_dir log_file report_path)
            (fun e => lift (report_failure instance_id log_file e)))
         (pipeline_finally plan test_spec rm_image)).

(** The dual-mode protocol: a baseline run, then the patched run.  The
    function has no [return] statement: it returns [None]. *)
Definition run_instance_fail_to_pass (baseline patched : Plan) (test_spec : TestSpec)
    (pred : Prediction) (rm_image force_rebuild : bool) (run_id output_path : string)
    (timeout : option Z) : M World PipelineResult :=
  run_instance_setup baseline test_spec pred false force_rebuild run_id output_path
    not_apply_patch timeout;;
  run_instance_setup patched test_spec pred rm_image false run_id output_path
    apply_patch timeout;;
  mret None.

(** ** Admission: [get_dataset_from_preds] *)

(** [v.get("model_patch") == "" or v.get("model_patch") is None] *)
Definition is_empty_patch (p : option string) : bool :=
  match p with
  | None => true
  | Some s => negb (Str.nonempty s)
  end.

Definition nonempty_list {A} (l : list A) : bool :=
  match l with [] => false | _ :: _ => true end.

Definition in_set (x : string) (s : gset string) : bool := bool_decide (x ∈ s).

(** "check which instance IDs have already been run" *)
Fixpoint completed_loop (predictions : gmap string Prediction)
    (prediction_ids : gset string) (run_id output_path : string)
    (dataset : list Instance) (completed_ids : gset string) : M World (gset string) :=
  match dataset with
  | [] => mret completed_ids
  | instance :: rest =>
      if negb (in_set (instance_id instance) prediction_ids) then
        completed_loop predictions prediction_ids run_id output_path rest completed_ids
      else
        match predictions !! instance_id instance with
        | None => raise (KeyError (instance_id instance))
        | Some prediction =>
            let dir := log_dir_of output_path run_id prediction (pred_instance_id prediction) in
            prev ← text_exists (dir </> "test_output_prev_apply.txt");
            after ← text_exists (dir </> "test_output_after_apply.txt");
            completed_loop predictions prediction_ids run_id output_path rest
              (if prev && after then {[ instance_id instance ]} ∪ completed_ids
               else completed_ids)
        end
  end.

(** [dataset] stands for the value of [load_omnigirl_dataset(dataset_name, split)]. *)
Definition get_dataset_from_preds (dataset : list Instance) (instance_ids : list string)
    (predictions : gmap string Prediction) (run_id version_spec output_path : string)
    (exclude_completed : bool) : M World (list Instance) :=
  let dataset_ids : gset string :=
    if String.eqb version_spec "all"
    then list_to_set (instance_id <$> dataset)
    else list_to_set
           (instance_id <$> filter (fun i => version i = version_spec) dataset) in
  let wanted : gset string := list_to_set instance_ids in
  (if nonempty_list instance_ids then
     (if bool_decide (wanted ∖ dataset_ids ≠ ∅)
      then raise (ValueError "Some instance IDs not found in dataset!")
      else mret tt);;
     let missing_preds := wanted ∖ dom predictions in
     if bool_decide (missing_preds ≠ ∅)
     then print ("Warning: Missing predictions for " +:+ pretty (size missing_preds)
                 +:+ " instance IDs.")
     else mret tt
   else mret tt);;
  let prediction_ids : gset string := dom predictions in
  predictions ←
    (if bool_decide (prediction_ids ∖ dataset_ids ≠ ∅) then
       print ("Warning: " +:+ pretty (size (prediction_ids ∖ dataset_ids))
              +:+ " prediction IDs not found in dataset.");;
       mret (filter (fun kv => fst kv ∈ dataset_ids) predictions)
     else mret predictions);
  let dataset :=
    if nonempty_list instance_ids
    then filter (fun i => instance_id i ∈ wanted) dataset
    else dataset in
  completed_ids ← completed_loop predictions prediction_ids run_id output_path dataset ∅;
  dataset ←
    (if bool_decide (completed_ids ≠ ∅) && exclude_completed then
       print (pretty (size completed_ids) +:+ " instances already run, skipping...");;
       mret (filter (fun i => instance_id i ∉ completed_ids) dataset)
     else mret dataset);
  let empty_setup_ids : gset string :=
    dom (filter (fun kv => is_empty_patch (model_patch (snd kv)) = true) predictions) in
  mret (filter (fun i => instance_id i ∈ prediction_ids
                         ∧ instance_id i ∉ empty_setup_ids) dataset).

(** ** Run reconciler: [make_run_report] *)

Record Buckets := {
  b_completed : gset string;
  b_resolved : gset string;
  b_error : gset string;
  b_unresolved : gset string;
  b_incomplete : gset string;
  b_empty_patch : gset string;
}.

Definition no_buckets : Buckets :=
  {| b_completed := ∅; b_resolved := ∅; b_error := ∅; b_unresolved := ∅;
     b_incomplete := ∅; b_empty_patch := ∅ |}.

(** [instance_id+"_version-"+str(instance['version'])] *)
Definition label (instance : Instance) : string :=
  instance_id instance +:+ "_version-" +:+ version instance.

Definition add_incomplete (x : string) (b : Buckets) : Buckets :=
  {| b_completed := b_completed b; b_resolved := b_resolved b; b_error := b_error b;
     b_unresolved := b_unresolved b; b_incomplete := {[ x ]} ∪ b_incomplete b;
     b_empty_patch := b_empty_patch b |}.
Definition add_empty_patch (x : string) (b : Buckets) : Buckets :=
  {| b_completed := b_completed b; b_resolved := b_resolved b; b_error := b_error b;
     b_unresolved := b_unresolved b; b_incomplete := b_incomplete b;
     b_empty_patch := {[ x ]} ∪ b_empty_patch b |}.
Definition add_completed (x : string) (b : Buckets) : Buckets :=
  {| b_completed := {[ x ]} ∪ b_completed b; b_resolved := b_resolved b;
     b_error := b_error b; b_unresolved := b_unresolved b;
     b_incomplete := b_incomplete b; b_empty_patch := b_empty_patch b |}.
Definition add_resolved (x : string) (b : Buckets) : Buckets :=
  {| b_completed := b_completed b; b_resolved := {[ x ]} ∪ b_resolved b;
     b_error := b_error b; b_unresolved := b_unresolved b;
     b_incomplete := b_incomplete b; b_empty_patch := b_empty_patch b |}.
Definition add_unresolved (x : string) (b : Buckets) : Buckets :=
  {| b_completed := b_completed b; b_resolved := b_resolved b; b_error := b_error b;
     b_unresolved := {[ x ]} ∪ b_unresolved b; b_incomplete := b_incomplete b;
     b_empty_patch := b_empty_patch b |}.
Definition add_error (x : string) (b : Buckets) : Buckets :=
  {| b_completed := b_completed b; b_resolved := b_resolved b;
     b_error := {[ x ]} ∪ b_error b; b_unresolved := b_unresolved b;
     b_incomplete := b_incomplete b; b_empty_patch := b_empty_patch b |}.

(** "iterate through dataset and check if the instance has been run" *)
Fixpoint classify_loop (predictions : gmap string Prediction)
    (run_id output_path : string) (full_dataset : list Instance) (b : Buckets)
    : M World Buckets :=
  match full_dataset with
  | [] => mret b
  | instance :: rest =>
      let id := instance_id instance in
      match predictions !! id with
      | None =>
          classify_loop predictions run_id output_path rest
            (add_incomplete (label instance) b)
      | Some prediction =>
          if is_empty_patch (model_patch prediction) then
            classify_loop predictions run_id output_path rest
              (add_empty_patch (label instance) b)
          else
            let log_dir := log_dir_of output_path run_id prediction id in
            let report_file := log_dir </> "report.json" in
            found ← report_exists report_file;
            if found : bool then
              let b := add_completed (label instance) b in
              report ← read_report report_file;
              match report !! id with
              | None => raise (KeyError id)
              | Some entry =>
                  classify_loop predictions run_id output_path rest
                    (if resolved entry then add_resolved (label instance) b
                     else add_unresolved (label instance) b)
              end
            else
              classify_loop predictions run_id output_path rest
                (add_error (label instance) b)
      end
  end.

Section WithTestSpecs.

(** [make_test_spec] of module test_spec; it may return [None]. *)
Variable make_test_spec : Instance -> Prediction -> option TestSpec.

(** [[make_test_spec(instance, predictions[instance['instance_id']])
     for instance in full_dataset if instance['instance_id'] in predictions]] *)
Definition specs_of_predicted (predictions : gmap string Prediction)
    (full_dataset : list Instance) : list (option TestSpec) :=
  omap (fun instance =>
          match predictions !! instance_id instance with
          | Some prediction => Some (make_test_spec instance prediction)
          | None => None
          end) full_dataset.

(** "for spec in test_specs: ... unremoved_images.add(image_name)" *)
Fixpoint unremoved_loop (images : gset string) (test_specs : list (option TestSpec))
    (unremoved : gset string) : Res (gset string) :=
  match test_specs with
  | [] => Ret unremoved
  | None :: _ =>
      Raise (AttributeError "'NoneType' object has no attribute 'instance_image_key'")
  | Some spec :: rest =>
      unremoved_loop images rest
        (if in_set (ts_instance_image_key spec) images
         then {[ ts_instance_image_key spec ]} ∪ unremoved
         else unremoved)
  end.

(** [list(predictions.values())[0]], the prediction inserted first.  A
    [gmap] does not keep the order of insertion: the first binding of the map
    stands for it, and the statements say of the result only what holds of
    every prediction of the dict. *)
Definition first_prediction (predictions : gmap string Prediction) : Res Prediction :=
  match map_to_list predictions with
  | [] => Raise IndexError
  | kv :: _ => Ret (snd kv)
  end.

(** [list_images(client)] and [client.containers.list(all=True)] return the
    images and the containers the engine holds. *)
Definition make_run_report (predictions : gmap string Prediction)
    (full_dataset : list Instance) (run_id reports_dir output_path : string)
    : M World RunReport :=
  b ← classify_loop predictions run_id output_path full_dataset no_buckets;
  images ← gets images;
  unremoved ← outcome (unremoved_loop images (specs_of_predicted predictions full_dataset) ∅);
  containers ← gets live;
  let unstopped : gset string :=
    filter (fun name => Str.contains run_id name = true) containers in
  print ("Total instances: " +:+ pretty (List.length full_dataset));;
  print ("Instances submitted: " +:+ pretty (size predictions));;
  print ("Instances completed: " +:+ pretty (size (b_completed b)));;
  print ("Instances incomplete: " +:+ pretty (size (b_incomplete b)));;
  print ("Instances resolved: " +:+ pretty (size (b_resolved b)));;
  print ("Instances unresolved: " +:+ pretty (size (b_unresolved b)));;
  print ("Instances with empty patches: " +:+ pretty (size (b_empty_patch b)));;
  print ("Instances with errors: " +:+ pretty (size (b_error b)));;
  print ("Unstopped containers: " +:+ pretty (size unstopped));;
  print ("Unremoved images: " +:+ pretty (size unremoved));;
  let report :=
    {| total_instances := List.length full_dataset;
       submitted_instances := size predictions;
       completed_instances := size (b_completed b);
       resolved_instances := size (b_resolved b);
       unresolved_instances := size (b_unresolved b);
       empty_patch_instances := size (b_empty_patch b);
       error_instances := size (b_error b);
       unstopped_instances := size unstopped;
       completed_ids := b_completed b;
       incomplete_ids := b_incomplete b;
       empty_patch_ids := b_empty_patch b;
       submitted_ids := dom predictions;
       resolved_ids := b_resolved b;
       unresolved_ids := b_unresolved b;
       error_ids := b_error b;
       unstopped_containers := unstopped;
       unremoved_images := unremoved |} in
  first ← outcome (first_prediction predictions);
  let report_file :=
    joinpath (path_of reports_dir)
      (Str.replace_slash (model_name_or_path first) +:+ "." +:+ run_id +:+ ".json") in
  modify (with_run_reports (fun r => <[report_file := report]> r));;
  print ("Report written to " +:+ path_str report_file);;
  mret report.

(** ** Scheduler: [run_instances] *)

(** [[make_test_spec(instance, predictions[instance['instance_id']])
     for instance in instances]] *)
Fixpoint make_test_specs (predictions : gmap string Prediction)
    (instances : list Instance) : Res (list (option TestSpec)) :=
  match instances with
  | [] => Ret []
  | instance :: rest =>
      match predictions !! instance_id instance with
      | None => Raise (KeyError (instance_id instance))
      | Some prediction =>
          match make_test_specs predictions rest with
          | Ret specs => Ret (make_test_spec instance prediction :: specs)
          | Raise e => Raise e
          end
      end
  end.

(** [[test_spec for test_spec in test_specs if test_spec != None]] *)
Definition drop_none (test_specs : list (option TestSpec)) : list TestSpec :=
  omap id test_specs.

(** A submitted call runs to its end; what it returned or raised is kept
    in its future. *)
Definition future {A} (call : M World A) : M World (Res A) :=
  fun w => match call w with (r, w') => (Ret r, w') end.

(** [{executor.submit(job, test_spec, predictions[test_spec.instance_id], ...): None
     for test_spec in test_specs}].  The calls are run one after the other,
    in the order of submission. *)
Fixpoint submit_all {A} (job : TestSpec -> Prediction -> M World A)
    (predictions : gmap string Prediction) (test_specs : list TestSpec)
    : M World (list (Res A)) :=
  match test_specs with
  | [] => mret []
  | test_spec :: rest =>
      match predictions !! ts_instance_id test_spec with
      | None => raise (KeyError (ts_instance_id test_spec))
      | Some pred =>
          f ← future (job test_spec pred);
          fs ← submit_all job predictions rest;
          mret (f :: fs)
      end
  end.

(** [for future in as_completed(futures): pbar.update(1); try: future.result()
     except Exception: traceback.print_exc(); continue].  The traceback goes
    to the standard error stream, which the world does not hold. *)
Fixpoint drain {A} (futures : list (Res A)) : M World unit :=
  match futures with
  | [] => mret tt
  | f :: rest =>
      modify (with_pbar S);;
      try_except (outcome f;; mret tt) (fun _ => mret tt);;
      drain rest
  end.

(** [ThreadPoolExecutor(max_workers=max_workers)]: the constructor refuses a
    number of workers that is not positive. *)
Definition thread_pool_executor (max_workers : Z) : M World unit :=
  if (max_workers <=? 0)%Z
  then raise (ValueError "max_workers must be greater than 0")
  else mret tt.

(** [plans] and [baseline_plans] give, for the task of each instance id,
    what its patched-mode and baseline-mode pipeline calls meet; [engine]
    what the scheduler's own calls of the engine meet. *)
Definition run_instances (engine : Engine) (plans baseline_plans : string -> Plan)
    (predictions : gmap string Prediction) (instances : list Instance)
    (cache_level : string) (clean force_rebuild : bool) (max_workers : Z)
    (run_id output_path : string) (timeout : option Z) (is_judge_fail2pass : bool)
    : M World unit :=
  outcome (on_client engine);;
  test_specs ← outcome (make_test_specs predictions instances);
  let test_specs := drop_none test_specs in
  let instance_image_ids : gset string :=
    list_to_set (ts_instance_image_key <$> test_specs) in
  outcome (on_images_list engine);;
  existing_images ← gets (fun w => images w ∩ instance_image_ids);
  (if negb force_rebuild && bool_decide (existing_images ≠ ∅)
   then print ("Found " +:+ pretty (size existing_images)
               +:+ " existing instance images. Will reuse them.")
   else mret tt);;
  print ("Running " +:+ pretty (List.length instances) +:+ " instances...");;
  (if is_judge_fail2pass then
     thread_pool_executor max_workers;;
     futures ← submit_all
       (fun test_spec pred =>
          run_instance_fail_to_pass
            (baseline_plans (ts_instance_id test_spec)) (plans (ts_instance_id test_spec))
            test_spec pred true force_rebuild run_id output_path timeout)
       predictions test_specs;
     drain futures
   else
     thread_pool_executor max_workers;;
     futures ← submit_all
       (fun test_spec pred =>
          run_instance_setup (plans (ts_instance_id test_spec))
            test_spec pred true force_rebuild run_id output_path apply_patch timeout)
       predictions test_specs;
     drain futures);;
  print "All instances run.".

End WithTestSpecs.

(** ** Notions used in the statements *)

(** The regular expression's first match carries the digit 0. *)
Definition first_exit_code_is_0 (test_output : string) : bool :=
  match exit_code_search test_output with
  | Some d => Ascii.eqb d "0"
  | None => false
  end.

(** Stated from the claim's words: the test output contains the exit-code
    marker with value 0. *)
Definition contains_exit_code_0 (test_output : string) : bool :=
  Str.contains (EXIT_CODE_MARKER +:+ "0") test_output.

Definition empty_world : World :=
  {| texts := ∅; reports := ∅; run_reports := ∅; live := ∅; images := ∅;
     trace := []; stdout := []; pbar := 0 |}.

(** The entry [get_pred_report] computes from the test output and the run
    log. *)
Definition graded_entry (prediction : Prediction) (out log : string) : Report :=
  match model_patch prediction with
  | None =>
      {| patch_is_None := true; patch_exists := false;
         patch_successfully_applied := false; resolved := false |}
  | Some _ =>
      {| patch_is_None := false; patch_exists := true;
         patch_successfully_applied := Str.contains APPLY_PATCH_PASS log;
         resolved := first_exit_code_is_0 out |}
  end.

(** The [finally] clause, on the world, for a given value of [container]. *)
Definition finally_on (plan : Plan) (test_spec : TestSpec) (rm_image : bool)
    (container : option Container) : M World unit :=
  cleanup_container container;;
  (if rm_image
   then remove_image (on_remove_image plan) (ts_instance_image_key test_spec)
   else mret tt);;
  close_logger (on_close_logger plan).

(** What a [try/except/finally] statement of the pipelines does, given what
    its [try] block did. *)
Definition guarded_outcome (plan : Plan) (test_spec : TestSpec) (rm_image : bool)
    (log_file : Path) (tried : Res PipelineResult * Frame)
    : Res PipelineResult * World :=
  let handled :=
    match tried.1 with
    | Ret v => (Ret v, fr_world tried.2)
    | Raise e => report_failure (ts_instance_id test_spec) log_file e (fr_world tried.2)
    end in
  let final := finally_on plan test_spec rm_image (fr_container tried.2) handled.2 in
  (match final.1 with Ret _ => handled.1 | Raise e => Raise e end, final.2).

(** An engine call made on container [c]. *)
Definition uses (c : Container) (e : Event) : Prop :=
  match e with
  | EvStart c' | EvCopy c' _ _ | EvExec c' _ | EvExecTimeout c' _ => c' = c
  | _ => False
  end.

Definition is_image_event (e : Event) : Prop :=
  match e with EvRemoveImage _ => True | _ => False end.

(** The engine calls [delta] of one pipeline call acquire no container, or
    acquire one, use it, and release it exactly once, after which only image
    removal follows; [before] and [after] are the live containers. *)
Definition released_exactly_once (delta : list Event) (before after : gset Container)
    : Prop :=
  (Forall is_image_event delta /\ after = before)
  \/ exists c key pre post,
       delta = EvCreate c key :: pre ++ EvRelease c :: post
       /\ Forall (uses c) pre
       /\ Forall is_image_event post
       /\ after = before ∖ {[ c ]}.

(** A [try] block that acquires at most one container, records it in
    [container], and then only uses it. *)
Definition acquires_at_most_one (w : World) (tried : Res PipelineResult * Frame) : Prop :=
  (fr_container tried.2 = None /\ trace (fr_world tried.2) = trace w
   /\ live (fr_world tried.2) = live w)
  \/ exists c key pre,
       fr_container tried.2 = Some c
       /\ trace (fr_world tried.2) = trace w ++ EvCreate c key :: pre
       /\ Forall (uses c) pre
       /\ live (fr_world tried.2) = {[ c ]} ∪ live w.

(** The commands run in the container by [exec_run], in order. *)
Definition exec_commands (delta : list Event) : list string :=
  omap (fun e => match e with EvExec _ cmd => Some cmd | _ => None end) delta.

(** The commands run under the timeout, in order. *)
Definition eval_commands (delta : list Event) : list string :=
  omap (fun e => match e with EvExecTimeout _ cmd => Some cmd | _ => None end) delta.

(** The image removals requested, in order. *)
Definition removed_images (delta : list Event) : list string :=
  omap (fun e => match e with EvRemoveImage key => Some key | _ => None end) delta.

(** The patch-application protocol, read off the engine calls [delta] that a
    patched-mode call made from world [w] with outcome [run]:
    - strict apply exits 0: one attempt, and the test script is run (when the
      eval script could be copied);
    - strict apply exits non-zero, fuzzy apply exits 0: two attempts, and the
      test script is run;
    - both exit non-zero: two attempts, no third, the test script is not run,
      no report is written, and the patch applier raises [EvaluationError]
      with the failure marker followed by the output of the fuzzy attempt. *)
Definition strict_then_fuzzy (plan : Plan) (id : string) (log_file : Path)
    (c : Container) (w : World) (run : Res PipelineResult * World) : Prop :=
  exists delta,
    trace run.2 = trace w ++ delta
    /\ (forall v1, on_git_apply plan = Ret v1 -> exit_code v1 = 0%Z ->
        exec_commands delta = [GIT_APPLY]
        /\ (on_copy_eval plan = Ret tt -> eval_commands delta = [RUN_EVAL]))
    /\ (forall v1 v2, on_git_apply plan = Ret v1 -> exit_code v1 ≠ 0%Z ->
        on_patch_fuzz plan = Ret v2 -> exit_code v2 = 0%Z ->
        exec_commands delta = [GIT_APPLY; PATCH_FUZZ]
        /\ (on_copy_eval plan = Ret tt -> eval_commands delta = [RUN_EVAL]))
    /\ (forall v1 v2, on_git_apply plan = Ret v1 -> exit_code v1 ≠ 0%Z ->
        on_patch_fuzz plan = Ret v2 -> exit_code v2 ≠ 0%Z ->
        exec_commands delta = [GIT_APPLY; PATCH_FUZZ]
        /\ eval_commands delta = []
        /\ reports run.2 = reports w
        /\ forall w0,
             (apply_patch_to_container plan id log_file c w0).1
             = Raise (EvaluationError id
                        (APPLY_PATCH_FAIL +:+ ":" +:+ nl +:+ output v2))).

(** ** Example data *)

Definition T1_spec : TestSpec :=
  {| ts_instance_id := "T1"; ts_patch := Some "--- a/a.py";
     ts_eval_script := "pytest"; ts_instance_image_key := "img:T1" |}.

Definition T1_pred : Prediction :=
  {| pred_instance_id := "T1"; model_name_or_path := "org/model";
     model_patch := Some "--- a/a.py" |}.

Definition T1 : Instance := {| instance_id := "T1"; version := "1.0" |}.

(** Every call returns; both apply strategies exit 0; the tests pass. *)
Definition plan_ok : Plan :=
  {| on_setup_logger := Ret tt; on_build := Ret "c1"; on_start := Ret tt;
     on_copy_patch := Ret tt;
     on_git_apply := Ret {| exit_code := 0; output := "Applied patch a.py cleanly." |};
     on_patch_fuzz := Ret {| exit_code := 0; output := "patching file a.py" |};
     on_git_diff := Ret {| exit_code := 0; output := "" |};
     on_copy_eval := Ret tt;
     on_eval := Ret "+ echo OMNIGRIL_EXIT_CODE=0";
     on_grading := Ret tt; on_remove_image := Ret tt; on_close_logger := Ret tt |}.

(** Both apply strategies exit non-zero. *)
Definition plan_both_fail : Plan :=
  {| on_setup_logger := Ret tt; on_build := Ret "c1"; on_start := Ret tt;
     on_copy_patch := Ret tt;
     on_git_apply := Ret {| exit_code := 1; output := "error: patch failed: a.py:1" |};
     on_patch_fuzz := Ret {| exit_code := 1; output := "1 out of 1 hunk FAILED" |};
     on_git_diff := Ret {| exit_code := 0; output := "" |};
     on_copy_eval := Ret tt;
     on_eval := Ret "+ echo OMNIGRIL_EXIT_CODE=0";
     on_grading := Ret tt; on_remove_image := Ret tt; on_close_logger := Ret tt |}.

(** An exception is raised while grading. *)
Definition plan_grading_fault : Plan :=
  {| on_setup_logger := Ret tt; on_build := Ret "c1"; on_start := Ret tt;
     on_copy_patch := Ret tt;
     on_git_apply := Ret {| exit_code := 0; output := "Applied patch a.py cleanly." |};
     on_patch_fuzz := Ret {| exit_code := 0; output := "patching file a.py" |};
     on_git_diff := Ret {| exit_code := 0; output := "" |};
     on_copy_eval := Ret tt;
     on_eval := Ret "+ echo OMNIGRIL_EXIT_CODE=0";
     on_grading := Raise (EngineError "injected"); on_remove_image := Ret tt;
     on_close_logger := Ret tt |}.

(** ** Notions used in the statements about the reconciler and admission *)

Inductive Bucket := Incomplete | EmptyPatch | Resolved | Unresolved | Error.

(** The branch of the loop of [make_run_report] an instance takes. *)
Definition bucket_of (predictions : gmap string Prediction) (run_id output_path : string)
    (w : World) (instance : Instance) : Res Bucket :=
  let id := instance_id instance in
  match predictions !! id with
  | None => Ret Incomplete
  | Some prediction =>
      if is_empty_patch (model_patch prediction) then Ret EmptyPatch
      else
        match reports w !! (log_dir_of output_path run_id prediction id </> "report.json") with
        | None => Ret Error
        | Some report =>
            match report !! id with
            | Some entry => Ret (if resolved entry then Resolved else Unresolved)
            | None => Raise (KeyError id)
            end
        end
  end.

Definition put (bk : Bucket) (x : string) (b : Buckets) : Buckets :=
  match bk with
  | Incomplete => add_incomplete x b
  | EmptyPatch => add_empty_patch x b
  | Resolved => add_resolved x (add_completed x b)
  | Unresolved => add_unresolved x (add_completed x b)
  | Error => add_error x b
  end.

Definition ids_in (bk : Bucket) (b : Buckets) : gset string :=
  match bk with
  | Incomplete => b_incomplete b
  | EmptyPatch => b_empty_patch b
  | Resolved => b_resolved b
  | Unresolved => b_unresolved b
  | Error => b_error b
  end.

(** The id list of a bucket in the aggregate report. *)
Definition bucket_ids (bk : Bucket) (r : RunReport) : gset string :=
  match bk with
  | Incomplete => incomplete_ids r
  | EmptyPatch => empty_patch_ids r
  | Resolved => resolved_ids r
  | Unresolved => unresolved_ids r
  | Error => error_ids r
  end.

(** The five buckets of the report are pairwise disjoint and their union is
    the set of labels of the full dataset. *)
Definition partitions (full_dataset : list Instance) (r : RunReport) : Prop :=
  (forall bk1 bk2, bk1 ≠ bk2 -> bucket_ids bk1 r ## bucket_ids bk2 r)
  /\ incomplete_ids r ∪ empty_patch_ids r ∪ resolved_ids r ∪ unresolved_ids r
       ∪ error_ids r
     = list_to_set (label <$> full_dataset).

(** Every report.json found for a task of the dataset holds the entry of
    that task, as written by [run_instance_setup]. *)
Definition reports_well_keyed (predictions : gmap string Prediction)
    (run_id output_path : string) (full_dataset : list Instance) (w : World) : Prop :=
  forall instance prediction report,
    instance ∈ full_dataset ->
    predictions !! instance_id instance = Some prediction ->
    reports w !! (log_dir_of output_path run_id prediction (instance_id instance)
                  </> "report.json") = Some report ->
    is_Some (report !! instance_id instance).

(** Distinct task identities have distinct labels. *)
Definition labels_distinct (full_dataset : list Instance) : Prop :=
  forall i j, i ∈ full_dataset -> j ∈ full_dataset ->
              label i = label j -> instance_id i = instance_id j.

(** Both test-output files of a prediction's log directory exist. *)
Definition both_outputs_exist (run_id output_path : string) (prediction : Prediction)
    (w : World) : bool :=
  let dir := log_dir_of output_path run_id prediction (pred_instance_id prediction) in
  bool_decide (is_Some (texts w !! (dir </> "test_output_prev_apply.txt")))
  && bool_decide (is_Some (texts w !! (dir </> "test_output_after_apply.txt"))).

Definition T2 : Instance := {| instance_id := "T2"; version := "1.0" |}.

Definition example_make_test_spec (instance : Instance) (prediction : Prediction)
    : option TestSpec :=
  Some {| ts_instance_id := instance_id instance;
          ts_patch := model_patch prediction;
          ts_eval_script := "pytest";
          ts_instance_image_key := "img:" +:+ instance_id instance |}.

Definition T1_predictions : gmap string Prediction := {[ "T1" := T1_pred ]}.

(** Two task identities with the same label, one with an empty patch and one
    without a prediction. *)
Definition colliding_dataset : list Instance :=
  [ {| instance_id := "a"; version := "b_version-c" |};
    {| instance_id := "a_version-b"; version := "c" |} ].

Definition colliding_predictions : gmap string Prediction :=
  {[ "a" := {| pred_instance_id := "a"; model_name_or_path := "org/model";
               model_patch := None |} ]}.

(** The set [dataset_ids] of [get_dataset_from_preds]. *)
Definition dataset_ids_of (version_spec : string) (dataset : list Instance) : gset string :=
  if String.eqb version_spec "all"
  then list_to_set (instance_id <$> dataset)
  else list_to_set (instance_id <$> filter (fun i => version i = version_spec) dataset).

(** The predictions kept after the check against the dataset ids. *)
Definition kept_predictions (predictions : gmap string Prediction) (dataset_ids : gset string)
    : gmap string Prediction :=
  if bool_decide (dom predictions ∖ dataset_ids ≠ ∅)
  then filter (fun kv => fst kv ∈ dataset_ids) predictions
  else predictions.

Definition wanted_dataset (instance_ids : list string) (dataset : list Instance)
    : list Instance :=
  if nonempty_list instance_ids
  then filter (fun i => instance_id i ∈ (list_to_set instance_ids : gset string)) dataset
  else dataset.

(** An instance of the dataset passes admission: it is among the requested
    ids, has a prediction with a non-empty patch, and its log directory does
    not hold both test-output files. *)
Definition admits (instance_ids : list string) (predictions : gmap string Prediction)
    (run_id out : string) (w : World) (i : Instance) : bool :=
  (negb (nonempty_list instance_ids) || in_set (instance_id i) (list_to_set instance_ids))
  && match predictions !! instance_id i with
     | Some prediction =>
         negb (is_empty_patch (model_patch prediction))
         && negb (both_outputs_exist run_id out prediction w)
     | None => false
     end.

Definition report_only_world : World :=
  with_reports
    (fun r => <[ log_dir_of "out" "run1" T1_pred "T1" </> "report.json" :=
                   {[ "T1" := {| patch_is_None := false; patch_exists := true;
                                 patch_successfully_applied := true;
                                 resolved := true |} ]} ]> r)
    empty_world.

Definition outputs_only_world : World :=
  with_texts
    (fun t => <[ log_dir_of "out" "run1" T1_pred "T1" </> "test_output_prev_apply.txt" := "" ]>
                (<[ log_dir_of "out" "run1" T1_pred "T1" </> "test_output_after_apply.txt" := "" ]> t))
    empty_world.

(** The reconciler, run on world [w], completes and counts the instance in
    the error bucket - and in no other bucket when labels are distinct. *)
Definition counted_as_error (mk : Instance -> Prediction -> option TestSpec)
    (predictions : gmap string Prediction) (full_dataset : list Instance)
    (run_id reports_dir out : string) (instance : Instance) (w : World) : Prop :=
  exists r w',
    make_run_report mk predictions full_dataset run_id reports_dir out w = (Ret r, w')
    /\ label instance ∈ error_ids r
    /\ (labels_distinct full_dataset ->
        forall bk, bk ≠ Error -> label instance ∉ bucket_ids bk r).

(** ** Locality of a pipeline call *)

(** [m] run from related states gives the same outcome and related states. *)
Definition respects {S A} (R : S -> S -> Prop) (m : M S A) : Prop :=
  forall s1 s2, R s1 s2 -> (m s1).1 = (m s2).1 /\ R (m s1).2 (m s2).2.

(** [m] leaves the state related to the one it started from. *)
Definition keeps {S A} (Q : S -> S -> Prop) (m : M S A) : Prop :=
  forall s, Q s (m s).2.

(** The files of directory [d] are the same in both worlds. *)
Definition agree (d : Path) (w1 w2 : World) : Prop :=
  forall name,
    texts w1 !! (d </> name) = texts w2 !! (d </> name)
    /\ reports w1 !! (d </> name) = reports w2 !! (d </> name).

(** A relation between worlds that is kept when a pipeline working in
    directory [d] makes the same step on both sides. *)
Class Local (d : Path) (R : World -> World -> Prop) : Prop := {
  local_agree w1 w2 : R w1 w2 -> agree d w1 w2;
  local_write n (g : option string -> string) w1 w2 :
    R w1 w2 ->
    R (with_texts (fun t => <[d </> n := g (t !! (d </> n))]> t) w1)
      (with_texts (fun t => <[d </> n := g (t !! (d </> n))]> t) w2);
  local_write_report n doc w1 w2 :
    R w1 w2 ->
    R (with_reports (fun r => <[d </> n := doc]> r) w1)
      (with_reports (fun r => <[d </> n := doc]> r) w2);
  local_emit e w1 w2 :
    R w1 w2 ->
    R (with_trace (fun t => t ++ [e]) w1) (with_trace (fun t => t ++ [e]) w2);
  local_live f w1 w2 : R w1 w2 -> R (with_live f w1) (with_live f w2);
  local_images f w1 w2 : R w1 w2 -> R (with_images f w1) (with_images f w2);
  local_stdout f w1 w2 : R w1 w2 -> R (with_stdout f w1) (with_stdout f w2);
  local_pbar f w1 w2 : R w1 w2 -> R (with_pbar f w1) (with_pbar f w2);
}.

(** A relation between a world and a later one that every step of a
    pipeline working in directory [d'] keeps. *)
Class Kept (d' : Path) (Q : World -> World -> Prop) : Prop := {
  kept_refl : Reflexive Q;
  kept_trans : Transitive Q;
  kept_write n (g : option string -> string) w :
    Q w (with_texts (fun t => <[d' </> n := g (t !! (d' </> n))]> t) w);
  kept_write_report n doc w : Q w (with_reports (fun r => <[d' </> n := doc]> r) w);
  kept_trace f w : Q w (with_trace f w);
  kept_live f w : Q w (with_live f w);
  kept_images f w : Q w (with_images f w);
  kept_stdout f w : Q w (with_stdout f w);
}.

(** The progress bar is where it was. *)
Definition same_pbar (w w' : World) : Prop := pbar w' = pbar w.

(** The later frame holds a world related to the earlier one. *)
Definition kept_frames (Q : World -> World -> Prop) (f f' : Frame) : Prop :=
  Q (fr_world f) (fr_world f').

(** The frames hold the same container and related worlds. *)
Definition rel_frames (R : World -> World -> Prop) (f1 f2 : Frame) : Prop :=
  fr_container f1 = fr_container f2 /\ R (fr_world f1) (fr_world f2).

(** The files of [d] are the same in both worlds, and so are the engine
    calls made since the traces were [t1] and [t2]. *)
Definition same_run (d : Path) (t1 t2 : list Event) (w1 w2 : World) : Prop :=
  agree d w1 w2 /\ exists delta, trace w1 = t1 ++ delta /\ trace w2 = t2 ++ delta.

(** The call submitted to the executor for one task. *)
Definition submitted_call (dual : bool) (plans baseline_plans : string -> Plan)
    (force_rebuild : bool) (run_id out : string) (timeout : option Z)
    (test_spec : TestSpec) (pred : Prediction) : M World PipelineResult :=
  if dual then
    run_instance_fail_to_pass
      (baseline_plans (ts_instance_id test_spec)) (plans (ts_instance_id test_spec))
      test_spec pred true force_rebuild run_id out timeout
  else
    run_instance_setup (plans (ts_instance_id test_spec))
      test_spec pred true force_rebuild run_id out apply_patch timeout.

(** ** Scheduling and image retention *)

(** A pipeline call gets past its stored-report check and its logger setup. *)
Definition pipeline_starts (plan : Plan) (test_spec : TestSpec) (pred : Prediction)
    (run_id out : string) (w : World) : bool :=
  bool_decide (reports w !! (log_dir_of out run_id pred (ts_instance_id test_spec)
                             </> "report.json") = None)
  && negb (raised (on_setup_logger plan)).

(** The engine calls made from world [w] to world [w']. *)
Definition calls_since (w w' : World) : list Event :=
  drop (List.length (trace w)) (trace w').

(** The call submitted for the task [test_spec], run alone from world [w]. *)
Definition task_alone (dual : bool) (plans baseline_plans : string -> Plan)
    (force_rebuild : bool) (run_id out : string) (timeout : option Z)
    (predictions : gmap string Prediction) (w : World) (test_spec : TestSpec)
    : Res PipelineResult * World :=
  match predictions !! ts_instance_id test_spec with
  | Some pred =>
      submitted_call dual plans baseline_plans force_rebuild run_id out timeout
        test_spec pred w
  | None => (Raise (KeyError (ts_instance_id test_spec)), w)
  end.

(** [run_instances], from world [w], submits the tasks [test_specs], drains
    one future per task and returns; every task made the engine calls, left
    in its future the outcome, and left in its log directory the files, that
    its call makes when it is run alone from [w]. *)
Definition every_task_runs_as_if_alone
    (mk : Instance -> Prediction -> option TestSpec) (engine : Engine) (dual : bool)
    (plans baseline_plans : string -> Plan)
    (predictions : gmap string Prediction) (instances : list Instance)
    (cache_level : string) (clean force_rebuild : bool) (max_workers : Z)
    (run_id out : string) (timeout : option Z) (test_specs : list TestSpec)
    (w : World) : Prop :=
  let run := run_instances mk engine plans baseline_plans predictions instances
               cache_level clean force_rebuild max_workers run_id out timeout dual w in
  let alone := task_alone dual plans baseline_plans force_rebuild run_id out timeout
                 predictions w in
  run.1 = Ret tt
  /\ pbar run.2 = pbar w + List.length test_specs
  /\ trace run.2
     = trace w ++ List.concat ((fun ts => calls_since w (alone ts).2) <$> test_specs)
  /\ (forall ts pred,
        ts ∈ test_specs -> predictions !! ts_instance_id ts = Some pred ->
        agree (log_dir_of out run_id pred (ts_instance_id ts)) run.2 (alone ts).2)
  /\ exists w0 w1,
       texts w0 = texts w /\ reports w0 = reports w /\ trace w0 = trace w
       /\ submit_all (submitted_call dual plans baseline_plans force_rebuild run_id out
                        timeout) predictions test_specs w0
          = (Ret ((fun ts => (alone ts).1) <$> test_specs), w1)
       /\ texts run.2 = texts w1 /\ reports run.2 = reports w1
       /\ trace run.2 = trace w1.

(** The image removals that the call of a task requests when it is run from
    [w]: the image of the task, when the call that is handed [True] gets past
    its stored-report check and its logger setup. *)
Definition requested_removals (dual : bool) (plans baseline_plans : string -> Plan)
    (force_rebuild : bool) (run_id out : string) (timeout : option Z)
    (predictions : gmap string Prediction) (w : World) (test_spec : TestSpec)
    : list string :=
  match predictions !! ts_instance_id test_spec with
  | None => []
  | Some pred =>
      let id := ts_instance_id test_spec in
      if dual then
        let baseline :=
          run_instance_setup (baseline_plans id) test_spec pred false force_rebuild
            run_id out not_apply_patch timeout w in
        if negb (raised baseline.1)
           && pipeline_starts (plans id) test_spec pred run_id out baseline.2
        then [ts_instance_image_key test_spec] else []
      else
        if pipeline_starts (plans id) test_spec pred run_id out w
        then [ts_instance_image_key test_spec] else []
  end.

(** The images from which containers were created, in order. *)
Definition created_images (delta : list Event) : list string :=
  omap (fun e => match e with EvCreate _ key => Some key | _ => None end) delta.

(** Every call of the scheduler and of [main] to the engine returns. *)
Definition engine_ok : Engine :=
  {| on_client := Ret tt; on_images_list := Ret tt; on_list_images := Ret tt |}.

(** The image is not found when the task T2 is built. *)
Definition plan_build_fails : Plan :=
  {| on_setup_logger := Ret tt; on_build := Raise (EngineError "image not found");
     on_start := Ret tt; on_copy_patch := Ret tt;
     on_git_apply := Ret {| exit_code := 0; output := "" |};
     on_patch_fuzz := Ret {| exit_code := 0; output := "" |};
     on_git_diff := Ret {| exit_code := 0; output := "" |};
     on_copy_eval := Ret tt;
     on_eval := Ret "+ echo OMNIGRIL_EXIT_CODE=0";
     on_grading := Ret tt; on_remove_image := Ret tt; on_close_logger := Ret tt |}.

Definition T2_pred : Prediction :=
  {| pred_instance_id := "T2"; model_name_or_path := "org/model";
     model_patch := Some "--- a/b.py" |}.

Definition T1_T2_predictions : gmap string Prediction :=
  {[ "T1" := T1_pred; "T2" := T2_pred ]}.

Definition T2_fails (id : string) : Plan :=
  if String.eqb id "T2" then plan_build_fails else plan_ok.

(** The logger of the task T2 cannot be closed: the exception leaves the
    [finally] clause of the pipeline. *)
Definition T2_raises (id : string) : Plan :=
  if String.eqb id "T2" then
    {| on_setup_logger := Ret tt; on_build := Ret "c2"; on_start := Ret tt;
       on_copy_patch := Ret tt;
       on_git_apply := Ret {| exit_code := 0; output := "" |};
       on_patch_fuzz := Ret {| exit_code := 0; output := "" |};
       on_git_diff := Ret {| exit_code := 0; output := "" |};
       on_copy_eval := Ret tt;
       on_eval := Ret "+ echo OMNIGRIL_EXIT_CODE=1";
       on_grading := Ret tt; on_remove_image := Ret tt;
       on_close_logger := Raise (EngineError "log file gone") |}
  else plan_ok.





(** ** Files of a pipeline call *)

(** The text files a call of [run_instance_setup] writes in its log
    directory. *)
Definition pipeline_files (log_dir : Path) (mode : Mode) : list Path :=
  [ log_dir </> (if is_not_apply_patch mode then "run_instance_prev_apply.log"
                 else "run_instance_after_apply.log");
    log_dir </> "patch.diff";
    log_dir </> "eval.sh";
    log_dir </> (if is_not_apply_patch mode then "test_output_prev_apply.txt"
                 else "test_output_after_apply.txt") ].

(** ** Data for the statements about admission *)

(** A dataset in which the task T1 has version 1.0 only. *)
Definition T1_dataset : list Instance := [T1; T2].

(** ** Data for the statements about the reconciler *)

(** [make_test_spec] gives no spec for the task T2. *)
Definition no_spec_for_T2 (instance : Instance) (prediction : Prediction)
    : option TestSpec :=
  if String.eqb (instance_id instance) "T2" then None
  else example_make_test_spec instance prediction.

(** ** Predictions: [get_gold_predictions], [get_none_predictions] *)

Section WithPatches.

(** [datum["patch"]], the reference patch of a dataset entry. *)
Variable patch : Instance -> option string.

(** [dataset] stands for the value of [load_omnigirl_dataset(dataset_name, split)]. *)
Definition get_gold_predictions (dataset : list Instance) (version_spec : string)
    (instance_ids : list string) : list Prediction :=
  let dataset :=
    if nonempty_list instance_ids
    then filter (fun i => instance_id i ∈ instance_ids) dataset
    else dataset in
  if String.eqb version_spec "all" then
    (fun datum => {| pred_instance_id := instance_id datum;
                     model_patch := patch datum;
                     model_name_or_path := "gold" |}) <$> dataset
  else
    (fun datum => {| pred_instance_id := instance_id datum;
                     model_patch := patch datum;
                     model_name_or_path := "gold" |})
      <$> filter (fun datum => version datum = version_spec) dataset.

Definition get_none_predictions (dataset : list Instance) (version_spec : string)
    (instance_ids : list string) : list Prediction :=
  let dataset :=
    if nonempty_list instance_ids
    then filter (fun i => instance_id i ∈ instance_ids) dataset
    else dataset in
  if String.eqb version_spec "all" then
    (fun datum => {| pred_instance_id := instance_id datum;
                     model_patch := Some "none";
                     model_name_or_path := "gold" |}) <$> dataset
  else
    (fun datum => {| pred_instance_id := instance_id datum;
                     model_patch := Some "none";
                     model_name_or_path := "gold" |})
      <$> filter (fun datum => version datum = version_spec) dataset.

End WithPatches.

(** ** The entry point: [main] *)

(** [{pred["instance_id"]: pred for pred in predictions}]: a later prediction
    replaces an earlier one with the same id. *)
Definition predictions_by_id (predictions : list Prediction) : gmap string Prediction :=
  foldl (fun m pred => <[pred_instance_id pred := pred]> m) ∅ predictions.

(** [s.endswith(suffix)] *)
Definition ends_with (suffix s : string) : bool :=
  (String.length suffix <=? String.length s)%nat
  && String.eqb (String.substring (String.length s - String.length suffix)
                   (String.length suffix) s) suffix.

(** A line of a .jsonl file: empty once stripped, rejected by [json.loads],
    or decoded. *)
Inductive JsonlLine : Type :=
| BlankLine
| Undecodable
| Decoded (pred : Prediction).

(** What [main] gets back from the operating system, the container engine
    and the file of predictions. *)
Record Env := {
  on_setrlimit : Res unit;
  on_from_env : Res unit;
  on_json_load : Res (list Prediction);
  on_jsonl_open : Res (list JsonlLine);
  on_clean_images : Res (gset string);
}.

Inductive MainExn : Type :=
| AssertionError (message : string)
| RuntimeError (predictions_path : string) (cause : Exn)
| Uncaught (e : Exn).

Definition quote : string := String (ascii_of_nat 34) EmptyString.

(** [for line_num, line in enumerate(f, 1): ...] *)
Fixpoint read_jsonl (predictions_path : string) (line_num : nat) (lines : list JsonlLine)
    (predictions : list Prediction) : M World (list Prediction) :=
  match lines with
  | [] => mret predictions
  | BlankLine :: rest => read_jsonl predictions_path (S line_num) rest predictions
  | Decoded pred :: rest =>
      read_jsonl predictions_path (S line_num) rest (predictions ++ [pred])
  | Undecodable :: rest =>
      print ("Warning: Could not decode JSON on line " +:+ pretty line_num +:+ " in "
             +:+ predictions_path +:+ ". Skipping line.");;
      read_jsonl predictions_path (S line_num) rest predictions
  end.

(** The four branches on [predictions_path]. *)
Definition load_predictions (env : Env) (patch : Instance -> option string)
    (dataset : list Instance) (predictions_path version_spec : string)
    (instance_ids : list string) : World -> (list Prediction + MainExn) * World :=
  fun w =>
    if String.eqb predictions_path "gold" then
      (inl (get_gold_predictions patch dataset version_spec instance_ids),
       (print "Using gold predictions - ignoring predictions_path" w).2)
    else if ends_with ".json" predictions_path then
      let w := (print ("Reading predictions from single .json file: "
                       +:+ predictions_path) w).2 in
      match on_json_load env with
      | Ret predictions =>
          (inl predictions,
           (print "Successfully loaded predictions from .json file." w).2)
      | Raise e => (inr (RuntimeError predictions_path e), w)
      end
    else if ends_with ".jsonl" predictions_path then
      let w := (print ("Reading predictions from .jsonl file: " +:+ predictions_path) w).2 in
      match on_jsonl_open env with
      | Ret lines =>
          match read_jsonl predictions_path 1 lines [] w with
          | (Ret predictions, w) =>
              (inl predictions,
               (print ("Successfully loaded " +:+ pretty (List.length predictions)
                       +:+ " entries from .jsonl file.") w).2)
          | (Raise e, w) => (inr (RuntimeError predictions_path e), w)
          end
      | Raise e => (inr (RuntimeError predictions_path e), w)
      end
    else
      (inr (Uncaught (ValueError
              ("Predictions path must be a directory, " +:+ quote +:+ "gold" +:+ quote
               +:+ ", .json, or .jsonl, but got '" +:+ predictions_path +:+ "'"))),
       w).

(** [clean_images(client, existing_images, cache_level, clean)] of
    docker_utils: the images it removed are gone. *)
Definition clean_images (r : Res (gset string)) (prior_images : gset string)
    (cache_level : string) (clean : bool) : M World unit :=
  emit (EvCleanImages cache_level clean);;
  removed ← outcome r;
  modify (with_images (fun i => i ∖ removed)).

Section MainWithTestSpecs.

Variable make_test_spec : Instance -> Prediction -> option TestSpec.

(** [main], from the dict of predictions on. *)
Definition main_run (env : Env) (engine : Engine) (plans baseline_plans : string -> Plan)
    (dataset : list Instance) (instance_ids : list string)
    (predictions : list Prediction) (max_workers : Z)
    (force_rebuild is_judge_fail2pass : bool) (cache_level : string) (clean : bool)
    (run_id output_path : string) (timeout : Z) (version_spec reports_dir : string)
    : M World unit :=
  let predictions := predictions_by_id predictions in
  print ("collect " +:+ pretty (size predictions) +:+ " predictions");;
  admitted ← get_dataset_from_preds dataset instance_ids predictions run_id version_spec
                output_path true;
  let full_dataset := dataset in
  outcome (on_list_images engine);;
  existing_images ← gets images;
  print ("Running " +:+ pretty (List.length admitted) +:+ " unevaluated instances...");;
  (if negb (nonempty_list admitted) then print "No instances to run."
   else run_instances make_test_spec engine plans baseline_plans predictions admitted
          cache_level clean force_rebuild max_workers run_id output_path (Some timeout)
          is_judge_fail2pass);;
  clean_images (on_clean_images env) existing_images cache_level clean;;
  make_run_report make_test_spec predictions full_dataset run_id reports_dir output_path;;
  mret tt.

Definition main (env : Env) (engine : Engine) (patch : Instance -> option string)
    (plans baseline_plans : string -> Plan)
    (dataset : list Instance) (instance_ids : list string) (predictions_path : string)
    (max_workers : Z) (force_rebuild is_judge_fail2pass : bool) (cache_level : string)
    (clean : bool) (open_file_limit : Z) (run_id output_path : string) (timeout : Z)
    (version_spec reports_dir : string) : World -> option MainExn * World :=
  fun w =>
    if negb (0 <? String.length run_id)%nat then
      (Some (AssertionError "Run ID must be provided"), w)
    else
      match (outcome (on_setrlimit env);; outcome (on_from_env env)) w with
      | (Raise e, w) => (Some (Uncaught e), w)
      | (Ret _, w) =>
          match load_predictions env patch dataset predictions_path version_spec
                  instance_ids w with
          | (inr e, w) => (Some e, w)
          | (inl predictions, w) =>
              match main_run env engine plans baseline_plans dataset instance_ids predictions
                      max_workers force_rebuild is_judge_fail2pass cache_level clean
                      run_id output_path timeout version_spec reports_dir w with
              | (Ret _, w) => (None, w)
              | (Raise e, w) => (Some (Uncaught e), w)
              end
          end
      end.

End MainWithTestSpecs.

(** The predictions of the lines that [json.loads] accepts, in order. *)
Definition decoded_lines (lines : list JsonlLine) : list Prediction :=
  omap (fun line => match line with Decoded pred => Some pred | _ => None end) lines.

(** The numbers of the lines that [json.loads] rejects, the first line of
    [lines] having number [line_num]. *)
Fixpoint undecodable_line_numbers (line_num : nat) (lines : list JsonlLine) : list nat :=
  match lines with
  | [] => []
  | Undecodable :: rest => line_num :: undecodable_line_numbers (S line_num) rest
  | _ :: rest => undecodable_line_numbers (S line_num) rest
  end.

(** An environment in which every call returns and the predictions file is
    an empty JSON array. *)
Definition env_no_predictions : Env :=
  {| on_setrlimit := Ret tt; on_from_env := Ret tt; on_json_load := Ret [];
     on_jsonl_open := Ret []; on_clean_images := Ret ∅ |}.

(** ** The store of reports *)

(** Every report.json of a directory named after an instance id holds the
    entry of that id, as [make_run_report] expects. *)
Definition report_store_keyed (w : World) : Prop :=
  forall (d : Path) (id : string) doc,
    reports w !! (d </> id </> "report.json") = Some doc -> is_Some (doc !! id).

(** The store of reports stays keyed. *)
Definition stays_keyed (w w' : World) : Prop :=
  report_store_keyed w -> report_store_keyed w'.

(** * Properties *)

Ltac unfold_m :=
  unfold read_or_warn, text_exists, read_text, report_exists, read_report,
    write_text, write_report, logger_info, print, emit, gets, modify, raise,
    outcome, mbind, M_bind, mret, M_ret in *.

(** ** Grading *)

Lemma with_stdout_nil w : with_stdout (fun o => o ++ []) w = w.
Proof. destruct w; unfold with_stdout; cbn. by rewrite app_nil_r. Qed.

Lemma with_stdout_app w l1 l2 :
  with_stdout (fun o => o ++ l2) (with_stdout (fun o => o ++ l1) w)
  = with_stdout (fun o => o ++ (l1 ++ l2)) w.
Proof. destruct w; unfold with_stdout; cbn. by rewrite app_assoc. Qed.

Lemma read_or_warn_spec p warning w :
  read_or_warn p warning w =
    match texts w !! p with
    | Some s => (Ret s, w)
    | None => (Ret "", with_stdout (fun o => o ++ [warning]) w)
    end.
Proof.
  unfold_m. destruct (texts w !! p) eqn:E; cbn.
  - by rewrite E.
  - reflexivity.
Qed.

Lemma grade_patch_status_spec id log r w :
  exists warnings,
    grade_patch_status id log r w =
      (Ret (if Str.contains APPLY_PATCH_PASS log
            then set_patch_successfully_applied true r
            else if Str.contains APPLY_PATCH_FAIL log
                 then set_patch_successfully_applied false r else r),
       with_stdout (fun o => o ++ warnings) w)
    /\ (Str.contains APPLY_PATCH_PASS log = false ->
        Str.contains APPLY_PATCH_FAIL log = false ->
        ("[WARN] No patch status found in run instance log for " +:+ id) ∈ warnings
        \/ ("[WARN] Empty run instance log content for " +:+ id) ∈ warnings).
Proof.
  unfold grade_patch_status.
  destruct log as [|c log].
  - eexists [_]. split; [unfold_m; cbn; reflexivity|].
    intros; right; set_solver.
  - cbn [Str.nonempty].
    destruct (Str.contains APPLY_PATCH_PASS (String c log)) eqn:HP.
    + exists []. split; [|discriminate]. unfold_m. by rewrite with_stdout_nil.
    + destruct (Str.contains APPLY_PATCH_FAIL (String c log)) eqn:HF.
      * exists []. split; [|discriminate]. unfold_m. by rewrite with_stdout_nil.
      * eexists [_]. split; [unfold_m; cbn; reflexivity|].
        intros; left; set_solver.
Qed.

Lemma exit_code_search_empty : exit_code_search "" = None.
Proof. reflexivity. Qed.

Lemma grade_exit_code_spec id out r w :
  exists warnings,
    grade_exit_code id out r w =
      (Ret (if first_exit_code_is_0 out then set_resolved true r else r),
       with_stdout (fun o => o ++ warnings) w)
    /\ (exit_code_search out = None ->
        ("[WARN] No exit code found in test output for " +:+ id) ∈ warnings
        \/ ("[WARN] Empty test output content for " +:+ id) ∈ warnings).
Proof.
  unfold grade_exit_code, first_exit_code_is_0.
  destruct out as [|c out].
  - eexists [_]. split; [unfold_m; cbn; reflexivity|].
    intros; right; set_solver.
  - cbn [Str.nonempty].
    destruct (exit_code_search (String c out)) as [d|] eqn:E.
    + exists []. split; [|discriminate].
      unfold_m. rewrite with_stdout_nil. by destruct (Ascii.eqb d "0").
    + eexists [_]. split; [unfold_m; cbn; reflexivity|].
      intros; left; set_solver.
Qed.

Lemma get_pred_report_spec test_spec prediction test_output_path w :
  let id := pred_instance_id prediction in
  let out := default "" (texts w !! test_output_path) in
  let log :=
    default "" (texts w !! (parent test_output_path </> "run_instance_after_apply.log")) in
  exists entry warnings,
    get_pred_report test_spec prediction test_output_path w
    = (Ret {[ id := entry ]}, with_stdout (fun o => o ++ warnings) w)
    /\ match model_patch prediction with
       | None =>
           entry = {| patch_is_None := true; patch_exists := false;
                      patch_successfully_applied := false; resolved := false |}
           /\ warnings = []
       | Some _ =>
           patch_is_None entry = false
           /\ patch_exists entry = true
           /\ patch_successfully_applied entry = Str.contains APPLY_PATCH_PASS log
           /\ resolved entry = first_exit_code_is_0 out
           /\ (Str.contains APPLY_PATCH_PASS log = false ->
               Str.contains APPLY_PATCH_FAIL log = false ->
               patch_successfully_applied entry = false
               /\ (("[WARN] No patch status found in run instance log for " +:+ id)
                     ∈ warnings
                   \/ ("[WARN] Empty run instance log content for " +:+ id) ∈ warnings))
           /\ (exit_code_search out = None ->
               resolved entry = false
               /\ (("[WARN] No exit code found in test output for " +:+ id) ∈ warnings
                   \/ ("[WARN] Empty test output content for " +:+ id) ∈ warnings))
       end.
Proof.
  intros id out log. unfold get_pred_report. fold id.
  destruct (model_patch prediction) as [patch|].
  2:{ eexists _, []. rewrite with_stdout_nil. split; [reflexivity|]. by split. }
  unfold mbind at 1, M_bind at 1. rewrite read_or_warn_spec.
  assert (Htail : forall pre,
    exists entry warnings,
      match
        read_or_warn (parent test_output_path </> "run_instance_after_apply.log")
          ("[WARN] Run instance log file not found: "
           +:+ path_str (parent test_output_path </> "run_instance_after_apply.log"))
          (with_stdout (fun o => o ++ pre) w)
      with
      | (Ret a, s') =>
          (r ← grade_patch_status id a (set_patch_exists true report_init);
           r0 ← grade_exit_code id out r;
           mret ({[ id := r0 ]} : gmap string Report)) s'
      | (Raise e, s') => (Raise e, s')
      end
      = (Ret ({[ id := entry ]} : gmap string Report),
         with_stdout (fun o => o ++ warnings) w)
      /\ patch_is_None entry = false
      /\ patch_exists entry = true
      /\ patch_successfully_applied entry = Str.contains APPLY_PATCH_PASS log
      /\ resolved entry = first_exit_code_is_0 out
      /\ (Str.contains APPLY_PATCH_PASS log = false ->
          Str.contains APPLY_PATCH_FAIL log = false ->
          patch_successfully_applied entry = false
          /\ (("[WARN] No patch status found in run instance log for " +:+ id)
                ∈ warnings
              \/ ("[WARN] Empty run instance log content for " +:+ id) ∈ warnings))
      /\ (exit_code_search out = None ->
          resolved entry = false
          /\ (("[WARN] No exit code found in test output for " +:+ id) ∈ warnings
              \/ ("[WARN] Empty test output content for " +:+ id) ∈ warnings))).
  { intros pre. rewrite read_or_warn_spec. cbn [texts with_stdout].
    assert (Hlog : exists pre2,
      match texts w !! (parent test_output_path </> "run_instance_after_apply.log") with
      | Some s => (Ret s, with_stdout (fun o => o ++ pre) w)
      | None => (Ret "", with_stdout (fun o => o ++
                   ["[WARN] Run instance log file not found: "
                    +:+ path_str (parent test_output_path </> "run_instance_after_apply.log")])
                   (with_stdout (fun o => o ++ pre) w))
      end = (Ret log, with_stdout (fun o => o ++ pre2) w)).
    { unfold log.
      destruct (texts w !! (parent test_output_path </> "run_instance_after_apply.log"));
        cbn; eexists; try reflexivity.
      by rewrite with_stdout_app. }
    destruct Hlog as (pre2 & ->).
    destruct (grade_patch_status_spec id log (set_patch_exists true report_init)
                (with_stdout (fun o => o ++ pre2) w)) as (ws1 & E1 & W1).
    destruct (grade_exit_code_spec id out
                (if Str.contains APPLY_PATCH_PASS log
                 then set_patch_successfully_applied true (set_patch_exists true report_init)
                 else if Str.contains APPLY_PATCH_FAIL log
                      then set_patch_successfully_applied false
                             (set_patch_exists true report_init)
                      else set_patch_exists true report_init)
                (with_stdout (fun o => o ++ ws1)
                   (with_stdout (fun o => o ++ pre2) w))) as (ws2 & E2 & W2).
    unfold mbind, M_bind. rewrite E1, E2. unfold mret, M_ret.
    rewrite !with_stdout_app.
    eexists _, _. split; [reflexivity|].
    repeat split.
    - by destruct (Str.contains APPLY_PATCH_PASS log), (Str.contains APPLY_PATCH_FAIL log),
        (first_exit_code_is_0 out).
    - by destruct (Str.contains APPLY_PATCH_PASS log), (Str.contains APPLY_PATCH_FAIL log),
        (first_exit_code_is_0 out).
    - by destruct (Str.contains APPLY_PATCH_PASS log), (Str.contains APPLY_PATCH_FAIL log),
        (first_exit_code_is_0 out).
    - by destruct (Str.contains APPLY_PATCH_PASS log), (Str.contains APPLY_PATCH_FAIL log),
        (first_exit_code_is_0 out).
    - rewrite H, H0. by destruct (first_exit_code_is_0 out).
    - rewrite !elem_of_app. destruct (W1 H H0); tauto.
    - unfold first_exit_code_is_0. rewrite H.
      by destruct (Str.contains APPLY_PATCH_PASS log), (Str.contains APPLY_PATCH_FAIL log).
    - rewrite !elem_of_app. destruct (W2 H); tauto. }
  unfold out at 1.
  destruct (texts w !! test_output_path) as [s|] eqn:Eout.
  - destruct (Htail []) as (entry & warnings & E & H).
    rewrite with_stdout_nil in E. fold out in E.
    replace s with out by (unfold out; try rewrite Eout; reflexivity).
    exists entry, warnings. split; [exact E|exact H].
  - destruct (Htail ["[WARN] Test output file not found: " +:+ path_str test_output_path])
      as (entry & warnings & E & H).
    replace "" with out by (unfold out; try rewrite Eout; reflexivity).
    exists entry, warnings. split; [exact E|exact H].
Qed.

Lemma get_pred_report_returns test_spec prediction test_output_path w :
  exists warnings,
    get_pred_report test_spec prediction test_output_path w
    = (Ret {[ pred_instance_id prediction :=
                graded_entry prediction
                  (default "" (texts w !! test_output_path))
                  (default "" (texts w !! (parent test_output_path
                                           </> "run_instance_after_apply.log"))) ]},
       with_stdout (fun o => o ++ warnings) w).
Proof.
  destruct (get_pred_report_spec test_spec prediction test_output_path w)
    as (entry & warnings & E & H).
  exists warnings. rewrite E. f_equal. f_equal. f_equal.
  unfold graded_entry. destruct (model_patch prediction).
  - destruct entry; cbn in *. destruct H as (-> & -> & -> & -> & _). reflexivity.
  - by destruct H as [-> _].
Qed.

(** ** The guarded block of the pipelines *)

Ltac unfold_engine :=
  unfold apply_patch_to_container, setup_logger, close_logger,
    build_setup_container, container_start, copy_to_container, exec_run,
    exec_run_with_timeout, remove_image, cleanup_container, with_locals, lift,
    set_container, get_container, try_finally, try_except in *.

#[local] Arguments graded_entry : simpl never.
#[local] Arguments show_doc : simpl never.
#[local] Arguments path_str : simpl never.
#[local] Arguments String.append : simpl never.

(** Symbolic execution of a pipeline block, one case per outcome. *)
Ltac exec :=
  repeat (cbn; match goal with
  | |- context [is_not_apply_patch ?m] => is_var m; destruct m
  | |- context [match ?r with Ret _ => _ | Raise _ => _ end] => is_var r; destruct r
  | |- context [(exit_code ?v =? 0)%Z] => destruct (exit_code v =? 0)%Z eqn:?
  | |- context [get_pred_report ?a ?b ?c ?W] =>
      let E := fresh "E" in
      destruct (get_pred_report_spec a b c W) as (? & ? & E & _); rewrite E; clear E
  | |- context [@lookup _ Report _ _ ?k ?d] =>
      destruct (@lookup _ Report _ _ k d) eqn:?
  | |- context [bool_decide (model_patch ?p = ?v)] =>
      destruct (bool_decide (model_patch p = v)) eqn:?
  end); cbn.

Lemma report_failure_spec {A} id lf e w :
  exists text msg,
    @report_failure A id lf e w
    = (Ret None,
       with_stdout (fun o => o ++ [msg])
         (with_texts (fun t => <[lf := text]> t) w)).
Proof.
  unfold report_failure, exn_str.
  destruct e; unfold_m; cbn; try (eexists _, _; reflexivity).
  eexists _, _. unfold with_stdout, with_texts; cbn.
  rewrite insert_insert_eq. reflexivity.
Qed.

Lemma guarded_block_unfold plan ts rm lf (body : M Frame PipelineResult) w :
  with_locals
    (try_finally
       (try_except body (fun e => lift (report_failure (ts_instance_id ts) lf e)))
       (pipeline_finally plan ts rm)) w
  = guarded_outcome plan ts rm lf (body {| fr_world := w; fr_container := None |}).
Proof.
  unfold guarded_outcome, with_locals, try_finally, try_except, pipeline_finally,
    finally_on.
  destruct (body _) as [[v|e] fr1]; cbn [fst snd].
  - unfold_engine. unfold_m.
    destruct fr1 as [w1 [c|]], rm, (on_remove_image plan) as [[]|?],
      (on_close_logger plan) as [[]|?]; reflexivity.
  - unfold lift at 1.
    destruct (report_failure_spec (A:=string * option (gmap string Report))
                (ts_instance_id ts) lf e (fr_world fr1)) as (text & msg & E).
    rewrite E.
    unfold_engine. unfold_m.
    destruct fr1 as [w1 [c|]], rm, (on_remove_image plan) as [[]|?],
      (on_close_logger plan) as [[]|?]; reflexivity.
Qed.

Lemma finally_on_spec plan ts rm container w :
  let w' := (finally_on plan ts rm container w).2 in
  trace w' = trace w
             ++ match container with Some c => [EvRelease c] | None => [] end
             ++ (if rm then [EvRemoveImage (ts_instance_image_key ts)] else [])
  /\ live w' = match container with Some c => live w ∖ {[ c ]} | None => live w end
  /\ texts w' = texts w
  /\ reports w' = reports w
  /\ run_reports w' = run_reports w
  /\ stdout w' = stdout w
  /\ pbar w' = pbar w.
Proof.
  unfold finally_on. unfold_engine. unfold_m.
  destruct container as [c|], rm, (on_remove_image plan) as [[]|?],
    (on_close_logger plan) as [[]|?]; cbn;
    rewrite <- ?app_assoc, ?app_nil_r; done.
Qed.

Lemma handled_frame {A} id lf (r : Res (option A)) w :
  let h := match r with
           | Ret v => (Ret v, w)
           | Raise e => report_failure id lf e w
           end in
  trace h.2 = trace w /\ live h.2 = live w /\ images h.2 = images w
  /\ reports h.2 = reports w /\ run_reports h.2 = run_reports w /\ pbar h.2 = pbar w
  /\ (forall q, q ≠ lf -> texts h.2 !! q = texts w !! q)
  /\ (raised r = true -> h.1 = Ret None)
  /\ (forall v, r = Ret v -> h = (Ret v, w)).
Proof.
  destruct r as [v|e]; cbn.
  - repeat split; try done. intros ? [= ->]. done.
  - destruct (report_failure_spec (A:=A) id lf e w) as (text & msg & ->). cbn.
    repeat split; try done. intros q Hq. by rewrite lookup_insert_ne.
Qed.

Lemma run_instance_setup_unfold plan ts pred rm fr run_id out mode timeout w :
  let log_dir := log_dir_of out run_id pred (ts_instance_id ts) in
  let log_file :=
    log_dir </> (if is_not_apply_patch mode then "run_instance_prev_apply.log"
                 else "run_instance_after_apply.log") in
  let report_path := log_dir </> "report.json" in
  run_instance_setup plan ts pred rm fr run_id out mode timeout w =
    match reports w !! report_path with
    | Some doc => (Ret (Some (ts_instance_id ts, Some doc)), w)
    | None =>
        match on_setup_logger plan with
        | Raise e => (Raise e, w)
        | Ret _ =>
            guarded_outcome plan ts rm log_file
              (run_instance_setup_body plan ts pred log_dir log_file report_path mode
                 {| fr_world := with_texts (fun t => <[log_file := ""]> t) w;
                    fr_container := None |})
        end
    end.
Proof.
  unfold run_instance_setup. cbv zeta. unfold_m.
  destruct (reports w !! _) as [doc|] eqn:E.
  - rewrite bool_decide_eq_true_2 by eauto. cbv beta iota. by rewrite E.
  - rewrite bool_decide_eq_false_2 by (by intros [? ?]). cbv beta iota.
    unfold setup_logger. unfold_m. destruct (on_setup_logger plan) as [[]|e]; [|done].
    apply guarded_block_unfold.
Qed.

Lemma run_instance_unfold plan ts pred rm fr run_id out timeout w :
  let log_dir := log_dir_of out run_id pred (ts_instance_id ts) in
  let log_file := log_dir </> "run_instance.log" in
  let report_path := log_dir </> "report.json" in
  run_instance plan ts pred rm fr run_id out timeout w =
    match reports w !! report_path with
    | Some doc => (Ret (Some (ts_instance_id ts, Some doc)), w)
    | None =>
        match on_setup_logger plan with
        | Raise e => (Raise e, w)
        | Ret _ =>
            guarded_outcome plan ts rm log_file
              (run_instance_body plan ts pred log_dir log_file report_path
                 {| fr_world := with_texts (fun t => <[log_file := ""]> t) w;
                    fr_container := None |})
        end
    end.
Proof.
  unfold run_instance. cbv zeta. unfold_m.
  destruct (reports w !! _) as [doc|] eqn:E.
  - rewrite bool_decide_eq_true_2 by eauto. cbv beta iota. by rewrite E.
  - rewrite bool_decide_eq_false_2 by (by intros [? ?]). cbv beta iota.
    unfold setup_logger. unfold_m. destruct (on_setup_logger plan) as [[]|e]; [|done].
    apply guarded_block_unfold.
Qed.

Ltac close_acquire c :=
  right; exists c; eexists _, _;
  split; [reflexivity|];
  split; [rewrite <- ?app_assoc; reflexivity|];
  split; [cbn; repeat (constructor; try reflexivity)|reflexivity].

Lemma run_instance_setup_body_acquires plan ts pred log_dir log_file report_path mode w :
  acquires_at_most_one w
    (run_instance_setup_body plan ts pred log_dir log_file report_path mode
       {| fr_world := w; fr_container := None |}).
Proof.
  unfold acquires_at_most_one, run_instance_setup_body.
  destruct plan as [sl bd st cp ga pf gd ce ev gr ri cl];
    cbn [on_build on_start on_copy_patch on_git_apply on_patch_fuzz on_git_diff
         on_copy_eval on_eval on_grading].
  destruct bd as [c|?].
  2:{ left. unfold_engine. unfold_m. cbn. done. }
  unfold_engine; unfold_m. exec; close_acquire c.
Qed.

Lemma run_instance_body_acquires plan ts pred log_dir log_file report_path w :
  acquires_at_most_one w
    (run_instance_body plan ts pred log_dir log_file report_path
       {| fr_world := w; fr_container := None |}).
Proof.
  unfold acquires_at_most_one, run_instance_body.
  destruct plan as [sl bd st cp ga pf gd ce ev gr ri cl];
    cbn [on_build on_start on_copy_patch on_git_apply on_patch_fuzz on_git_diff
         on_copy_eval on_eval on_grading].
  destruct bd as [c|?].
  2:{ left. unfold_engine. unfold_m. cbn. done. }
  unfold_engine; unfold_m. exec; close_acquire c.
Qed.

Lemma guarded_outcome_releases plan ts rm lf w0 w tried :
  trace w = trace w0 -> live w = live w0 ->
  acquires_at_most_one w tried ->
  exists delta,
    trace (guarded_outcome plan ts rm lf tried).2 = trace w0 ++ delta
    /\ released_exactly_once delta (live w0) (live (guarded_outcome plan ts rm lf tried).2).
Proof.
  intros Ht Hl Hacq. unfold guarded_outcome. cbv zeta.
  destruct (handled_frame (ts_instance_id ts) lf tried.1 (fr_world tried.2))
    as (Htr & Hlv & _).
  destruct (finally_on_spec plan ts rm (fr_container tried.2)
              (match tried.1 with
               | Ret v => (Ret v, fr_world tried.2)
               | Raise e => report_failure (ts_instance_id ts) lf e (fr_world tried.2)
               end).2) as (Ftr & Flv & _).
  cbn [snd]. rewrite Ftr, Flv, Htr, Hlv. clear Ftr Flv Htr Hlv.
  destruct Hacq as [(Hc & Htr & Hlv)|(c & key & pre & Hc & Htr & Hpre & Hlv)];
    rewrite Hc, Htr, Hlv, ?Ht, ?Hl.
  - eexists. split; [reflexivity|]. left. split; [|done].
    destruct rm; repeat constructor.
  - eexists. split; [rewrite <- app_assoc; reflexivity|].
    right. exists c, key, pre, (if rm then [EvRemoveImage (ts_instance_image_key ts)] else []).
    split; [reflexivity|]. split; [done|].
    split; [destruct rm; repeat constructor|]. set_solver.
Qed.

(** ** Resource safety *)

(** C1.  Every call of [run_instance_setup] and of [run_instance], whatever
    the engine and the collaborators return or raise along the way, has
    released the container it acquired exactly once when it returns: the
    engine calls it made either acquire no container, or create one, use it,
    release it once and afterwards at most remove the image, and the released
    container is no longer live.  Releasing when no container was created
    ([container] still [None]) does nothing. *)
Theorem container_released_exactly_once
    plan ts pred rm fr run_id out mode timeout w :
  (exists delta,
     trace (run_instance_setup plan ts pred rm fr run_id out mode timeout w).2
     = trace w ++ delta
     /\ released_exactly_once delta (live w)
          (live (run_instance_setup plan ts pred rm fr run_id out mode timeout w).2))
  /\ (exists delta,
        trace (run_instance plan ts pred rm fr run_id out timeout w).2
        = trace w ++ delta
        /\ released_exactly_once delta (live w)
             (live (run_instance plan ts pred rm fr run_id out timeout w).2))
  /\ cleanup_container None w = (Ret tt, w).
Proof.
  assert (Hnone : exists delta : list Event,
            trace w = trace w ++ delta /\ released_exactly_once delta (live w) (live w)).
  { exists []. rewrite app_nil_r. split; [done|]. left. by split. }
  split; [|split; [|reflexivity]].
  - rewrite run_instance_setup_unfold. cbv zeta.
    destruct (reports w !! _); [exact Hnone|].
    destruct (on_setup_logger plan); [|exact Hnone].
    eapply guarded_outcome_releases; [| |apply run_instance_setup_body_acquires]; done.
  - rewrite run_instance_unfold. cbv zeta.
    destruct (reports w !! _); [exact Hnone|].
    destruct (on_setup_logger plan); [|exact Hnone].
    eapply guarded_outcome_releases; [| |apply run_instance_body_acquires]; done.
Qed.

(** ** Durable records *)

Lemma run_instance_setup_body_reports plan ts pred log_dir log_file report_path mode w :
  let res := run_instance_setup_body plan ts pred log_dir log_file report_path mode
               {| fr_world := w; fr_container := None |} in
  match res.1 with
  | Ret (Some (id, Some doc)) =>
      id = ts_instance_id ts /\ mode = apply_patch
      /\ reports (fr_world res.2) = <[report_path := doc]> (reports w)
  | Ret (Some (id, None)) =>
      id = ts_instance_id ts /\ mode = not_apply_patch
      /\ reports (fr_world res.2) = reports w
  | Ret None => False
  | Raise _ => reports (fr_world res.2) = reports w
  end.
Proof.
  cbv zeta. unfold run_instance_setup_body.
  destruct plan as [sl bd st cp ga pf gd ce ev gr ri cl];
    cbn [on_build on_start on_copy_patch on_git_apply on_patch_fuzz on_git_diff
         on_copy_eval on_eval on_grading].
  unfold_engine; unfold_m. exec; done.
Qed.

Lemma guarded_outcome_reports plan ts rm lf tried :
  reports (guarded_outcome plan ts rm lf tried).2 = reports (fr_world tried.2).
Proof.
  unfold guarded_outcome. cbv zeta.
  destruct (handled_frame (ts_instance_id ts) lf tried.1 (fr_world tried.2))
    as (_ & _ & _ & Hr & _).
  destruct (finally_on_spec plan ts rm (fr_container tried.2)
              (match tried.1 with
               | Ret v => (Ret v, fr_world tried.2)
               | Raise e => report_failure (ts_instance_id ts) lf e (fr_world tried.2)
               end).2) as (_ & _ & _ & Fr & _).
  cbn [snd]. by rewrite Fr, Hr.
Qed.

Lemma guarded_outcome_value plan ts rm lf tried v :
  (guarded_outcome plan ts rm lf tried).1 = Ret (Some v) -> tried.1 = Ret (Some v).
Proof.
  unfold guarded_outcome. cbv zeta. cbn [fst].
  destruct (finally_on _ _ _ _ _).1; [|discriminate].
  destruct tried as [[v'|e] fr1]; cbn; [done|].
  destruct (report_failure_spec (A:=string * option (gmap string Report))
              (ts_instance_id ts) lf e (fr_world fr1)) as (text & msg & ->).
  discriminate.
Qed.

(** What [run_instance_setup] leaves in the store of reports. *)
Lemma run_instance_setup_reports plan ts pred rm fr run_id out mode timeout w :
  let report_path := log_dir_of out run_id pred (ts_instance_id ts) </> "report.json" in
  let run := run_instance_setup plan ts pred rm fr run_id out mode timeout w in
  reports run.2 = reports w
  \/ exists doc, reports w !! report_path = None /\ mode = apply_patch
                 /\ reports run.2 = <[report_path := doc]> (reports w).
Proof.
  cbv zeta. rewrite run_instance_setup_unfold. cbv zeta.
  destruct (reports w !! _) eqn:E; [by left|].
  destruct (on_setup_logger plan); [|by left].
  rewrite guarded_outcome_reports.
  pose proof (run_instance_setup_body_reports plan ts pred
    (log_dir_of out run_id pred (ts_instance_id ts))
    (log_dir_of out run_id pred (ts_instance_id ts)
       </> (if is_not_apply_patch mode then "run_instance_prev_apply.log"
            else "run_instance_after_apply.log"))
    (log_dir_of out run_id pred (ts_instance_id ts) </> "report.json") mode
    (with_texts (fun t =>
       <[log_dir_of out run_id pred (ts_instance_id ts)
           </> (if is_not_apply_patch mode then "run_instance_prev_apply.log"
                else "run_instance_after_apply.log") := ""]> t) w)) as H.
  cbv zeta in H.
  destruct (run_instance_setup_body _ _ _ _ _ _ _ _).1 as [[[id [doc|]]|]|e];
    cbn in H; try tauto.
  right. exists doc. tauto.
Qed.

(** A call that returns a record has it stored at its report path. *)
Lemma run_instance_setup_returns_stored plan ts pred rm fr run_id out mode timeout w v :
  let report_path := log_dir_of out run_id pred (ts_instance_id ts) </> "report.json" in
  let run := run_instance_setup plan ts pred rm fr run_id out mode timeout w in
  run.1 = Ret (Some v) ->
  match v.2 with
  | Some doc => v.1 = ts_instance_id ts /\ reports run.2 !! report_path = Some doc
  | None => mode = not_apply_patch
  end.
Proof.
  cbv zeta. rewrite run_instance_setup_unfold. cbv zeta.
  destruct (reports w !! _) eqn:E.
  { cbn. intros [= <-]. by cbn. }
  destruct (on_setup_logger plan); [|discriminate].
  intros Hv. apply guarded_outcome_value in Hv.
  rewrite guarded_outcome_reports.
  pose proof (run_instance_setup_body_reports plan ts pred
    (log_dir_of out run_id pred (ts_instance_id ts))
    (log_dir_of out run_id pred (ts_instance_id ts)
       </> (if is_not_apply_patch mode then "run_instance_prev_apply.log"
            else "run_instance_after_apply.log"))
    (log_dir_of out run_id pred (ts_instance_id ts) </> "report.json") mode
    (with_texts (fun t =>
       <[log_dir_of out run_id pred (ts_instance_id ts)
           </> (if is_not_apply_patch mode then "run_instance_prev_apply.log"
                else "run_instance_after_apply.log") := ""]> t) w)) as H.
  cbv zeta in H. rewrite Hv in H. destruct v as [id [doc|]]; cbn in *.
  - destruct H as (-> & _ & ->). split; [done|]. by rewrite lookup_insert_eq.
  - tauto.
Qed.

(** C2.  When report.json exists at the call's report path,
    [run_instance_setup] returns the stored record and leaves the world as it
    was: no file is written and no engine call is made.  No call overwrites a
    report that exists, at any path.  And after a call that returned a
    record, any further call for the same task returns the same record and
    changes nothing. *)
Theorem existing_report_is_returned_and_kept
    plan ts pred rm fr run_id out mode timeout w :
  let report_path := log_dir_of out run_id pred (ts_instance_id ts) </> "report.json" in
  let run := run_instance_setup plan ts pred rm fr run_id out mode timeout w in
  (forall doc, reports w !! report_path = Some doc ->
               run = (Ret (Some (ts_instance_id ts, Some doc)), w))
  /\ (forall q doc, reports w !! q = Some doc -> reports run.2 !! q = Some doc)
  /\ (forall doc, run.1 = Ret (Some (ts_instance_id ts, Some doc)) ->
      forall plan' rm' fr' mode' timeout',
        run_instance_setup plan' ts pred rm' fr' run_id out mode' timeout' run.2
        = (Ret (Some (ts_instance_id ts, Some doc)), run.2)).
Proof.
  cbv zeta. split; [|split].
  - intros doc Hdoc. rewrite run_instance_setup_unfold. cbv zeta. by rewrite Hdoc.
  - intros q doc Hq.
    destruct (run_instance_setup_reports plan ts pred rm fr run_id out mode timeout w)
      as [->|(doc' & Hnone & _ & ->)]; [done|].
    rewrite lookup_insert_ne; [done|]. congruence.
  - intros doc Hrun plan' rm' fr' mode' timeout'.
    pose proof (run_instance_setup_returns_stored plan ts pred rm fr run_id out mode
                  timeout w _ Hrun) as H.
    cbn [fst snd] in H. destruct H as [_ H].
    rewrite run_instance_setup_unfold. cbv zeta. by rewrite H.
Qed.

(** ** Patch application *)

Ltac plan_facts :=
  repeat match goal with
  | H : Ret _ = Ret _ |- _ => injection H as H; try subst
  | H : Raise _ = Ret _ |- _ => discriminate H
  | H : Ret _ = Raise _ |- _ => discriminate H
  | H : (_ =? _)%Z = true |- _ => apply Z.eqb_eq in H
  | H : (_ =? _)%Z = false |- _ => apply Z.eqb_neq in H
  end.

Lemma run_instance_setup_body_apply plan ts pred log_dir log_file report_path w c :
  on_build plan = Ret c -> on_start plan = Ret tt -> on_copy_patch plan = Ret tt ->
  let res := run_instance_setup_body plan ts pred log_dir log_file report_path apply_patch
               {| fr_world := w; fr_container := None |} in
  exists delta,
    trace (fr_world res.2) = trace w ++ delta
    /\ (forall v1, on_git_apply plan = Ret v1 -> exit_code v1 = 0%Z ->
        exec_commands delta = [GIT_APPLY]
        /\ (on_copy_eval plan = Ret tt -> eval_commands delta = [RUN_EVAL]))
    /\ (forall v1 v2, on_git_apply plan = Ret v1 -> exit_code v1 ≠ 0%Z ->
        on_patch_fuzz plan = Ret v2 -> exit_code v2 = 0%Z ->
        exec_commands delta = [GIT_APPLY; PATCH_FUZZ]
        /\ (on_copy_eval plan = Ret tt -> eval_commands delta = [RUN_EVAL]))
    /\ (forall v1 v2, on_git_apply plan = Ret v1 -> exit_code v1 ≠ 0%Z ->
        on_patch_fuzz plan = Ret v2 -> exit_code v2 ≠ 0%Z ->
        exec_commands delta = [GIT_APPLY; PATCH_FUZZ]
        /\ eval_commands delta = []
        /\ res.1 = Raise (EvaluationError (ts_instance_id ts)
                            (APPLY_PATCH_FAIL +:+ ":" +:+ nl +:+ output v2))).
Proof.
  cbv zeta. unfold run_instance_setup_body.
  destruct plan as [sl bd st cp ga pf gd ce ev gr ri cl];
    cbn [on_build on_start on_copy_patch on_git_apply on_patch_fuzz on_git_diff
         on_copy_eval on_eval on_grading].
  intros -> -> ->.
  unfold_engine; unfold_m. exec;
    (eexists; split; [rewrite <- ?app_assoc; reflexivity|];
     repeat split; intros; plan_facts; cbn; congruence).
Qed.

Lemma guarded_outcome_trace plan ts rm lf tried :
  trace (guarded_outcome plan ts rm lf tried).2
  = trace (fr_world tried.2)
    ++ match fr_container tried.2 with Some c => [EvRelease c] | None => [] end
    ++ (if rm then [EvRemoveImage (ts_instance_image_key ts)] else []).
Proof.
  unfold guarded_outcome. cbv zeta.
  destruct (handled_frame (ts_instance_id ts) lf tried.1 (fr_world tried.2))
    as (Htr & _).
  destruct (finally_on_spec plan ts rm (fr_container tried.2)
              (match tried.1 with
               | Ret v => (Ret v, fr_world tried.2)
               | Raise e => report_failure (ts_instance_id ts) lf e (fr_world tried.2)
               end).2) as (Ftr & _).
  cbn [snd]. by rewrite Ftr, Htr.
Qed.

Lemma exec_commands_finally (c : option Container) (rm : bool) key :
  exec_commands (match c with Some c => [EvRelease c] | None => [] end
                 ++ (if rm then [EvRemoveImage key] else [])) = []
  /\ eval_commands (match c with Some c => [EvRelease c] | None => [] end
                    ++ (if rm then [EvRemoveImage key] else [])) = [].
Proof. by destruct c, rm. Qed.

Lemma apply_patch_to_container_fails plan id lf c w v1 v2 :
  on_git_apply plan = Ret v1 -> exit_code v1 ≠ 0%Z ->
  on_patch_fuzz plan = Ret v2 -> exit_code v2 ≠ 0%Z ->
  (apply_patch_to_container plan id lf c w).1
  = Raise (EvaluationError id (APPLY_PATCH_FAIL +:+ ":" +:+ nl +:+ output v2)).
Proof.
  intros G1 H1 G2 H2. unfold apply_patch_to_container. unfold_engine. unfold_m.
  apply Z.eqb_neq in H1, H2. rewrite G1, G2. cbn. rewrite H1. cbn. rewrite H2.
  reflexivity.
Qed.

Lemma run_instance_setup_strict_then_fuzzy plan ts pred rm fr run_id out timeout w c :
  reports w !! (log_dir_of out run_id pred (ts_instance_id ts) </> "report.json") = None ->
  on_setup_logger plan = Ret tt ->
  on_build plan = Ret c ->
  on_start plan = Ret tt ->
  on_copy_patch plan = Ret tt ->
  strict_then_fuzzy plan (ts_instance_id ts)
    (log_dir_of out run_id pred (ts_instance_id ts) </> "run_instance_after_apply.log")
    c w
    (run_instance_setup plan ts pred rm fr run_id out apply_patch timeout w).
Proof.
  intros Hnone Hsl Hbd Hst Hcp. unfold strict_then_fuzzy.
  rewrite run_instance_setup_unfold. cbv zeta. rewrite Hnone, Hsl.
  cbn [is_not_apply_patch].
  rewrite guarded_outcome_trace, guarded_outcome_reports.
  set (ld := log_dir_of out run_id pred (ts_instance_id ts)).
  set (w1 := with_texts _ w).
  destruct (run_instance_setup_body_apply plan ts pred ld
              (ld </> "run_instance_after_apply.log") (ld </> "report.json") w1 c
              Hbd Hst Hcp) as (delta & Htr & H1 & H2 & H3).
  pose proof (run_instance_setup_body_reports plan ts pred ld
              (ld </> "run_instance_after_apply.log") (ld </> "report.json")
              apply_patch w1) as Hrep.
  cbv zeta in Hrep.
  set (res := run_instance_setup_body _ _ _ _ _ _ _ _) in *.
  rewrite Htr. eexists. split; [rewrite <- app_assoc; reflexivity|].
  assert (Hx : forall l1 l2, exec_commands (l1 ++ l2) = exec_commands l1 ++ exec_commands l2)
    by (intros; apply omap_app).
  assert (Hv : forall l1 l2, eval_commands (l1 ++ l2) = eval_commands l1 ++ eval_commands l2)
    by (intros; apply omap_app).
  destruct (exec_commands_finally (fr_container res.2) rm (ts_instance_image_key ts))
    as [Tx Tv].
  set (tail := _ ++ (if rm then _ else _)) in *.
  rewrite !Hx, !Hv, Tx, Tv, !app_nil_r.
  split; [exact H1|]. split; [exact H2|].
  intros v1 v2 Hv1 Hx1 Hv2 Hx2.
  destruct (H3 v1 v2 Hv1 Hx1 Hv2 Hx2) as (E1 & E2 & E3).
  split; [exact E1|]. split; [exact E2|].
  rewrite E3 in Hrep. split; [exact Hrep|].
  intros w0. by apply apply_patch_to_container_fails with v1.
Qed.

(** C5, as amended.  In patched mode, once the container runs and the patch
    file has been copied, the pipeline makes exactly one strict apply
    ([git apply]); only if that exits non-zero it makes exactly one fuzzy
    apply ([patch --batch --fuzz=5]), and never a third attempt.  The first
    strategy that exits 0 lets the pipeline go on to run the test script.
    If both exit non-zero the test script is not run, no report is written,
    and the failure carries the output of the fuzzy attempt (the output of
    the strict attempt is dropped). *)
Theorem strict_apply_then_fuzzy_apply plan ts pred rm fr run_id out timeout w c :
  reports w !! (log_dir_of out run_id pred (ts_instance_id ts) </> "report.json") = None ->
  on_setup_logger plan = Ret tt ->
  on_build plan = Ret c ->
  on_start plan = Ret tt ->
  on_copy_patch plan = Ret tt ->
  strict_then_fuzzy plan (ts_instance_id ts)
    (log_dir_of out run_id pred (ts_instance_id ts) </> "run_instance_after_apply.log")
    c w
    (run_instance_setup plan ts pred rm fr run_id out apply_patch timeout w).
Proof.
  intros Hnone Hlogger Hbuild Hstart Hcopy.
  by apply run_instance_setup_strict_then_fuzzy.
Qed.

Lemma strict_apply_then_fuzzy_apply_witness :
  strict_then_fuzzy plan_both_fail "T1"
    (log_dir_of "out" "run1" T1_pred "T1" </> "run_instance_after_apply.log")
    "c1" empty_world
    (run_instance_setup plan_both_fail T1_spec T1_pred true false "run1" "out"
       apply_patch None empty_world).
Proof.
  apply (strict_apply_then_fuzzy_apply plan_both_fail T1_spec T1_pred true false
           "run1" "out" None empty_world "c1"); reflexivity.
Defined.

(** C5, the claim as stated fails: when both strategies exit non-zero the
    failure carries only the output of the fuzzy attempt; the output of the
    strict attempt is neither in the exception, nor printed, nor in any file
    the call leaves behind. *)
Lemma strict_apply_output_is_dropped :
  let strict_output := "error: patch failed: a.py:1" in
  let run := run_instance_setup plan_both_fail T1_spec T1_pred true false "run1" "out"
               apply_patch None empty_world in
  (apply_patch_to_container plan_both_fail "T1"
     (log_dir_of "out" "run1" T1_pred "T1" </> "run_instance_after_apply.log")
     "c1" empty_world).1
  = Raise (EvaluationError "T1"
             (APPLY_PATCH_FAIL +:+ ":" +:+ nl +:+ "1 out of 1 hunk FAILED"))
  /\ Str.contains strict_output
       (APPLY_PATCH_FAIL +:+ ":" +:+ nl +:+ "1 out of 1 hunk FAILED") = false
  /\ forallb (fun line => negb (Str.contains strict_output line)) (stdout run.2) = true
  /\ forallb (fun file => negb (Str.contains strict_output file.2))
       (map_to_list (texts run.2)) = true.
Proof. vm_compute. repeat split; reflexivity. Qed.

(** ** Grading never raises *)

(** C7, as amended.  [get_pred_report] returns a report for every prediction
    and every state of the log and test-output files: it never raises.  With
    [model_patch] None it reports [patch_is_None] and stops, printing
    nothing.  Otherwise [resolved] is true exactly when the first exit-code
    marker of the test output carries the digit 0,
    [patch_successfully_applied] is true exactly when the run log holds the
    patch-applied marker, and when the run log holds neither patch marker, or
    the test output no exit-code marker, the field is false and a warning is
    printed. *)
Theorem get_pred_report_never_raises test_spec prediction test_output_path w :
  let id := pred_instance_id prediction in
  let out := default "" (texts w !! test_output_path) in
  let log :=
    default "" (texts w !! (parent test_output_path </> "run_instance_after_apply.log")) in
  exists entry warnings,
    get_pred_report test_spec prediction test_output_path w
    = (Ret {[ id := entry ]}, with_stdout (fun o => o ++ warnings) w)
    /\ match model_patch prediction with
       | None =>
           entry = {| patch_is_None := true; patch_exists := false;
                      patch_successfully_applied := false; resolved := false |}
           /\ warnings = []
       | Some _ =>
           patch_is_None entry = false
           /\ patch_exists entry = true
           /\ patch_successfully_applied entry = Str.contains APPLY_PATCH_PASS log
           /\ resolved entry = first_exit_code_is_0 out
           /\ (Str.contains APPLY_PATCH_PASS log = false ->
               Str.contains APPLY_PATCH_FAIL log = false ->
               patch_successfully_applied entry = false
               /\ (("[WARN] No patch status found in run instance log for " +:+ id)
                     ∈ warnings
                   \/ ("[WARN] Empty run instance log content for " +:+ id) ∈ warnings))
           /\ (exit_code_search out = None ->
               resolved entry = false
               /\ (("[WARN] No exit code found in test output for " +:+ id) ∈ warnings
                   \/ ("[WARN] Empty test output content for " +:+ id) ∈ warnings))
       end.
Proof. exact (get_pred_report_spec test_spec prediction test_output_path w). Qed.

(** C7, the claim as stated fails: a test output that holds the exit-code
    marker with value 0 after an earlier marker with value 1 is graded
    unresolved, because the regular expression is searched for its first
    match only. *)
Lemma later_exit_code_0_is_not_resolved :
  let test_output :=
    "+ echo OMNIGRIL_EXIT_CODE=1" +:+ nl +:+ "+ echo OMNIGRIL_EXIT_CODE=0" in
  let w := with_texts (fun t => <[ ["logs"; "test_output_after_apply.txt"] := test_output ]> t)
             empty_world in
  contains_exit_code_0 test_output = true
  /\ (get_pred_report T1_spec T1_pred ["logs"; "test_output_after_apply.txt"] w).1
     = Ret {[ "T1" := {| patch_is_None := false; patch_exists := true;
                         patch_successfully_applied := false; resolved := false |} ]}.
Proof. vm_compute. split; reflexivity. Qed.

(** ** The run reconciler *)

Lemma classify_loop_step predictions run_id out instance rest b w :
  classify_loop predictions run_id out (instance :: rest) b w
  = match bucket_of predictions run_id out w instance with
    | Ret bk => classify_loop predictions run_id out rest (put bk (label instance) b) w
    | Raise e => (Raise e, w)
    end.
Proof.
  cbn [classify_loop]. unfold bucket_of.
  destruct (predictions !! instance_id instance) as [prediction|]; [|done].
  destruct (is_empty_patch (model_patch prediction)); [done|].
  unfold_m.
  destruct (reports w !! _) as [report|] eqn:E.
  - rewrite bool_decide_eq_true_2 by eauto. cbv beta iota. rewrite E.
    destruct (report !! instance_id instance) as [entry|]; [|done].
    by destruct (resolved entry).
  - rewrite bool_decide_eq_false_2 by (by intros [? ?]). done.
Qed.

Lemma ids_in_put bk bk' x y b :
  y ∈ ids_in bk (put bk' x b) <-> y ∈ ids_in bk b \/ (bk = bk' /\ y = x).
Proof. destruct bk, bk'; cbn; set_solver. Qed.

Lemma classify_loop_spec predictions run_id out full_dataset b w :
  (forall instance, instance ∈ full_dataset ->
     exists bk, bucket_of predictions run_id out w instance = Ret bk) ->
  exists b',
    classify_loop predictions run_id out full_dataset b w = (Ret b', w)
    /\ forall bk x,
         x ∈ ids_in bk b' <->
         x ∈ ids_in bk b
         \/ exists instance, instance ∈ full_dataset /\ label instance = x
              /\ bucket_of predictions run_id out w instance = Ret bk.
Proof.
  revert b. induction full_dataset as [|instance rest IH]; intros b Hall.
  - exists b. split; [done|]. intros bk x. split; [by left|].
    intros [?|(i & Hi & _)]; [done|]. by apply elem_of_nil in Hi.
  - rewrite classify_loop_step.
    destruct (Hall instance) as [bk0 E0]; [apply elem_of_cons; by left|].
    rewrite E0.
    destruct (IH (put bk0 (label instance) b)) as (b' & E & Hb').
    { intros i Hi. apply Hall. apply elem_of_cons. by right. }
    exists b'. split; [done|]. intros bk x. rewrite Hb', ids_in_put. split.
    + intros [[?|[-> ->]]|(i & Hi & Hl & Hb)].
      * by left.
      * right. exists instance. split; [apply elem_of_cons; by left|done].
      * right. exists i. split; [apply elem_of_cons; by right|done].
    + intros [?|(i & Hi & Hl & Hb)]; [by left; left|].
      apply elem_of_cons in Hi as [->|Hi].
      * left. right. split; [congruence|done].
      * right. exists i. done.
Qed.

Lemma bucket_of_well_keyed predictions run_id out full_dataset w instance :
  reports_well_keyed predictions run_id out full_dataset w ->
  instance ∈ full_dataset ->
  exists bk, bucket_of predictions run_id out w instance = Ret bk.
Proof.
  intros Hwk Hin. unfold bucket_of.
  destruct (predictions !! instance_id instance) as [prediction|] eqn:Ep; [|eauto].
  destruct (is_empty_patch (model_patch prediction)); [eauto|].
  destruct (reports w !! _) as [report|] eqn:Er; [|eauto].
  destruct (Hwk instance prediction report Hin Ep Er) as [entry ->]. eauto.
Qed.

Lemma bucket_of_same_id predictions run_id out w i j :
  instance_id i = instance_id j ->
  bucket_of predictions run_id out w i = bucket_of predictions run_id out w j.
Proof. unfold bucket_of. by intros ->. Qed.

Lemma unremoved_loop_returns mk predictions full_dataset images acc :
  (forall instance prediction,
     instance ∈ full_dataset ->
     predictions !! instance_id instance = Some prediction ->
     is_Some (mk instance prediction)) ->
  exists unremoved,
    unremoved_loop images (specs_of_predicted mk predictions full_dataset) acc
    = Ret unremoved.
Proof.
  revert acc. induction full_dataset as [|instance rest IH]; intros acc Hall.
  - by exists acc.
  - unfold specs_of_predicted. cbn [omap list_omap].
    destruct (predictions !! instance_id instance) as [prediction|] eqn:Ep; cbn.
    + destruct (Hall instance prediction) as [spec Es];
        [apply elem_of_cons; by left|done|].
      rewrite Es. cbn. apply IH. intros i p Hi. apply Hall. apply elem_of_cons. by right.
    + apply IH. intros i p Hi. apply Hall. apply elem_of_cons. by right.
Qed.

Lemma first_prediction_returns (predictions : gmap string Prediction) :
  predictions ≠ ∅ -> exists first, first_prediction predictions = Ret first.
Proof.
  intros Hne. unfold first_prediction.
  destruct (map_to_list predictions) as [|kv rest] eqn:E; [|eauto].
  by apply map_to_list_empty_iff in E.
Qed.

Lemma make_run_report_spec mk predictions full_dataset run_id reports_dir out w :
  predictions ≠ ∅ ->
  reports_well_keyed predictions run_id out full_dataset w ->
  (forall instance prediction,
     instance ∈ full_dataset ->
     predictions !! instance_id instance = Some prediction ->
     is_Some (mk instance prediction)) ->
  exists r w',
    make_run_report mk predictions full_dataset run_id reports_dir out w = (Ret r, w')
    /\ forall bk x,
         x ∈ bucket_ids bk r <->
         exists instance, instance ∈ full_dataset /\ label instance = x
           /\ bucket_of predictions run_id out w instance = Ret bk.
Proof.
  intros Hne Hwk Hmk.
  destruct (classify_loop_spec predictions run_id out full_dataset no_buckets w)
    as (b & Eb & Hb).
  { intros i Hi. by eapply bucket_of_well_keyed. }
  destruct (unremoved_loop_returns mk predictions full_dataset (images w) ∅ Hmk)
    as (unremoved & Eu).
  destruct (first_prediction_returns predictions Hne) as (first & Ef).
  unfold make_run_report. unfold mbind at 1, M_bind at 1. rewrite Eb.
  unfold_m. cbn. rewrite Eu, Ef. cbn.
  eexists _, _. split; [reflexivity|].
  intros bk x. specialize (Hb bk x).
  assert (Hempty : x ∈ ids_in bk no_buckets -> False) by (destruct bk; cbn; set_solver).
  destruct bk; cbn in *; tauto.
Qed.

(** C3, as amended.  When [make_run_report] completes - the predictions are
    not empty, every report.json it reads holds the entry of its task, and
    [make_test_spec] yields a spec for every predicted task - and distinct
    task identities of the full dataset have distinct labels
    [instance_id+"_version-"+version], it completes with a report whose five
    buckets incomplete, empty_patch, resolved, unresolved and error are
    pairwise disjoint and whose union is the set of labels of the full
    dataset. *)
Theorem five_buckets_partition_full_dataset
    mk predictions full_dataset run_id reports_dir out w :
  predictions ≠ ∅ ->
  reports_well_keyed predictions run_id out full_dataset w ->
  (forall instance prediction,
     instance ∈ full_dataset ->
     predictions !! instance_id instance = Some prediction ->
     is_Some (mk instance prediction)) ->
  labels_distinct full_dataset ->
  exists r w',
    make_run_report mk predictions full_dataset run_id reports_dir out w = (Ret r, w')
    /\ partitions full_dataset r.
Proof.
  intros Hne Hwk Hmk Hinj.
  destruct (make_run_report_spec mk predictions full_dataset run_id reports_dir out w
              Hne Hwk Hmk) as (r & w' & E & Hr).
  exists r, w'. split; [exact E|]. split.
  - intros bk1 bk2 Hneq. apply elem_of_disjoint. intros x H1 H2.
    apply Hr in H1 as (i & Hi & Hli & Hbi). apply Hr in H2 as (j & Hj & Hlj & Hbj).
    rewrite (bucket_of_same_id predictions run_id out w i j) in Hbi
      by (apply Hinj; congruence).
    congruence.
  - apply set_eq. intros x. rewrite elem_of_list_to_set, list_elem_of_fmap.
    rewrite !elem_of_union.
    pose proof (Hr Incomplete x) as HI. pose proof (Hr EmptyPatch x) as HE.
    pose proof (Hr Resolved x) as HR. pose proof (Hr Unresolved x) as HU.
    pose proof (Hr Error x) as HX. cbn in HI, HE, HR, HU, HX.
    rewrite HI, HE, HR, HU, HX. split.
    + intros [[[[H|H]|H]|H]|H]; destruct H as (i & Hi & Hl & _); exists i; done.
    + intros (i & -> & Hi).
      destruct (bucket_of_well_keyed predictions run_id out full_dataset w i Hwk Hi)
        as [bk Hbk].
      destruct bk; [left; left; left; left|left; left; left; right|left; left; right
                   |left; right|right]; exists i; done.
Qed.

Lemma five_buckets_partition_full_dataset_witness :
  exists r w',
    make_run_report example_make_test_spec T1_predictions [T1; T2] "run1" "reports" "out"
      empty_world = (Ret r, w')
    /\ partitions [T1; T2] r.
Proof.
  apply (five_buckets_partition_full_dataset example_make_test_spec T1_predictions
           [T1; T2] "run1" "reports" "out" empty_world).
  - intros H. apply (f_equal (fun m => m !! "T1")) in H. vm_compute in H. discriminate.
  - intros instance prediction report _ _ H. vm_compute in H. discriminate.
  - intros instance prediction _ _. unfold example_make_test_spec. eauto.
  - intros i j Hi Hj.
    apply elem_of_cons in Hi as [->|Hi]; [|apply list_elem_of_singleton in Hi as ->];
      (apply elem_of_cons in Hj as [->|Hj]; [|apply list_elem_of_singleton in Hj as ->]);
      vm_compute; congruence.
Defined.

(** C3, the claim as stated fails.  Two task identities whose labels
    coincide, one with an empty patch and one without a prediction, put the
    same label into both the incomplete and the empty_patch bucket.  And with
    no predictions at all the reconciler raises [IndexError] before it
    produces a report. *)
Lemma colliding_labels_overlap :
  match (make_run_report example_make_test_spec colliding_predictions colliding_dataset
           "run1" "reports" "out" empty_world).1 with
  | Ret r =>
      bool_decide ("a_version-b_version-c" ∈ incomplete_ids r)
      && bool_decide ("a_version-b_version-c" ∈ empty_patch_ids r)
  | Raise _ => false
  end = true
  /\ (make_run_report example_make_test_spec ∅ [T1] "run1" "reports" "out"
        empty_world).1 = Raise IndexError.
Proof. split; vm_compute; reflexivity. Qed.

(** ** Admission *)

Lemma both_outputs_exist_texts run_id out prediction w1 w2 :
  texts w1 = texts w2 ->
  both_outputs_exist run_id out prediction w1 = both_outputs_exist run_id out prediction w2.
Proof. unfold both_outputs_exist. by intros ->. Qed.

Lemma completed_loop_step predictions pids run_id out instance rest c w :
  completed_loop predictions pids run_id out (instance :: rest) c w
  = if negb (in_set (instance_id instance) pids)
    then completed_loop predictions pids run_id out rest c w
    else match predictions !! instance_id instance with
         | None => (Raise (KeyError (instance_id instance)), w)
         | Some prediction =>
             completed_loop predictions pids run_id out rest
               (if both_outputs_exist run_id out prediction w
                then {[ instance_id instance ]} ∪ c else c) w
         end.
Proof.
  cbn [completed_loop].
  destruct (negb _); [done|].
  destruct (predictions !! instance_id instance) as [prediction|]; [|done].
  unfold_m. reflexivity.
Qed.

(** The ids the loop adds, when every looked-up prediction is found. *)
Lemma completed_loop_spec predictions pids run_id out dataset c w :
  (completed_loop predictions pids run_id out dataset c w).2 = w
  /\ match (completed_loop predictions pids run_id out dataset c w).1 with
     | Ret c' =>
         (forall i, i ∈ dataset -> instance_id i ∈ pids ->
                    is_Some (predictions !! instance_id i))
         /\ forall x, x ∈ c' <->
              x ∈ c \/ exists i prediction,
                         i ∈ dataset /\ instance_id i = x /\ x ∈ pids
                         /\ predictions !! x = Some prediction
                         /\ both_outputs_exist run_id out prediction w = true
     | Raise _ => True
     end.
Proof.
  revert c. induction dataset as [|instance rest IH]; intros c.
  - cbn. split; [done|]. split; [intros i Hi; by apply elem_of_nil in Hi|].
    intros x. split; [by left|]. intros [?|(i & p & Hi & _)]; [done|].
    by apply elem_of_nil in Hi.
  - rewrite completed_loop_step. unfold in_set.
    destruct (bool_decide (instance_id instance ∈ pids)) eqn:Hin; cbn [negb].
    + apply bool_decide_eq_true in Hin.
      destruct (predictions !! instance_id instance) as [prediction|] eqn:Ep; [|done].
      destruct (IH (if both_outputs_exist run_id out prediction w
                    then {[ instance_id instance ]} ∪ c else c)) as [Hw Hr].
      split; [done|].
      destruct (completed_loop _ _ _ _ rest _ w).1 as [c'|]; [|done].
      destruct Hr as [Hall Hc']. split.
      * intros i Hi Hp. apply elem_of_cons in Hi as [->|Hi]; [by rewrite Ep|by apply Hall].
      * intros x. rewrite Hc'. split.
        -- intros [Hx|(i & p & Hi & Hid & Hp & Hl & Hb)].
           ++ destruct (both_outputs_exist run_id out prediction w) eqn:Hb; [|by left].
              apply elem_of_union in Hx as [Hx|Hx]; [|by left].
              apply elem_of_singleton in Hx as ->. right.
              exists instance, prediction. repeat split; try done. apply elem_of_cons; by left.
           ++ right. exists i, p. repeat split; try done. apply elem_of_cons; by right.
        -- intros [Hx|(i & p & Hi & Hid & Hp & Hl & Hb)].
           ++ left. destruct (both_outputs_exist run_id out prediction w); set_solver.
           ++ apply elem_of_cons in Hi as [->|Hi].
              ** left. subst x. rewrite Ep in Hl. injection Hl as <-. rewrite Hb. set_solver.
              ** right. exists i, p. done.
    + apply bool_decide_eq_false in Hin.
      destruct (IH c) as [Hw Hr]. split; [done|].
      destruct (completed_loop _ _ _ _ rest _ w).1 as [c'|]; [|done].
      destruct Hr as [Hall Hc']. split.
      * intros i Hi Hp. apply elem_of_cons in Hi as [->|Hi]; [done|by apply Hall].
      * intros x. rewrite Hc'. split.
        -- intros [Hx|(i & p & Hi & Hid & Hp & Hl & Hb)]; [by left|].
           right. exists i, p. repeat split; try done. apply elem_of_cons; by right.
        -- intros [Hx|(i & p & Hi & Hid & Hp & Hl & Hb)]; [by left|].
           apply elem_of_cons in Hi as [->|Hi]; [by subst x|].
           right. exists i, p. done.
Qed.

Lemma completed_loop_texts predictions pids run_id out dataset c w1 w2 :
  texts w1 = texts w2 ->
  (completed_loop predictions pids run_id out dataset c w1).1
  = (completed_loop predictions pids run_id out dataset c w2).1.
Proof.
  intros Ht. revert c. induction dataset as [|instance rest IH]; intros c; [done|].
  rewrite !completed_loop_step.
  destruct (negb _); [apply IH|].
  destruct (predictions !! instance_id instance) as [prediction|]; [|done].
  rewrite (both_outputs_exist_texts run_id out prediction w1 w2 Ht). apply IH.
Qed.

Lemma get_dataset_from_preds_result
    dataset instance_ids predictions run_id version_spec out exclude_completed w :
  let dataset_ids := dataset_ids_of version_spec dataset in
  let kept := kept_predictions predictions dataset_ids in
  let wanted := wanted_dataset instance_ids dataset in
  (get_dataset_from_preds dataset instance_ids predictions run_id version_spec out
     exclude_completed w).1
  = if nonempty_list instance_ids
       && bool_decide ((list_to_set instance_ids : gset string) ∖ dataset_ids ≠ ∅)
    then Raise (ValueError "Some instance IDs not found in dataset!")
    else
      match (completed_loop kept (dom predictions) run_id out wanted ∅ w).1 with
      | Raise e => Raise e
      | Ret completed_ids =>
          Ret (filter (fun i => instance_id i ∈ dom predictions
                                ∧ instance_id i ∉
                                    dom (filter (fun kv => is_empty_patch (model_patch (snd kv)) = true) kept))
                 (if bool_decide (completed_ids ≠ ∅) && exclude_completed
                  then filter (fun i => instance_id i ∉ completed_ids) wanted
                  else wanted))
      end.
Proof.
  cbv zeta. unfold get_dataset_from_preds, dataset_ids_of, kept_predictions, wanted_dataset.
  set (dsids := if String.eqb version_spec "all" then _ else _).
  set (want := list_to_set instance_ids).
  unfold_m.
  assert (Hloop : forall P D (W : World) (k : gset string -> World -> Res (list Instance) * World),
    texts W = texts w ->
    (forall c W', (k c W').1 = Ret (filter (fun i => instance_id i ∈ dom predictions
                                ∧ instance_id i ∉
                                    dom (filter (fun kv => is_empty_patch (model_patch (snd kv)) = true) P))
                 (if bool_decide (c ≠ ∅) && exclude_completed
                  then filter (fun i => instance_id i ∉ c) D
                  else D))) ->
    (match completed_loop P (dom predictions) run_id out D ∅ W with
     | (Ret a, s') => k a s'
     | (Raise e, s') => (Raise e, s')
     end).1
    = match (completed_loop P (dom predictions) run_id out D ∅ w).1 with
      | Raise e => Raise e
      | Ret c => Ret (filter (fun i => instance_id i ∈ dom predictions
                                ∧ instance_id i ∉
                                    dom (filter (fun kv => is_empty_patch (model_patch (snd kv)) = true) P))
                 (if bool_decide (c ≠ ∅) && exclude_completed
                  then filter (fun i => instance_id i ∉ c) D
                  else D))
      end).
  { intros P D W k HW Hk.
    rewrite <- (completed_loop_texts P (dom predictions) run_id out D ∅ W w HW).
    destruct (completed_loop P (dom predictions) run_id out D ∅ W) as [[c|e] W']; cbn; [|done].
    apply Hk. }
  destruct (nonempty_list instance_ids) eqn:Hne; cbn [andb].
  - destruct (bool_decide (want ∖ dsids ≠ ∅)) eqn:Hmiss; [done|].
    destruct (bool_decide (want ∖ dom predictions ≠ ∅)),
             (bool_decide (dom predictions ∖ dsids ≠ ∅)); cbn;
      (apply Hloop; [done|]; intros c W';
       destruct (bool_decide (c ≠ ∅)), exclude_completed; reflexivity).
  - destruct (bool_decide (dom predictions ∖ dsids ≠ ∅)); cbn;
      (apply Hloop; [done|]; intros c W';
       destruct (bool_decide (c ≠ ∅)), exclude_completed; reflexivity).
Qed.

Lemma kept_predictions_lookup predictions dataset_ids k p :
  kept_predictions predictions dataset_ids !! k = Some p -> predictions !! k = Some p.
Proof.
  unfold kept_predictions. destruct (bool_decide _); [|done].
  intros H. by apply map_lookup_filter_Some in H as [? _].
Qed.

Lemma kept_predictions_in predictions dataset_ids k :
  k ∈ dataset_ids ->
  kept_predictions predictions dataset_ids !! k = predictions !! k.
Proof.
  intros Hk. unfold kept_predictions. destruct (bool_decide _); [|done].
  destruct (predictions !! k) as [p|] eqn:E.
  - by apply map_lookup_filter_Some.
  - apply map_lookup_filter_None. left. done.
Qed.

Lemma completed_loop_returns predictions pids run_id out dataset c w :
  (forall i, i ∈ dataset -> instance_id i ∈ pids ->
             is_Some (predictions !! instance_id i)) ->
  exists c', (completed_loop predictions pids run_id out dataset c w).1 = Ret c'.
Proof.
  revert c. induction dataset as [|instance rest IH]; intros c Hall; [by exists c|].
  rewrite completed_loop_step. unfold in_set.
  destruct (bool_decide (instance_id instance ∈ pids)) eqn:Hin; cbn [negb].
  - apply bool_decide_eq_true in Hin.
    destruct (Hall instance) as [p ->]; [apply elem_of_cons; by left|done|].
    apply IH. intros i Hi. apply Hall. apply elem_of_cons. by right.
  - apply IH. intros i Hi. apply Hall. apply elem_of_cons. by right.
Qed.

Lemma wanted_dataset_elem instance_ids dataset i :
  i ∈ wanted_dataset instance_ids dataset <->
  i ∈ dataset
  /\ (negb (nonempty_list instance_ids)
      || in_set (instance_id i) (list_to_set instance_ids)) = true.
Proof.
  unfold wanted_dataset, in_set. destruct (nonempty_list instance_ids); cbn.
  - rewrite list_elem_of_filter, bool_decide_eq_true. tauto.
  - tauto.
Qed.

Lemma admission_characterised
    dataset instance_ids predictions run_id version_spec out w result :
  (get_dataset_from_preds dataset instance_ids predictions run_id version_spec out
     true w).1 = Ret result ->
  forall i, i ∈ result <->
            i ∈ dataset /\ admits instance_ids predictions run_id out w i = true.
Proof.
  rewrite get_dataset_from_preds_result. cbv zeta.
  destruct (_ && _); [discriminate|].
  pose proof (completed_loop_spec
                (kept_predictions predictions (dataset_ids_of version_spec dataset))
                (dom predictions) run_id out (wanted_dataset instance_ids dataset) ∅ w)
    as [_ Hloop].
  destruct (completed_loop _ _ _ _ _ _ _).1 as [c|e]; [|discriminate].
  destruct Hloop as [Hall Hc]. intros [= <-] i.
  rewrite list_elem_of_filter.
  assert (Hd2 : i ∈ (if bool_decide (c ≠ ∅) && true
                     then filter (fun i => instance_id i ∉ c)
                            (wanted_dataset instance_ids dataset)
                     else wanted_dataset instance_ids dataset)
                <-> i ∈ wanted_dataset instance_ids dataset /\ instance_id i ∉ c).
  { destruct (bool_decide (c ≠ ∅)) eqn:Hne; cbn [andb].
    - rewrite list_elem_of_filter. tauto.
    - apply bool_decide_eq_false in Hne.
      assert (c = ∅) as -> by (destruct (decide (c = ∅)); [done|by destruct Hne]).
      set_solver. }
  rewrite Hd2, wanted_dataset_elem. unfold admits.
  rewrite elem_of_dom. split.
  - intros ((Hdom & Hnot_empty) & (Hin & Hwant) & Hnc).
    destruct Hdom as [p Hp]. split; [done|]. rewrite Hwant, Hp. cbn [andb].
    destruct (Hall i) as [p' Hp'].
    { apply wanted_dataset_elem. done. }
    { apply elem_of_dom. eauto. }
    pose proof (kept_predictions_lookup _ _ _ _ Hp') as Hp''.
    rewrite Hp in Hp''. injection Hp'' as <-.
    destruct (is_empty_patch (model_patch p)) eqn:He.
    { exfalso. apply Hnot_empty. apply elem_of_dom. exists p.
      apply map_lookup_filter_Some. done. }
    destruct (both_outputs_exist run_id out p w) eqn:Hb; [|done].
    exfalso. apply Hnc. apply Hc. right. exists i, p. repeat split; try done.
    + apply wanted_dataset_elem. done.
    + apply elem_of_dom. eauto.
  - intros (Hin & Hadm). apply andb_true_iff in Hadm as [Hwant Hp].
    destruct (predictions !! instance_id i) as [p|] eqn:Ep; [|discriminate].
    apply andb_true_iff in Hp as [He Hb].
    apply negb_true_iff in He, Hb.
    split; [split; [eauto|]|split; [done|]].
    + intros Hdom. apply elem_of_dom in Hdom as [p' Hp'].
      apply map_lookup_filter_Some in Hp' as [Hp' Hemp]. cbn in Hemp.
      apply kept_predictions_lookup in Hp'. congruence.
    + intros Hx. apply Hc in Hx as [Hx|(i' & p' & _ & _ & _ & Hp' & Hb')]; [set_solver|].
      apply kept_predictions_lookup in Hp'. congruence.
Qed.

Lemma admission_returns dataset instance_ids predictions run_id out exclude_completed w :
  (forall x, x ∈ instance_ids -> exists i, i ∈ dataset /\ instance_id i = x) ->
  exists result,
    (get_dataset_from_preds dataset instance_ids predictions run_id "all" out
       exclude_completed w).1 = Ret result.
Proof.
  intros Hids. rewrite get_dataset_from_preds_result. cbv zeta.
  unfold dataset_ids_of. cbn [String.eqb Ascii.eqb Bool.eqb].
  replace (String.eqb "all" "all") with true by reflexivity.
  assert (Hsub : (list_to_set instance_ids : gset string)
                 ∖ list_to_set (instance_id <$> dataset) = ∅).
  { apply set_eq. intros x. rewrite elem_of_difference, !elem_of_list_to_set.
    rewrite list_elem_of_fmap. split; [|set_solver].
    intros [Hx Hn]. destruct (Hids x Hx) as (i & Hi & <-). exfalso. apply Hn. eauto. }
  rewrite Hsub. rewrite (bool_decide_eq_false_2 (∅ ≠ ∅)) by (intros H; by apply H).
  rewrite andb_false_r.
  destruct (completed_loop_returns
              (kept_predictions predictions (list_to_set (instance_id <$> dataset)))
              (dom predictions) run_id out (wanted_dataset instance_ids dataset) ∅ w)
    as [c ->]; [|eauto].
  intros i Hi Hdom. apply wanted_dataset_elem in Hi as [Hi _].
  rewrite kept_predictions_in; [by apply elem_of_dom|].
  apply elem_of_list_to_set, list_elem_of_fmap. eauto.
Qed.

Lemma admission_reads_texts_only
    dataset instance_ids predictions run_id version_spec out exclude_completed w1 w2 :
  texts w1 = texts w2 ->
  (get_dataset_from_preds dataset instance_ids predictions run_id version_spec out
     exclude_completed w1).1
  = (get_dataset_from_preds dataset instance_ids predictions run_id version_spec out
       exclude_completed w2).1.
Proof.
  intros Ht. rewrite !get_dataset_from_preds_result. cbv zeta.
  by rewrite (completed_loop_texts _ _ _ _ _ _ w1 w2 Ht).
Qed.

Lemma admission_of_task
    dataset instance_ids predictions run_id version_spec out w result i prediction :
  (get_dataset_from_preds dataset instance_ids predictions run_id version_spec out
     true w).1 = Ret result ->
  i ∈ dataset ->
  (instance_ids = [] \/ instance_id i ∈ instance_ids) ->
  predictions !! instance_id i = Some prediction ->
  is_empty_patch (model_patch prediction) = false ->
  (i ∈ result <-> both_outputs_exist run_id out prediction w = false).
Proof.
  intros Hres Hi Hwant Hp He.
  rewrite (admission_characterised _ _ _ _ _ _ _ _ Hres i).
  unfold admits. rewrite Hp, He. cbn [negb andb].
  assert (negb (nonempty_list instance_ids)
          || in_set (instance_id i) (list_to_set instance_ids) = true) as ->.
  { destruct Hwant as [->|Hx]; [done|].
    apply orb_true_iff. right. apply bool_decide_eq_true.
    by apply elem_of_list_to_set. }
  cbn [andb]. rewrite negb_true_iff. tauto.
Qed.

(** C8, as amended.  Admission does not look at report.json: whenever
    [get_dataset_from_preds] completes (it does for version_spec "all" when
    the requested ids are in the dataset), a task of the dataset that is
    among the requested ids and has a non-empty candidate patch is excluded
    from submission exactly when both test_output_prev_apply.txt and
    test_output_after_apply.txt exist in its log directory, and the
    decision is the same in every world with the same text files. *)
Theorem admitted_unless_both_test_outputs_exist
    dataset instance_ids predictions run_id out w :
  (forall x, x ∈ instance_ids -> exists i, i ∈ dataset /\ instance_id i = x) ->
  (exists result,
     (get_dataset_from_preds dataset instance_ids predictions run_id "all" out
        true w).1 = Ret result)
  /\ forall version_spec result,
       (get_dataset_from_preds dataset instance_ids predictions run_id version_spec out
          true w).1 = Ret result ->
       (forall i prediction,
          i ∈ dataset ->
          (instance_ids = [] \/ instance_id i ∈ instance_ids) ->
          predictions !! instance_id i = Some prediction ->
          is_empty_patch (model_patch prediction) = false ->
          (i ∈ result <-> both_outputs_exist run_id out prediction w = false))
       /\ (forall w2, texts w2 = texts w ->
             (get_dataset_from_preds dataset instance_ids predictions run_id
                version_spec out true w2).1 = Ret result).
Proof.
  intros Hids. split; [by apply admission_returns|].
  intros version_spec result Hres. split.
  - intros i prediction Hi Hwant Hp He.
    by apply (admission_of_task dataset instance_ids predictions run_id version_spec
                out w result i prediction).
  - intros w2 Ht. rewrite <- Hres. by apply admission_reads_texts_only.
Qed.

Lemma admitted_unless_both_test_outputs_exist_witness :
  (exists result,
     (get_dataset_from_preds [T1; T2] ["T1"] T1_predictions "run1" "all" "out"
        true outputs_only_world).1 = Ret result)
  /\ forall version_spec result,
       (get_dataset_from_preds [T1; T2] ["T1"] T1_predictions "run1" version_spec "out"
          true outputs_only_world).1 = Ret result ->
       (forall i prediction,
          i ∈ [T1; T2] ->
          (["T1"] = [] \/ instance_id i ∈ ["T1"]) ->
          T1_predictions !! instance_id i = Some prediction ->
          is_empty_patch (model_patch prediction) = false ->
          (i ∈ result <-> both_outputs_exist "run1" "out" prediction outputs_only_world = false))
       /\ (forall w2, texts w2 = texts outputs_only_world ->
             (get_dataset_from_preds [T1; T2] ["T1"] T1_predictions "run1"
                version_spec "out" true w2).1 = Ret result).
Proof.
  apply (admitted_unless_both_test_outputs_exist [T1; T2] ["T1"] T1_predictions
           "run1" "out" outputs_only_world).
  intros x Hx. apply list_elem_of_singleton in Hx as ->.
  exists T1. split; [|reflexivity]. apply elem_of_cons. by left.
Defined.

(** C8, the claim as stated fails: admission does not consult report.json.
    A task whose report.json exists, but whose two test-output files do not,
    is submitted again; a task with both test-output files and no
    report.json is excluded. *)
Lemma report_json_is_not_the_admission_marker :
  (get_dataset_from_preds [T1] [] T1_predictions "run1" "all" "out" true
     report_only_world).1 = Ret [T1]
  /\ (get_dataset_from_preds [T1] [] T1_predictions "run1" "all" "out" true
        outputs_only_world).1 = Ret [].
Proof. split; vm_compute; reflexivity. Qed.

(** ** Failed runs and the reconciler *)

Lemma reports_well_keyed_reports predictions run_id out full_dataset w1 w2 :
  reports w2 = reports w1 ->
  reports_well_keyed predictions run_id out full_dataset w1 ->
  reports_well_keyed predictions run_id out full_dataset w2.
Proof. unfold reports_well_keyed. intros ->. done. Qed.

Lemma unreported_task_is_error
    mk predictions full_dataset run_id reports_dir out w instance prediction :
  reports_well_keyed predictions run_id out full_dataset w ->
  (forall i p, i ∈ full_dataset -> predictions !! instance_id i = Some p ->
               is_Some (mk i p)) ->
  instance ∈ full_dataset ->
  predictions !! instance_id instance = Some prediction ->
  is_empty_patch (model_patch prediction) = false ->
  reports w !! (log_dir_of out run_id prediction (instance_id instance) </> "report.json")
  = None ->
  counted_as_error mk predictions full_dataset run_id reports_dir out instance w.
Proof.
  intros Hwk Hmk Hin Hp He Hnone.
  assert (Hne : predictions ≠ ∅).
  { intros ->. by rewrite lookup_empty in Hp. }
  destruct (make_run_report_spec mk predictions full_dataset run_id reports_dir out w
              Hne Hwk Hmk) as (r & w' & E & Hr).
  assert (Hb : bucket_of predictions run_id out w instance = Ret Error).
  { unfold bucket_of. by rewrite Hp, He, Hnone. }
  exists r, w'. split; [exact E|]. split.
  - apply (Hr Error). exists instance. done.
  - intros Hinj bk Hbk Hx. apply Hr in Hx as (j & Hj & Hl & Hbj).
    rewrite (bucket_of_same_id predictions run_id out w j instance) in Hbj
      by (by apply Hinj).
    congruence.
Qed.

(** C6, as amended.  When both patch-apply strategies exit non-zero, the
    pipeline makes no further attempt and does not run the test script; it
    writes no report.json, so no verdict is recorded, and the aggregate
    report counts the task in the error bucket - not in the unresolved
    bucket. *)
Theorem patch_failure_is_counted_as_error
    mk plan ts pred rm fr run_id out timeout w c v1 v2
    predictions full_dataset reports_dir instance :
  reports w !! (log_dir_of out run_id pred (ts_instance_id ts) </> "report.json") = None ->
  on_setup_logger plan = Ret tt ->
  on_build plan = Ret c ->
  on_start plan = Ret tt ->
  on_copy_patch plan = Ret tt ->
  on_git_apply plan = Ret v1 -> exit_code v1 ≠ 0%Z ->
  on_patch_fuzz plan = Ret v2 -> exit_code v2 ≠ 0%Z ->
  instance ∈ full_dataset ->
  instance_id instance = ts_instance_id ts ->
  predictions !! instance_id instance = Some pred ->
  is_empty_patch (model_patch pred) = false ->
  reports_well_keyed predictions run_id out full_dataset w ->
  (forall i p, i ∈ full_dataset -> predictions !! instance_id i = Some p ->
               is_Some (mk i p)) ->
  let run := run_instance_setup plan ts pred rm fr run_id out apply_patch timeout w in
  reports run.2 = reports w
  /\ (exists delta,
        trace run.2 = trace w ++ delta
        /\ exec_commands delta = [GIT_APPLY; PATCH_FUZZ]
        /\ eval_commands delta = [])
  /\ counted_as_error mk predictions full_dataset run_id reports_dir out instance run.2.
Proof.
  intros Hnone Hsl Hbd Hst Hcp Hga Hx1 Hpf Hx2 Hin Hid Hp He Hwk Hmk run.
  destruct (run_instance_setup_strict_then_fuzzy plan ts pred rm fr run_id out timeout
              w c Hnone Hsl Hbd Hst Hcp) as (delta & Htr & _ & _ & H3).
  destruct (H3 v1 v2 Hga Hx1 Hpf Hx2) as (Ex & Ev & Er & _).
  fold run in Htr, Er.
  split; [exact Er|]. split; [by exists delta|].
  apply unreported_task_is_error with pred; try done.
  - by apply (reports_well_keyed_reports _ _ _ _ w).
  - rewrite Er, Hid. exact Hnone.
Qed.

Lemma patch_failure_is_counted_as_error_witness :
  let run := run_instance_setup plan_both_fail T1_spec T1_pred true false "run1" "out"
               apply_patch None empty_world in
  reports run.2 = reports empty_world
  /\ (exists delta,
        trace run.2 = trace empty_world ++ delta
        /\ exec_commands delta = [GIT_APPLY; PATCH_FUZZ]
        /\ eval_commands delta = [])
  /\ counted_as_error example_make_test_spec T1_predictions [T1; T2] "run1" "reports"
       "out" T1 run.2.
Proof.
  apply (patch_failure_is_counted_as_error example_make_test_spec plan_both_fail
           T1_spec T1_pred true false "run1" "out" None empty_world "c1"
           {| exit_code := 1; output := "error: patch failed: a.py:1" |}
           {| exit_code := 1; output := "1 out of 1 hunk FAILED" |}
           T1_predictions [T1; T2] "reports" T1);
    try reflexivity; try discriminate.
  - apply elem_of_cons. by left.
  - intros i p _ _. unfold example_make_test_spec. eauto.
Defined.

(** C6, the claim as stated fails: after a run in which both patch-apply
    strategies exit non-zero there is no report.json, and the aggregate
    report has the task in the error bucket and not in the unresolved
    bucket. *)
Lemma patch_failure_is_not_counted_unresolved :
  let run := run_instance_setup plan_both_fail T1_spec T1_pred true false "run1" "out"
               apply_patch None empty_world in
  run.1 = Ret None
  /\ reports run.2 !! (log_dir_of "out" "run1" T1_pred "T1" </> "report.json") = None
  /\ match (make_run_report example_make_test_spec T1_predictions [T1] "run1" "reports"
              "out" run.2).1 with
     | Ret r =>
         bool_decide ("T1_version-1.0" ∈ error_ids r)
         && negb (bool_decide ("T1_version-1.0" ∈ unresolved_ids r))
     | Raise _ => false
     end = true.
Proof. vm_compute. repeat split; reflexivity. Qed.

(** C10, as amended.  In patched mode, when an exception is raised inside the
    [try] block (container build or start, patch application, eval-script
    execution, grading), no report.json is written: the store of reports is
    unchanged, a later pipeline call for the task does not take the early
    return, and the reconciler counts the task in the error bucket.  On a
    resumed run the task is submitted again exactly when its log directory
    does not hold both test-output files. *)
Theorem failed_run_writes_no_report
    mk plan ts pred rm fr run_id out timeout w e
    predictions full_dataset reports_dir instance_ids instance :
  let log_dir := log_dir_of out run_id pred (ts_instance_id ts) in
  reports w !! (log_dir </> "report.json") = None ->
  on_setup_logger plan = Ret tt ->
  (run_instance_setup_body plan ts pred log_dir
     (log_dir </> "run_instance_after_apply.log") (log_dir </> "report.json") apply_patch
     {| fr_world :=
          with_texts (fun t => <[log_dir </> "run_instance_after_apply.log" := ""]> t) w;
        fr_container := None |}).1
  = Raise e ->
  instance ∈ full_dataset ->
  instance_id instance = ts_instance_id ts ->
  predictions !! instance_id instance = Some pred ->
  is_empty_patch (model_patch pred) = false ->
  reports_well_keyed predictions run_id out full_dataset w ->
  (forall i p, i ∈ full_dataset -> predictions !! instance_id i = Some p ->
               is_Some (mk i p)) ->
  let run := run_instance_setup plan ts pred rm fr run_id out apply_patch timeout w in
  reports run.2 = reports w
  /\ reports run.2 !! (log_dir </> "report.json") = None
  /\ counted_as_error mk predictions full_dataset run_id reports_dir out instance run.2
  /\ forall version_spec result,
       (get_dataset_from_preds full_dataset instance_ids predictions run_id version_spec
          out true run.2).1 = Ret result ->
       (instance_ids = [] \/ instance_id instance ∈ instance_ids) ->
       (instance ∈ result <-> both_outputs_exist run_id out pred run.2 = false).
Proof.
  intros log_dir Hnone Hsl Hbody Hin Hid Hp He Hwk Hmk run.
  assert (Hrep : reports run.2 = reports w).
  { unfold run. rewrite run_instance_setup_unfold. cbv zeta. fold log_dir.
    rewrite Hnone, Hsl. cbn [is_not_apply_patch].
    rewrite guarded_outcome_reports.
    pose proof (run_instance_setup_body_reports plan ts pred log_dir
                  (log_dir </> "run_instance_after_apply.log")
                  (log_dir </> "report.json") apply_patch
                  (with_texts (fun t =>
                     <[log_dir </> "run_instance_after_apply.log" := ""]> t) w)) as H.
    cbv zeta in H. rewrite Hbody in H. exact H. }
  split; [exact Hrep|]. split; [by rewrite Hrep|]. split.
  - apply unreported_task_is_error with pred; try done.
    + by apply (reports_well_keyed_reports _ _ _ _ w).
    + rewrite Hrep, Hid. exact Hnone.
  - intros version_spec result Hres Hwant.
    by apply (admission_of_task full_dataset instance_ids predictions run_id
                version_spec out run.2 result instance pred).
Qed.

Lemma failed_run_writes_no_report_witness :
  let log_dir := log_dir_of "out" "run1" T1_pred "T1" in
  let run := run_instance_setup plan_grading_fault T1_spec T1_pred true false "run1" "out"
               apply_patch None empty_world in
  reports run.2 = reports empty_world
  /\ reports run.2 !! (log_dir </> "report.json") = None
  /\ counted_as_error example_make_test_spec T1_predictions [T1; T2] "run1" "reports"
       "out" T1 run.2
  /\ forall version_spec result,
       (get_dataset_from_preds [T1; T2] [] T1_predictions "run1" version_spec
          "out" true run.2).1 = Ret result ->
       (([] : list string) = [] \/ instance_id T1 ∈ ([] : list string)) ->
       (T1 ∈ result <-> both_outputs_exist "run1" "out" T1_pred run.2 = false).
Proof.
  apply (failed_run_writes_no_report example_make_test_spec plan_grading_fault
           T1_spec T1_pred true false "run1" "out" None empty_world
           (EngineError "injected") T1_predictions [T1; T2] "reports" [] T1);
    try reflexivity; try discriminate.
  - apply elem_of_cons. by left.
  - intros i p _ _. unfold example_make_test_spec. eauto.
Defined.

(** C10, the claim as stated fails.  In the dual-mode protocol the baseline
    run writes test_output_prev_apply.txt; when the patched run then raises
    while grading, test_output_after_apply.txt is already written and no
    report.json exists.  The reconciler counts the task as an error, but on
    a resumed run admission finds both test-output files and excludes the
    task: it is not executed again. *)
Lemma failed_task_is_not_resubmitted :
  let baseline := run_instance_setup plan_ok T1_spec T1_pred false false "run1" "out"
                    not_apply_patch None empty_world in
  let log_dir := log_dir_of "out" "run1" T1_pred "T1" in
  let after :=
    (run_instance_fail_to_pass plan_ok plan_grading_fault T1_spec T1_pred true false
       "run1" "out" None empty_world).2 in
  (run_instance_setup_body plan_grading_fault T1_spec T1_pred log_dir
     (log_dir </> "run_instance_after_apply.log") (log_dir </> "report.json") apply_patch
     {| fr_world :=
          with_texts (fun t => <[log_dir </> "run_instance_after_apply.log" := ""]> t)
            baseline.2;
        fr_container := None |}).1
  = Raise (EngineError "injected")
  /\ reports after !! (log_dir </> "report.json") = None
  /\ match (make_run_report example_make_test_spec T1_predictions [T1] "run1" "reports"
              "out" after).1 with
     | Ret r => bool_decide ("T1_version-1.0" ∈ error_ids r)
     | Raise _ => false
     end = true
  /\ (get_dataset_from_preds [T1] [] T1_predictions "run1" "all" "out" true after).1
     = Ret [].
Proof. vm_compute. repeat split; reflexivity. Qed.

(** ** Failure containment *)

Section Logic.
Context {S : Type}.
Implicit Types R Q : S -> S -> Prop.

Lemma respects_ret {A} R (a : A) : respects R (mret a).
Proof. intros s1 s2 H. done. Qed.

Lemma respects_raise {A} R e : respects R (raise e : M S A).
Proof. intros s1 s2 H. done. Qed.

Lemma respects_outcome {A} R (r : Res A) : respects R (outcome r).
Proof. intros s1 s2 H. done. Qed.

Lemma respects_bind {A B} R (m : M S A) (f : A -> M S B) :
  respects R m -> (forall a, respects R (f a)) -> respects R (m ≫= f).
Proof.
  intros Hm Hf s1 s2 H. destruct (Hm s1 s2 H) as [E1 E2].
  unfold mbind, M_bind.
  destruct (m s1) as [[a1|e1] t1], (m s2) as [[a2|e2] t2]; cbn in *; try done.
  - injection E1 as ->. by apply Hf.
  - injection E1 as ->. done.
Qed.

Lemma respects_gets {A} R (f : S -> A) :
  (forall s1 s2, R s1 s2 -> f s1 = f s2) -> respects R (gets f).
Proof. intros Hf s1 s2 H. cbn. split; [by rewrite (Hf s1 s2 H)|done]. Qed.

Lemma respects_modify R (f : S -> S) :
  (forall s1 s2, R s1 s2 -> R (f s1) (f s2)) -> respects R (modify f).
Proof. intros Hf s1 s2 H. cbn. split; [done|by apply Hf]. Qed.

Lemma respects_try_except {A} R (body : M S A) handler :
  respects R body -> (forall e, respects R (handler e)) ->
  respects R (try_except body handler).
Proof.
  intros Hb Hh s1 s2 H. destruct (Hb s1 s2 H) as [E1 E2].
  unfold try_except.
  destruct (body s1) as [[a1|e1] t1], (body s2) as [[a2|e2] t2]; cbn in *; try done.
  injection E1 as ->. by apply Hh.
Qed.

Lemma respects_try_finally {A} R (body : M S A) fin :
  respects R body -> respects R fin -> respects R (try_finally body fin).
Proof.
  intros Hb Hf s1 s2 H. destruct (Hb s1 s2 H) as [E1 E2].
  unfold try_finally.
  destruct (body s1) as [r1 t1], (body s2) as [r2 t2]; cbn in *. subst r2.
  destruct (Hf t1 t2 E2) as [F1 F2].
  destruct (fin t1) as [[[]|e1] u1], (fin t2) as [[[]|e2] u2]; cbn in *; try done.
  by injection F1 as ->.
Qed.

Lemma keeps_ret {A} Q `{!Reflexive Q} (a : A) : keeps Q (mret a).
Proof. intros s. cbn. reflexivity. Qed.

Lemma keeps_raise {A} Q `{!Reflexive Q} e : keeps Q (raise e : M S A).
Proof. intros s. cbn. reflexivity. Qed.

Lemma keeps_outcome {A} Q `{!Reflexive Q} (r : Res A) : keeps Q (outcome r).
Proof. intros s. cbn. reflexivity. Qed.

Lemma keeps_gets {A} Q `{!Reflexive Q} (f : S -> A) : keeps Q (gets f).
Proof. intros s. cbn. reflexivity. Qed.

Lemma keeps_modify Q (f : S -> S) : (forall s, Q s (f s)) -> keeps Q (modify f).
Proof. intros Hf s. apply Hf. Qed.

Lemma keeps_bind {A B} Q `{!Transitive Q} (m : M S A) (f : A -> M S B) :
  keeps Q m -> (forall a, keeps Q (f a)) -> keeps Q (m ≫= f).
Proof.
  intros Hm Hf s. specialize (Hm s). unfold mbind, M_bind.
  destruct (m s) as [[a|e] t]; cbn in *; [|done].
  etransitivity; [exact Hm|apply Hf].
Qed.

Lemma keeps_try_except {A} Q `{!Transitive Q} (body : M S A) handler :
  keeps Q body -> (forall e, keeps Q (handler e)) -> keeps Q (try_except body handler).
Proof.
  intros Hb Hh s. specialize (Hb s). unfold try_except.
  destruct (body s) as [[a|e] t]; cbn in *; [done|].
  etransitivity; [exact Hb|apply Hh].
Qed.

Lemma keeps_try_finally {A} Q `{!Transitive Q} (body : M S A) fin :
  keeps Q body -> keeps Q fin -> keeps Q (try_finally body fin).
Proof.
  intros Hb Hf s. specialize (Hb s). unfold try_finally.
  destruct (body s) as [r t]; cbn in *. specialize (Hf t).
  destruct (fin t) as [[[]|e] u]; cbn in *; etransitivity; eauto.
Qed.
End Logic.

#[local] Instance agree_equiv d : Equivalence (agree d).
Proof.
  split.
  - intros w name. done.
  - intros w1 w2 H name. destruct (H name). done.
  - intros w1 w2 w3 H1 H2 name. destruct (H1 name), (H2 name). split; congruence.
Qed.

Lemma div_inj (d d' : Path) n n' : d </> n = d' </> n' -> d = d' /\ n = n'.
Proof. apply app_inj_tail. Qed.

Lemma parent_div (d : Path) n : parent (d </> n) = d.
Proof. apply removelast_last. Qed.

(** A plain component is joined as it is. *)
Lemma split_slash_no_slash s : Str.has_slash s = false -> Str.split_slash s = [s].
Proof.
  induction s as [|c s IH]; [done|]. cbn.
  destruct (Ascii.eqb c "/"); [done|]. cbn. intros H. by rewrite (IH H).
Qed.

Lemma path_root_no_slash s : Str.has_slash s = false -> path_root s = None.
Proof.
  destruct s as [|c s]; [done|]. cbn [Str.has_slash].
  destruct (Ascii.eqb_spec c "/") as [->|Hc]; [done|]. intros _.
  unfold path_root. cbn [String.prefix].
  destruct (ascii_dec "/" c) as [E|_]; [by subst c|]. done.
Qed.

Lemma joinpath_plain (p : Path) s : plain_component s = true -> joinpath p s = p </> s.
Proof.
  unfold plain_component. rewrite !andb_true_iff, !negb_true_iff.
  intros [[[Hs He] Hd] _].
  unfold joinpath, path_names, path_div.
  rewrite (path_root_no_slash s Hs), (split_slash_no_slash s Hs).
  apply String.eqb_neq in He, Hd.
  rewrite filter_cons_True by done. done.
Qed.

Lemma log_dir_of_plain out run_id pred id :
  plain_component id = true ->
  log_dir_of out run_id pred id
  = joinpath (joinpath (path_of out) run_id) (Str.replace_slash (model_name_or_path pred))
    </> id.
Proof. intros H. unfold log_dir_of. by rewrite joinpath_plain. Qed.

(** Steps that touch no file. *)
Lemma agree_with_trace d f1 f2 w1 w2 :
  agree d w1 w2 -> agree d (with_trace f1 w1) (with_trace f2 w2).
Proof. done. Qed.
Lemma agree_with_live d f1 f2 w1 w2 :
  agree d w1 w2 -> agree d (with_live f1 w1) (with_live f2 w2).
Proof. done. Qed.
Lemma agree_with_images d f1 f2 w1 w2 :
  agree d w1 w2 -> agree d (with_images f1 w1) (with_images f2 w2).
Proof. done. Qed.
Lemma agree_with_stdout d f1 f2 w1 w2 :
  agree d w1 w2 -> agree d (with_stdout f1 w1) (with_stdout f2 w2).
Proof. done. Qed.
Lemma agree_with_pbar d f1 f2 w1 w2 :
  agree d w1 w2 -> agree d (with_pbar f1 w1) (with_pbar f2 w2).
Proof. done. Qed.

(** Writing the same text, possibly computed from a file of [d], on both sides. *)
Lemma agree_write_in d n (g : option string -> string) w1 w2 :
  agree d w1 w2 ->
  agree d (with_texts (fun t => <[d </> n := g (t !! (d </> n))]> t) w1)
          (with_texts (fun t => <[d </> n := g (t !! (d </> n))]> t) w2).
Proof.
  intros H name. cbn. split; [|apply H].
  destruct (decide (d </> n = d </> name)) as [E|E].
  - rewrite <- E, !lookup_insert_eq. by rewrite (proj1 (H n)).
  - rewrite !lookup_insert_ne by done. apply H.
Qed.

Lemma agree_write_report_in d n doc w1 w2 :
  agree d w1 w2 ->
  agree d (with_reports (fun r => <[d </> n := doc]> r) w1)
          (with_reports (fun r => <[d </> n := doc]> r) w2).
Proof.
  intros H name. cbn. split; [apply H|].
  destruct (decide (d </> n = d </> name)) as [E|E].
  - by rewrite <- E, !lookup_insert_eq.
  - rewrite !lookup_insert_ne by done. apply H.
Qed.

(** Writing into another directory. *)
Lemma agree_write_out d d' n (g : option string -> string) w :
  d' ≠ d ->
  agree d w (with_texts (fun t => <[d' </> n := g (t !! (d' </> n))]> t) w).
Proof.
  intros Hne name. cbn. split; [|done].
  rewrite lookup_insert_ne; [done|]. intros E. apply div_inj in E as [? _]. done.
Qed.

Lemma agree_write_report_out d d' n doc w :
  d' ≠ d ->
  agree d w (with_reports (fun r => <[d' </> n := doc]> r) w).
Proof.
  intros Hne name. cbn. split; [done|].
  rewrite lookup_insert_ne; [done|]. intros E. apply div_inj in E as [? _]. done.
Qed.

(** *** Relations kept by the steps of a pipeline *)

#[local] Instance agree_local d : Local d (agree d).
Proof.
  split.
  - done.
  - intros n g w1 w2 H. by apply agree_write_in.
  - intros n doc w1 w2 H. by apply agree_write_report_in.
  - intros e w1 w2 H. by apply agree_with_trace.
  - intros f w1 w2 H. by apply agree_with_live.
  - intros f w1 w2 H. by apply agree_with_images.
  - intros f w1 w2 H. by apply agree_with_stdout.
  - intros f w1 w2 H. by apply agree_with_pbar.
Qed.

#[local] Instance same_run_local d t1 t2 : Local d (same_run d t1 t2).
Proof.
  split.
  - by intros w1 w2 [H _].
  - intros n g w1 w2 [H Ht]. split; [by apply agree_write_in|exact Ht].
  - intros n doc w1 w2 [H Ht]. split; [by apply agree_write_report_in|exact Ht].
  - intros e w1 w2 [H (delta & E1 & E2)]. split; [by apply agree_with_trace|].
    exists (delta ++ [e]). cbn. rewrite E1, E2, !app_assoc. done.
  - intros f w1 w2 [H Ht]. split; [by apply agree_with_live|exact Ht].
  - intros f w1 w2 [H Ht]. split; [by apply agree_with_images|exact Ht].
  - intros f w1 w2 [H Ht]. split; [by apply agree_with_stdout|exact Ht].
  - intros f w1 w2 [H Ht]. split; [by apply agree_with_pbar|exact Ht].
Qed.

(** *** Primitives, from related worlds *)

Section Respects.
Context (d : Path) (R : World -> World -> Prop) `{!Local d R}.

Lemma respects_emit e : respects R (emit e).
Proof. apply respects_modify. intros w1 w2 H. by apply local_emit. Qed.

Lemma respects_print msg : respects R (print msg).
Proof. apply respects_modify. intros w1 w2 H. by apply local_stdout. Qed.

Lemma respects_with_live f : respects R (modify (with_live f)).
Proof. apply respects_modify. intros w1 w2 H. by apply local_live. Qed.

Lemma respects_with_images f : respects R (modify (with_images f)).
Proof. apply respects_modify. intros w1 w2 H. by apply local_images. Qed.

Lemma respects_with_pbar f : respects R (modify (with_pbar f)).
Proof. apply respects_modify. intros w1 w2 H. by apply local_pbar. Qed.

Lemma respects_write_text n s : respects R (write_text (d </> n) s).
Proof.
  apply respects_modify. intros w1 w2 H.
  apply (local_write n (fun _ => s)). done.
Qed.

Lemma respects_logger_info n msg : respects R (logger_info (d </> n) msg).
Proof.
  apply respects_modify. intros w1 w2 H.
  apply (local_write n (fun o => default "" o +:+ msg +:+ nl)). done.
Qed.

Lemma respects_write_report n doc : respects R (write_report (d </> n) doc).
Proof. apply respects_modify. intros w1 w2 H. by apply local_write_report. Qed.

Lemma respects_text_exists n : respects R (text_exists (d </> n)).
Proof.
  apply respects_gets. intros w1 w2 H. apply local_agree in H.
  by rewrite (proj1 (H n)).
Qed.

Lemma respects_report_exists n : respects R (report_exists (d </> n)).
Proof.
  apply respects_gets. intros w1 w2 H. apply local_agree in H.
  by rewrite (proj2 (H n)).
Qed.

Lemma respects_read_text n : respects R (read_text (d </> n)).
Proof.
  intros w1 w2 H. pose proof (local_agree _ _ H) as Ha.
  unfold read_text. rewrite (proj1 (Ha n)).
  by destruct (texts w2 !! (d </> n)).
Qed.

Lemma respects_read_report n : respects R (read_report (d </> n)).
Proof.
  intros w1 w2 H. pose proof (local_agree _ _ H) as Ha.
  unfold read_report. rewrite (proj2 (Ha n)).
  by destruct (reports w2 !! (d </> n)).
Qed.

Lemma respects_lift {A} (m : M World A) :
  respects R m -> respects (rel_frames R) (lift m).
Proof.
  intros Hm f1 f2 [Hc H]. destruct (Hm _ _ H) as [E1 E2]. unfold lift.
  destruct (m (fr_world f1)) as [r1 w1], (m (fr_world f2)) as [r2 w2]; cbn in *.
  done.
Qed.

Lemma respects_set_container c : respects (rel_frames R) (set_container c).
Proof. apply respects_modify. intros f1 f2 [_ H]. done. Qed.

Lemma respects_get_container : respects (rel_frames R) get_container.
Proof. apply respects_gets. intros f1 f2 [H _]. done. Qed.

Lemma respects_with_locals {A} (m : M Frame A) :
  respects (rel_frames R) m -> respects R (with_locals m).
Proof.
  intros Hm w1 w2 H. unfold with_locals.
  destruct (Hm {| fr_world := w1; fr_container := None |}
               {| fr_world := w2; fr_container := None |}) as [E1 [_ E2]]; [done|].
  destruct (m _) as [r1 f1], (m _) as [r2 f2]; cbn in *. done.
Qed.
End Respects.

(** *** Relations kept by a pipeline that works in directory [d'] *)

#[local] Instance agree_kept d d' : d' ≠ d -> Kept d' (agree d).
Proof.
  intros Hne. split.
  - apply _.
  - apply _.
  - intros n g w. by apply agree_write_out.
  - intros n doc w. by apply agree_write_report_out.
  - intros f w name. done.
  - intros f w name. done.
  - intros f w name. done.
  - intros f w name. done.
Qed.

#[local] Instance same_pbar_kept d' : Kept d' same_pbar.
Proof. split; unfold same_pbar; try done. intros w1 w2 w3 H1 H2. congruence. Qed.

Section Keeps.
Context (d' : Path) (Q : World -> World -> Prop) `{!Kept d' Q}.

#[local] Instance kept_reflexive : Reflexive Q := kept_refl.
#[local] Instance kept_transitive : Transitive Q := kept_trans.

#[local] Instance kept_frames_reflexive : Reflexive (kept_frames Q).
Proof. intros f. unfold kept_frames. reflexivity. Qed.
#[local] Instance kept_frames_transitive : Transitive (kept_frames Q).
Proof. intros f1 f2 f3 H1 H2. unfold kept_frames in *. by etransitivity. Qed.

Lemma keeps_emit e : keeps Q (emit e).
Proof. apply keeps_modify. intros w. apply kept_trace. Qed.

Lemma keeps_print msg : keeps Q (print msg).
Proof. apply keeps_modify. intros w. apply kept_stdout. Qed.

Lemma keeps_with_live f : keeps Q (modify (with_live f)).
Proof. apply keeps_modify. intros w. apply kept_live. Qed.

Lemma keeps_with_images f : keeps Q (modify (with_images f)).
Proof. apply keeps_modify. intros w. apply kept_images. Qed.

Lemma keeps_write_text n s : keeps Q (write_text (d' </> n) s).
Proof. apply keeps_modify. intros w. apply (kept_write n (fun _ => s)). Qed.

Lemma keeps_logger_info n msg : keeps Q (logger_info (d' </> n) msg).
Proof.
  apply keeps_modify. intros w.
  apply (kept_write n (fun o => default "" o +:+ msg +:+ nl)).
Qed.

Lemma keeps_write_report n doc : keeps Q (write_report (d' </> n) doc).
Proof. apply keeps_modify. intros w. apply kept_write_report. Qed.

Lemma keeps_read_text p : keeps Q (read_text p).
Proof. intros w. unfold read_text. destruct (texts w !! p); reflexivity. Qed.

Lemma keeps_read_report p : keeps Q (read_report p).
Proof. intros w. unfold read_report. destruct (reports w !! p); reflexivity. Qed.

Lemma keeps_lift {A} (m : M World A) :
  keeps Q m -> keeps (kept_frames Q) (lift m).
Proof.
  intros Hm f. specialize (Hm (fr_world f)). unfold lift, kept_frames.
  by destruct (m (fr_world f)) as [r w].
Qed.

Lemma keeps_set_container c : keeps (kept_frames Q) (set_container c).
Proof. apply keeps_modify. intros f. unfold kept_frames. cbn. reflexivity. Qed.

Lemma keeps_with_locals {A} (m : M Frame A) :
  keeps (kept_frames Q) m -> keeps Q (with_locals m).
Proof.
  intros Hm w. unfold with_locals.
  specialize (Hm {| fr_world := w; fr_container := None |}).
  by destruct (m _) as [r f].
Qed.
End Keeps.

Ltac unfold_blocks :=
  unfold run_instance_setup_body, run_instance_body, pipeline_finally,
    apply_patch_to_container, report_failure, exn_str, get_pred_report, read_or_warn,
    grade_patch_status, grade_exit_code, setup_logger, close_logger,
    build_setup_container, container_start, copy_to_container, exec_run,
    exec_run_with_timeout, remove_image, cleanup_container;
  cbv zeta.

Ltac kept := first [typeclasses eauto | eassumption].

Ltac logic_step :=
  match goal with
  | |- respects _ (mbind _ _) => apply respects_bind; [|intros ?]
  | |- respects _ (mret _) => apply respects_ret
  | |- respects _ (raise _) => apply respects_raise
  | |- respects _ (outcome _) => apply respects_outcome
  | |- respects _ (try_except _ _) => apply respects_try_except; [|intros ?]
  | |- respects _ (try_finally _ _) => apply respects_try_finally
  | |- respects _ (with_locals _) => apply respects_with_locals
  | |- respects _ (lift _) => apply respects_lift
  | |- respects _ (set_container _) => apply respects_set_container
  | |- respects _ get_container => apply respects_get_container
  | |- respects _ (emit _) => eapply respects_emit; kept
  | |- respects _ (print _) => eapply respects_print; kept
  | |- respects _ (modify (with_live _)) => eapply respects_with_live; kept
  | |- respects _ (modify (with_images _)) => eapply respects_with_images; kept
  | |- respects _ (modify (with_pbar _)) => eapply respects_with_pbar; kept
  | |- respects _ (write_text _ _) => eapply respects_write_text; kept
  | |- respects _ (logger_info _ _) => eapply respects_logger_info; kept
  | |- respects _ (write_report _ _) => eapply respects_write_report; kept
  | |- respects _ (text_exists _) => eapply respects_text_exists; kept
  | |- respects _ (report_exists _) => eapply respects_report_exists; kept
  | |- respects _ (read_text _) => eapply respects_read_text; kept
  | |- respects _ (read_report _) => eapply respects_read_report; kept
  | |- keeps _ (mbind _ _) => apply keeps_bind; [kept| |intros ?]
  | |- keeps _ (mret _) => apply keeps_ret; kept
  | |- keeps _ (raise _) => apply keeps_raise; kept
  | |- keeps _ (outcome _) => apply keeps_outcome; kept
  | |- keeps _ (gets _) => apply keeps_gets; kept
  | |- keeps _ (try_except _ _) => apply keeps_try_except; [kept| |intros ?]
  | |- keeps _ (try_finally _ _) => apply keeps_try_finally; [kept| |]
  | |- keeps _ (with_locals _) =>
      first [eapply keeps_with_locals; [kept|] | eapply keeps_with_locals]
  | |- keeps _ (lift _) => first [eapply keeps_lift; [kept|] | eapply keeps_lift]
  | |- keeps _ (set_container _) => eapply keeps_set_container; kept
  | |- keeps _ get_container => apply keeps_gets; kept
  | |- keeps _ (emit _) => eapply keeps_emit; kept
  | |- keeps _ (print _) => eapply keeps_print; kept
  | |- keeps _ (modify (with_live _)) => eapply keeps_with_live; kept
  | |- keeps _ (modify (with_images _)) => eapply keeps_with_images; kept
  | |- keeps _ (text_exists _) => apply keeps_gets; kept
  | |- keeps _ (report_exists _) => apply keeps_gets; kept
  | |- keeps _ (read_text _) => eapply keeps_read_text; kept
  | |- keeps _ (read_report _) => eapply keeps_read_report; kept
  | |- keeps _ (write_text _ _) => eapply keeps_write_text; kept
  | |- keeps _ (logger_info _ _) => eapply keeps_logger_info; kept
  | |- keeps _ (write_report _ _) => eapply keeps_write_report; kept
  | |- _ _ (if ?b then _ else _) => destruct b
  | |- _ _ (match ?x with _ => _ end) => destruct x
  end.

Ltac logic := unfold_blocks; rewrite ?parent_div; repeat logic_step.

Lemma run_instance_setup_local R plan ts pred rm fr run_id out mode timeout :
  Local (log_dir_of out run_id pred (ts_instance_id ts)) R ->
  respects R (run_instance_setup plan ts pred rm fr run_id out mode timeout).
Proof.
  intros HR. unfold run_instance_setup. cbv zeta.
  set (d := log_dir_of out run_id pred (ts_instance_id ts)) in *.
  logic.
Qed.

Lemma run_instance_setup_kept Q plan ts pred rm fr run_id out mode timeout :
  Kept (log_dir_of out run_id pred (ts_instance_id ts)) Q ->
  keeps Q (run_instance_setup plan ts pred rm fr run_id out mode timeout).
Proof.
  intros HK. unfold run_instance_setup. cbv zeta.
  set (d' := log_dir_of out run_id pred (ts_instance_id ts)) in *.
  pose proof (kept_reflexive d' Q) as Hrefl.
  pose proof (kept_transitive d' Q) as Htrans.
  pose proof (kept_frames_reflexive d' Q) as Hfrefl.
  pose proof (kept_frames_transitive d' Q) as Hftrans.
  logic.
Qed.

Lemma submitted_call_local R dual plans bplans fr run_id out timeout ts pred :
  Local (log_dir_of out run_id pred (ts_instance_id ts)) R ->
  respects R (submitted_call dual plans bplans fr run_id out timeout ts pred).
Proof.
  intros HR. unfold submitted_call, run_instance_fail_to_pass. destruct dual.
  - apply respects_bind; [by apply run_instance_setup_local|intros ?].
    apply respects_bind; [by apply run_instance_setup_local|intros ?].
    apply respects_ret.
  - by apply run_instance_setup_local.
Qed.

Lemma submitted_call_kept Q dual plans bplans fr run_id out timeout ts pred :
  Kept (log_dir_of out run_id pred (ts_instance_id ts)) Q ->
  keeps Q (submitted_call dual plans bplans fr run_id out timeout ts pred).
Proof.
  intros HK. pose proof (@kept_refl _ _ HK) as Hrefl.
  pose proof (@kept_trans _ _ HK) as Htrans.
  unfold submitted_call, run_instance_fail_to_pass. destruct dual.
  - apply keeps_bind; [done|by apply run_instance_setup_kept|intros ?].
    apply keeps_bind; [done|by apply run_instance_setup_kept|intros ?].
    by apply keeps_ret.
  - by apply run_instance_setup_kept.
Qed.

Lemma submitted_call_frame d dual plans bplans fr run_id out timeout ts pred :
  log_dir_of out run_id pred (ts_instance_id ts) ≠ d ->
  keeps (agree d) (submitted_call dual plans bplans fr run_id out timeout ts pred).
Proof. intros Hne. apply submitted_call_kept. by apply agree_kept. Qed.

(** [pathlib] on a few strings: [Path("x") / s] and its [str]. *)
Example joinpath_examples :
  joinpath ["x"] "a//b/./c/" = ["x"; "a"; "b"; "c"]
  /\ joinpath ["x"] "" = ["x"]
  /\ joinpath ["x"] ".." = ["x"; ".."]
  /\ joinpath ["x"] "/a/b" = ["/"; "a"; "b"]
  /\ joinpath ["x"] "//a" = ["//"; "a"]
  /\ joinpath ["x"] "///a" = ["/"; "a"]
  /\ path_str (joinpath ["x"] "/a/b") = "/a/b"
  /\ path_str (joinpath ["x"] "//a") = "//a"
  /\ path_str (joinpath ["x"] "a/b") = "x/a/b"
  /\ path_str (path_of "") = "."
  /\ log_dir_of "out" "run" T1_pred "T1/." = ["out"; "run"; "org__model"; "T1"].
Proof. repeat split; vm_compute; reflexivity. Qed.

(** Tasks with different plain ids have different log directories. *)
Lemma log_dir_of_other_task out run_id pred pred' id id' :
  plain_component id = true -> plain_component id' = true ->
  id' ≠ id -> log_dir_of out run_id pred' id' ≠ log_dir_of out run_id pred id.
Proof.
  intros Hp Hp' Hne E. rewrite !log_dir_of_plain in E by done.
  apply div_inj in E as [_ ?]. done.
Qed.

Lemma submit_all_step {A} (job : TestSpec -> Prediction -> M World A)
    predictions ts rest w :
  submit_all job predictions (ts :: rest) w
  = match predictions !! ts_instance_id ts with
    | None => (Raise (KeyError (ts_instance_id ts)), w)
    | Some pred =>
        match submit_all job predictions rest (job ts pred w).2 with
        | (Ret fs, w') => (Ret ((job ts pred w).1 :: fs), w')
        | (Raise e, w') => (Raise e, w')
        end
    end.
Proof.
  cbn [submit_all]. destruct (predictions !! ts_instance_id ts) as [pred|]; [|done].
  unfold future, mbind, M_bind, mret, M_ret.
  destruct (job ts pred w) as [r w1]. cbn.
  by destruct (submit_all job predictions rest w1) as [[fs|e] w2].
Qed.

(** Every submitted call runs and leaves its outcome, whatever the others
    did. *)
Lemma submit_all_returns {A} (job : TestSpec -> Prediction -> M World A)
    predictions test_specs w :
  (forall ts, ts ∈ test_specs -> is_Some (predictions !! ts_instance_id ts)) ->
  exists fs w',
    submit_all job predictions test_specs w = (Ret fs, w')
    /\ List.length fs = List.length test_specs.
Proof.
  revert w. induction test_specs as [|ts rest IH]; intros w Hall.
  - by exists [], w.
  - rewrite submit_all_step.
    destruct (Hall ts) as [pred ->]; [apply elem_of_cons; by left|].
    destruct (IH (job ts pred w).2) as (fs & w' & -> & Hlen).
    { intros t Ht. apply Hall. apply elem_of_cons. by right. }
    eexists _, _. split; [reflexivity|]. cbn. by rewrite Hlen.
Qed.

(** What every submitted call keeps, the submission of the tasks keeps. *)
Lemma submit_all_kept {A} (Q : World -> World -> Prop) `{!Reflexive Q} `{!Transitive Q}
    (job : TestSpec -> Prediction -> M World A) predictions test_specs :
  (forall ts pred, ts ∈ test_specs -> predictions !! ts_instance_id ts = Some pred ->
                   keeps Q (job ts pred)) ->
  keeps Q (submit_all job predictions test_specs).
Proof.
  induction test_specs as [|ts rest IH]; intros Hjob w; [reflexivity|].
  rewrite submit_all_step.
  destruct (predictions !! ts_instance_id ts) as [pred|] eqn:Ep; [|reflexivity].
  assert (Hhead : Q w (job ts pred w).2).
  { apply (Hjob ts pred); [apply elem_of_cons; by left|done]. }
  assert (Hrest : Q (job ts pred w).2 (submit_all job predictions rest (job ts pred w).2).2).
  { apply IH. intros t p Ht. apply Hjob. apply elem_of_cons. by right. }
  destruct (submit_all job predictions rest (job ts pred w).2) as [[fs|e] w']; cbn in *;
    by etransitivity.
Qed.

Lemma calls_since_app w w' delta : trace w' = trace w ++ delta -> calls_since w w' = delta.
Proof. intros E. unfold calls_since. rewrite E. apply drop_app_length. Qed.

Lemma calls_since_same w w' : trace w' = trace w -> calls_since w w' = [].
Proof. intros E. apply calls_since_app. by rewrite app_nil_r. Qed.

Lemma agree_same_files d w1 w2 :
  texts w1 = texts w2 -> reports w1 = reports w2 -> agree d w1 w2.
Proof. intros Ht Hr name. by rewrite Ht, Hr. Qed.

(** Tasks with distinct plain ids: every call does from the world the others
    left what it does from the world [w] the run started in. *)
Lemma submit_all_alone dual plans bplans fr run_id out timeout predictions test_specs w wc :
  (forall ts, ts ∈ test_specs -> is_Some (predictions !! ts_instance_id ts)) ->
  NoDup (ts_instance_id <$> test_specs) ->
  (forall ts, ts ∈ test_specs -> plain_component (ts_instance_id ts) = true) ->
  (forall ts pred, ts ∈ test_specs -> predictions !! ts_instance_id ts = Some pred ->
                   agree (log_dir_of out run_id pred (ts_instance_id ts)) w wc) ->
  let alone := task_alone dual plans bplans fr run_id out timeout predictions w in
  exists w1,
    submit_all (submitted_call dual plans bplans fr run_id out timeout)
      predictions test_specs wc
    = (Ret ((fun ts => (alone ts).1) <$> test_specs), w1)
    /\ trace w1
       = trace wc ++ List.concat ((fun ts => calls_since w (alone ts).2) <$> test_specs)
    /\ forall ts pred,
         ts ∈ test_specs -> predictions !! ts_instance_id ts = Some pred ->
         agree (log_dir_of out run_id pred (ts_instance_id ts)) w1 (alone ts).2.
Proof.
  intros Hall Hnodup Hplain Hagree alone. revert wc Hall Hnodup Hplain Hagree.
  induction test_specs as [|ts rest IH]; intros wc Hall Hnodup Hplain Hagree.
  { exists wc. split; [reflexivity|]. split; [cbn; by rewrite app_nil_r|].
    intros ts pred Hts. by apply elem_of_nil in Hts. }
  assert (Hin : ts ∈ ts :: rest) by (apply elem_of_cons; by left).
  assert (Hsub : forall t, t ∈ rest -> t ∈ ts :: rest)
    by (intros t Ht; apply elem_of_cons; by right).
  destruct (Hall ts Hin) as [pred Epred].
  rewrite fmap_cons in Hnodup. apply NoDup_cons in Hnodup as [Hfresh Hnodup].
  set (d := log_dir_of out run_id pred (ts_instance_id ts)).
  set (call := submitted_call dual plans bplans fr run_id out timeout ts pred).
  assert (Halone : alone ts = call w).
  { unfold alone, task_alone. by rewrite Epred. }
  (* the head call, from [wc] and from [w] *)
  assert (Hsame : same_run d (trace w) (trace wc) w wc).
  { split; [by apply Hagree|]. exists []. by rewrite !app_nil_r. }
  destruct (submitted_call_local (same_run d (trace w) (trace wc)) dual plans bplans fr
              run_id out timeout ts pred (same_run_local _ _ _) w wc Hsame)
    as [Hout [Hfiles (delta & Ht1 & Ht2)]].
  fold call in Hout, Hfiles, Ht1, Ht2.
  (* the other tasks work elsewhere *)
  assert (Hother : forall t p, t ∈ rest -> predictions !! ts_instance_id t = Some p ->
                     log_dir_of out run_id p (ts_instance_id t) ≠ d).
  { intros t p Ht Hp. apply log_dir_of_other_task; [by apply Hplain|by apply Hplain, Hsub|].
    intros E. apply Hfresh. rewrite <- E. apply list_elem_of_fmap. by exists t. }
  assert (Hhere : forall t p, t ∈ rest -> predictions !! ts_instance_id t = Some p ->
                    d ≠ log_dir_of out run_id p (ts_instance_id t)).
  { intros t p Ht Hp E. by apply (Hother t p Ht Hp). }
  destruct (IH (call wc).2) as (w1 & Esub & Htrace & Hfinal).
  { intros t Ht. by apply Hall, Hsub. }
  { exact Hnodup. }
  { intros t Ht. by apply Hplain, Hsub. }
  { intros t p Ht Hp. etransitivity; [apply (Hagree t p (Hsub t Ht) Hp)|].
    apply (submitted_call_frame _ dual plans bplans fr run_id out timeout ts pred).
    by apply Hhere. }
  exists w1. split; [|split].
  - rewrite submit_all_step, Epred. fold call. rewrite Esub.
    rewrite fmap_cons, Halone, Hout. reflexivity.
  - rewrite Htrace, Ht2, fmap_cons. cbn [List.concat].
    rewrite Halone, (calls_since_app w (call w).2 delta Ht1), app_assoc. reflexivity.
  - intros t p Ht Hp. apply elem_of_cons in Ht as [->|Ht]; [|by apply Hfinal].
    assert (p = pred) as -> by congruence. rewrite Halone. fold d.
    etransitivity; [|symmetry; exact Hfiles].
    symmetry.
    pose proof (submit_all_kept (agree d)
                  (submitted_call dual plans bplans fr run_id out timeout) predictions rest)
      as Hkeep.
    specialize (Hkeep (fun t p Ht Hp => submitted_call_frame d dual plans bplans fr run_id
                                          out timeout t p (Hother t p Ht Hp)) (call wc).2).
    by rewrite Esub in Hkeep.
Qed.

(** The submission leaves the progress bar where it was. *)
Lemma submit_all_same_pbar dual plans bplans fr run_id out timeout predictions test_specs w :
  pbar (submit_all (submitted_call dual plans bplans fr run_id out timeout)
          predictions test_specs w).2 = pbar w.
Proof.
  assert (Hrefl : Reflexive same_pbar) by (intros w0; done).
  assert (Htrans : Transitive same_pbar).
  { intros w1 w2 w3 H1 H2. unfold same_pbar in *. congruence. }
  apply (submit_all_kept same_pbar
           (submitted_call dual plans bplans fr run_id out timeout) predictions test_specs).
  intros ts pred _ _. apply submitted_call_kept. apply same_pbar_kept.
Qed.

Lemma drain_spec {A} (futures : list (Res A)) w :
  exists w', drain futures w = (Ret tt, w')
             /\ pbar w' = pbar w + List.length futures
             /\ texts w' = texts w /\ reports w' = reports w /\ trace w' = trace w
             /\ live w' = live w /\ images w' = images w /\ stdout w' = stdout w.
Proof.
  revert w. induction futures as [|f rest IH]; intros w.
  - exists w. cbn. repeat split; try done; lia.
  - cbn [drain]. unfold mbind, M_bind, modify, try_except, outcome, mret, M_ret.
    destruct f as [a|e]; cbn;
      (match goal with |- context [drain rest ?W] =>
         destruct (IH W) as (w' & -> & Hp & Ht & Hr & Htr & Hl & Hi & Ho) end);
      exists w'; cbn in *; repeat split; try done; try lia.
Qed.

Lemma thread_pool_executor_returns max_workers w :
  (0 < max_workers)%Z -> thread_pool_executor max_workers w = (Ret tt, w).
Proof.
  intros H. unfold thread_pool_executor.
  destruct (Z.leb_spec max_workers 0); [lia|done].
Qed.

(** What [run_instances] does once the client, the test specs and the
    listing of the images are there. *)
Lemma run_instances_unfold mk engine plans bplans predictions instances cache_level clean
    fr max_workers run_id out timeout dual specs w :
  on_client engine = Ret tt -> on_images_list engine = Ret tt ->
  make_test_specs mk predictions instances = Ret specs ->
  exists w0,
    (texts w0 = texts w /\ reports w0 = reports w /\ trace w0 = trace w
     /\ pbar w0 = pbar w /\ live w0 = live w /\ images w0 = images w)
    /\ run_instances mk engine plans bplans predictions instances cache_level clean fr
         max_workers run_id out timeout dual w
       = ((thread_pool_executor max_workers;;
           futures ← submit_all (submitted_call dual plans bplans fr run_id out timeout)
                       predictions (drop_none specs);
           drain futures);;
          print "All instances run.") w0.
Proof.
  intros Hc Hl Hspecs. unfold run_instances. rewrite Hc, Hl, Hspecs.
  unfold mbind at 1, M_bind at 1, outcome at 1.
  unfold mbind at 1, M_bind at 1, outcome at 1.
  unfold mbind at 1, M_bind at 1, outcome at 1.
  unfold mbind at 1, M_bind at 1, gets at 1.
  set (existing := images w ∩ _).
  set (announce := if negb fr && bool_decide (existing ≠ ∅) then _ else _).
  assert (Hann : exists wa, announce w = (Ret tt, wa)
                            /\ texts wa = texts w /\ reports wa = reports w
                            /\ trace wa = trace w /\ pbar wa = pbar w
                            /\ live wa = live w /\ images wa = images w).
  { unfold announce. destruct (negb fr && bool_decide (existing ≠ ∅));
      eexists; (split; [reflexivity|]); done. }
  destruct Hann as (wa & Ea & Ta & Ra & Tra & Pa & La & Ia).
  unfold mbind at 1, M_bind at 1. rewrite Ea.
  unfold mbind at 1, M_bind at 1, print at 1, modify at 1.
  exists (with_stdout (fun o => o ++ ["Running " +:+ pretty (List.length instances)
                                     +:+ " instances..."]) wa).
  split; [done|].
  destruct dual; reflexivity.
Qed.

Lemma run_instances_spec mk engine plans bplans predictions instances cache_level clean fr
    max_workers run_id out timeout dual w specs :
  on_client engine = Ret tt -> on_images_list engine = Ret tt ->
  (0 < max_workers)%Z ->
  make_test_specs mk predictions instances = Ret specs ->
  (forall ts, ts ∈ drop_none specs -> is_Some (predictions !! ts_instance_id ts)) ->
  exists w0 fs w1 w',
    texts w0 = texts w /\ reports w0 = reports w /\ trace w0 = trace w
    /\ submit_all (submitted_call dual plans bplans fr run_id out timeout)
         predictions (drop_none specs) w0 = (Ret fs, w1)
    /\ List.length fs = List.length (drop_none specs)
    /\ run_instances mk engine plans bplans predictions instances cache_level clean fr
         max_workers run_id out timeout dual w = (Ret tt, w')
    /\ texts w' = texts w1 /\ reports w' = reports w1 /\ trace w' = trace w1
    /\ pbar w' = pbar w + List.length (drop_none specs).
Proof.
  intros Hc Hl Hworkers Hspecs Hall.
  destruct (run_instances_unfold mk engine plans bplans predictions instances cache_level
              clean fr max_workers run_id out timeout dual specs w Hc Hl Hspecs)
    as (w0 & (T0 & R0 & Tr0 & P0 & _) & ->).
  destruct (submit_all_returns (submitted_call dual plans bplans fr run_id out timeout)
              predictions (drop_none specs) w0 Hall) as (fs & w1 & Es & Hlen).
  destruct (drain_spec fs w1) as (w2 & Ed & Hp & Ht & Hr & Htr & _).
  pose proof (submit_all_same_pbar dual plans bplans fr run_id out timeout predictions
                (drop_none specs) w0) as Hp1.
  rewrite Es in Hp1. cbn [snd] in Hp1.
  exists w0, fs, w1. eexists.
  split; [exact T0|]. split; [exact R0|]. split; [exact Tr0|].
  split; [exact Es|]. split; [exact Hlen|].
  unfold mbind, M_bind. rewrite (thread_pool_executor_returns _ _ Hworkers), Es, Ed.
  unfold print, modify. cbn.
  split; [reflexivity|]. cbn. rewrite Hp, Hp1, P0, Hlen. done.
Qed.

(** The run of the scheduler, task by task. *)
Lemma run_instances_alone mk engine dual plans bplans predictions instances cache_level
    clean fr max_workers run_id out timeout specs w :
  on_client engine = Ret tt -> on_images_list engine = Ret tt ->
  (0 < max_workers)%Z ->
  make_test_specs mk predictions instances = Ret specs ->
  (forall ts, ts ∈ drop_none specs -> is_Some (predictions !! ts_instance_id ts)) ->
  NoDup (ts_instance_id <$> drop_none specs) ->
  (forall ts, ts ∈ drop_none specs -> plain_component (ts_instance_id ts) = true) ->
  every_task_runs_as_if_alone mk engine dual plans bplans predictions instances
    cache_level clean fr max_workers run_id out timeout (drop_none specs) w.
Proof.
  intros Hc Hl Hworkers Hspecs Hall Hnodup Hplain.
  unfold every_task_runs_as_if_alone. cbv zeta.
  destruct (run_instances_unfold mk engine plans bplans predictions instances cache_level
              clean fr max_workers run_id out timeout dual specs w Hc Hl Hspecs)
    as (w0 & (T0 & R0 & Tr0 & P0 & _) & ->).
  destruct (submit_all_alone dual plans bplans fr run_id out timeout predictions
              (drop_none specs) w w0 Hall Hnodup Hplain) as (w1 & Es & Htrace & Hfiles).
  { intros ts pred _ _. by apply agree_same_files. }
  cbv zeta in Es, Htrace, Hfiles.
  set (alone := task_alone dual plans bplans fr run_id out timeout predictions w) in *.
  destruct (drain_spec ((fun ts => (alone ts).1) <$> drop_none specs) w1)
    as (w2 & Ed & Hp & Ht & Hr & Htr & _).
  pose proof (submit_all_same_pbar dual plans bplans fr run_id out timeout predictions
                (drop_none specs) w0) as Hp1.
  rewrite Es in Hp1. cbn [snd] in Hp1.
  unfold mbind, M_bind. rewrite (thread_pool_executor_returns _ _ Hworkers), Es, Ed.
  unfold print, modify. cbn [fst snd].
  split; [reflexivity|].
  split; [cbn; rewrite Hp, Hp1, P0, length_fmap; done|].
  split; [cbn; by rewrite Htr, Htrace, Tr0|].
  split.
  { intros ts pred Hts Hpred. etransitivity; [|by apply (Hfiles ts pred)].
    apply agree_same_files; cbn; done. }
  exists w0, w1. cbn. rewrite Ht, Hr, Htr. done.
Qed.

(** ** Image removal *)

Lemma removed_images_app d1 d2 :
  removed_images (d1 ++ d2) = removed_images d1 ++ removed_images d2.
Proof. apply omap_app. Qed.

Lemma removed_images_concat l :
  removed_images (List.concat l) = List.concat (removed_images <$> l).
Proof.
  induction l as [|d l IH]; [done|]. cbn [List.concat]. rewrite removed_images_app, IH.
  done.
Qed.

Lemma removed_images_uses c pre : Forall (uses c) pre -> removed_images pre = [].
Proof.
  induction 1 as [|e pre He _ IH]; [done|].
  destruct e; cbn in *; try done.
Qed.

Lemma run_instance_setup_removals plan ts pred rm fr run_id out mode timeout w :
  exists delta,
    trace (run_instance_setup plan ts pred rm fr run_id out mode timeout w).2
    = trace w ++ delta
    /\ removed_images delta
       = if pipeline_starts plan ts pred run_id out w && rm
         then [ts_instance_image_key ts] else [].
Proof.
  pose proof (run_instance_setup_unfold plan ts pred rm fr run_id out mode timeout w) as E.
  cbv zeta in E. rewrite E. clear E. unfold pipeline_starts.
  destruct (reports w !! _) as [doc|] eqn:Hdoc.
  { exists []. rewrite app_nil_r. split; [done|].
    rewrite bool_decide_eq_false_2 by done. done. }
  rewrite bool_decide_eq_true_2 by done.
  destruct (on_setup_logger plan) as [[]|e].
  2:{ exists []. rewrite app_nil_r. done. }
  rewrite guarded_outcome_trace.
  match goal with |- context [run_instance_setup_body ?a ?b ?c ?d ?e ?f ?g ?h] =>
    pose proof (run_instance_setup_body_acquires a b c d e f g (fr_world h)) as Hacq;
    change {| fr_world := fr_world h; fr_container := None |} with h in Hacq;
    set (tried := run_instance_setup_body a b c d e f g h) in *
  end.
  cbn [fr_world trace with_texts] in Hacq.
  destruct Hacq as [(Hc & Htr & _)|(c & key & pre & Hc & Htr & Hpre & _)];
    rewrite Hc, Htr; cbn [trace with_texts].
  - eexists. split; [reflexivity|]. by destruct rm.
  - eexists. split; [rewrite <- app_assoc; reflexivity|].
    rewrite removed_images_app.
    change (removed_images (EvCreate c key :: pre)) with (removed_images pre).
    rewrite (removed_images_uses c pre Hpre). by destruct rm.
Qed.

(** The removals of one submitted call: the literal [True] handed to it
    decides, with whether the pipeline starts. *)
Lemma task_alone_removals dual plans bplans fr run_id out timeout predictions w ts :
  removed_images
    (calls_since w (task_alone dual plans bplans fr run_id out timeout predictions w ts).2)
  = requested_removals dual plans bplans fr run_id out timeout predictions w ts.
Proof.
  unfold task_alone, requested_removals.
  destruct (predictions !! ts_instance_id ts) as [pred|]; cbv zeta.
  2:{ by rewrite calls_since_same. }
  unfold submitted_call. destruct dual.
  - unfold run_instance_fail_to_pass.
    destruct (run_instance_setup_removals (bplans (ts_instance_id ts)) ts pred false fr
                run_id out not_apply_patch timeout w) as (d1 & Ht1 & Hr1).
    rewrite andb_false_r in Hr1.
    unfold mbind at 1, M_bind at 1.
    destruct (run_instance_setup (bplans (ts_instance_id ts)) ts pred false fr run_id out
                not_apply_patch timeout w) as [[v|e] w1]; cbn [fst snd raised negb andb] in *.
    + destruct (run_instance_setup_removals (plans (ts_instance_id ts)) ts pred true false
                  run_id out apply_patch timeout w1) as (d2 & Ht2 & Hr2).
      rewrite andb_true_r in Hr2.
      unfold mbind, M_bind, mret, M_ret.
      assert (Ht : trace (run_instance_setup (plans (ts_instance_id ts)) ts pred true false
                            run_id out apply_patch timeout w1).2 = trace w ++ (d1 ++ d2)).
      { by rewrite Ht2, Ht1, app_assoc. }
      destruct (run_instance_setup (plans (ts_instance_id ts)) ts pred true false run_id out
                  apply_patch timeout w1) as [[v2|e2] w2]; cbn [snd] in *;
        by rewrite (calls_since_app _ _ _ Ht), removed_images_app, Hr1, Hr2.
    + by rewrite (calls_since_app _ _ _ Ht1), Hr1.
  - destruct (run_instance_setup_removals (plans (ts_instance_id ts)) ts pred true fr
                run_id out apply_patch timeout w) as (delta & Ht & Hr).
    rewrite andb_true_r in Hr. by rewrite (calls_since_app _ _ _ Ht).
Qed.

(** The images whose removal a run of the scheduler requests are those its
    tasks request, each handed the literal [True]: the cache level and the
    clean flag play no part. *)
Lemma image_removal_ignores_cache_level mk engine dual plans bplans predictions instances
    cache_level clean fr max_workers run_id out timeout specs w :
  on_client engine = Ret tt -> on_images_list engine = Ret tt ->
  (0 < max_workers)%Z ->
  make_test_specs mk predictions instances = Ret specs ->
  (forall ts, ts ∈ drop_none specs -> is_Some (predictions !! ts_instance_id ts)) ->
  NoDup (ts_instance_id <$> drop_none specs) ->
  (forall ts, ts ∈ drop_none specs -> plain_component (ts_instance_id ts) = true) ->
  removed_images
    (calls_since w
       (run_instances mk engine plans bplans predictions instances cache_level clean fr
          max_workers run_id out timeout dual w).2)
  = List.concat (requested_removals dual plans bplans fr run_id out timeout predictions w
                   <$> drop_none specs).
Proof.
  intros Hc Hl Hworkers Hspecs Hall Hnodup Hplain.
  destruct (run_instances_alone mk engine dual plans bplans predictions instances
              cache_level clean fr max_workers run_id out timeout specs w
              Hc Hl Hworkers Hspecs Hall Hnodup Hplain) as (_ & _ & Htrace & _).
  cbv zeta in Htrace. rewrite (calls_since_app _ _ _ Htrace), removed_images_concat.
  f_equal. rewrite <- list_fmap_compose. apply list_fmap_ext. intros _ ts _. cbn.
  apply task_alone_removals.
Qed.

(** C9, the code at the failing input.  The option --cache_level reads
    "Cache level - remove images above this level", its values are none,
    base, env and instance, and the comment on --clean says that without it
    images above the cache level are removed only "if they don't already
    exist"; the call [should_remove(test_spec.instance_image_key, cache_level,
    clean, existing_images)] stands commented out at both submit sites, where
    the literal [True] is handed to every pipeline instead.  So at the level
    [instance], with the clean flag off and the image of T1 there before the
    run, the run of the single task T1 requests the removal of that image and
    the image is gone afterwards, in the single-mode and in the dual-mode
    protocol alike. *)
Theorem instance_tier_image_is_removed :
  let before := with_images (fun _ => {[ "img:T1" ]}) empty_world in
  let single :=
    run_instances example_make_test_spec engine_ok (fun _ => plan_ok) (fun _ => plan_ok)
      T1_predictions [T1] "instance" false false 4 "run" "out" None false before in
  let dual :=
    run_instances example_make_test_spec engine_ok (fun _ => plan_ok) (fun _ => plan_ok)
      T1_predictions [T1] "instance" false false 4 "run" "out" None true before in
  "img:T1" ∈ images before
  /\ single.1 = Ret tt
  /\ removed_images (trace single.2) = ["img:T1"]
  /\ ("img:T1" ∉ images single.2)
  /\ dual.1 = Ret tt
  /\ removed_images (trace dual.2) = ["img:T1"]
  /\ ("img:T1" ∉ images dual.2).
Proof.
  cbv zeta. split; [vm_compute; set_solver|].
  split; [vm_compute; reflexivity|]. split; [vm_compute; reflexivity|].
  split; [vm_compute; set_solver|].
  split; [vm_compute; reflexivity|]. split; [vm_compute; reflexivity|].
  vm_compute. set_solver.
Qed.

(** ** The scheduler drains every task *)




(** The task T2 fails when its container is built; the task T1, submitted
    after it, is run and graded all the same. *)
Example sibling_of_failed_task_is_graded :
  let run :=
    run_instances example_make_test_spec engine_ok T2_fails T2_fails T1_T2_predictions
      [T2; T1] "env" false false 4 "run" "out" None false empty_world in
  run.1 = Ret tt
  /\ pbar run.2 = 2
  /\ reports run.2 !! (log_dir_of "out" "run" T2_pred "T2" </> "report.json") = None
  /\ is_Some (reports run.2 !! (log_dir_of "out" "run" T1_pred "T1" </> "report.json")).
Proof.
  cbv zeta. split; [vm_compute; reflexivity|]. split; [vm_compute; reflexivity|].
  split; [vm_compute; reflexivity|]. vm_compute. by eexists.
Qed.

(** The call of the task T2 raises; the exception stays in its future, the
    scheduler returns, and the task T1, submitted after it, is run and graded
    all the same. *)
Example sibling_of_raising_task_is_graded :
  let run :=
    run_instances example_make_test_spec engine_ok T2_raises T2_raises T1_T2_predictions
      [T2; T1] "env" false false 4 "run" "out" None false empty_world in
  (task_alone false T2_raises T2_raises false "run" "out" None T1_T2_predictions
     empty_world (default T1_spec (example_make_test_spec T2 T2_pred))).1
  = Raise (EngineError "log file gone")
  /\ run.1 = Ret tt
  /\ pbar run.2 = 2
  /\ created_images (trace run.2) = ["img:T2"; "img:T1"]
  /\ is_Some (reports run.2 !! (log_dir_of "out" "run" T1_pred "T1" </> "report.json")).
Proof.
  cbv zeta. do 4 (split; [vm_compute; reflexivity|]). vm_compute. by eexists.
Qed.

(** * Further properties of the code *)

(** ** The pipelines, call by call *)

(** *** Substrings *)

Lemma prefix_append (a b : string) : String.prefix a (a +:+ b) = true.
Proof.
  induction a as [|c a IH]; [by destruct b|].
  change (String c a +:+ b) with (String c (a +:+ b)). cbn.
  destruct (ascii_dec c c); [exact IH|done].
Qed.

Lemma prefix_append_l (n a b : string) :
  String.prefix n a = true -> String.prefix n (a +:+ b) = true.
Proof.
  revert a. induction n as [|c n IH]; intros a H; [by destruct (a +:+ b)|].
  destruct a as [|c' a]; [done|].
  change (String c' a +:+ b) with (String c' (a +:+ b)). cbn in *.
  destruct (ascii_dec c c'); [by apply IH|done].
Qed.

Lemma contains_prefix (n s : string) :
  String.prefix n s = true -> Str.contains n s = true.
Proof. intros H. destruct s; cbn [Str.contains]; by rewrite H. Qed.

Lemma contains_here (n b : string) : Str.contains n (n +:+ b) = true.
Proof. apply contains_prefix, prefix_append. Qed.

Lemma contains_append_l (n a b : string) :
  Str.contains n a = true -> Str.contains n (a +:+ b) = true.
Proof.
  induction a as [|c a IH].
  - cbn. rewrite orb_false_r. intros H. destruct n; [|done].
    change ("" +:+ b) with b. by destruct b.
  - intros H. cbn [Str.contains] in H. apply orb_true_iff in H as [H|H].
    + pose proof (prefix_append_l n (String c a) b H) as H'.
      change (String c a +:+ b) with (String c (a +:+ b)) in *.
      cbn [Str.contains]. by rewrite H'.
    + change (String c a +:+ b) with (String c (a +:+ b)).
      cbn [Str.contains]. rewrite (IH H). apply orb_true_r.
Qed.

Lemma contains_append_r (n a b : string) :
  Str.contains n b = true -> Str.contains n (a +:+ b) = true.
Proof.
  intros H. induction a as [|c a IH]; [done|].
  change (String c a +:+ b) with (String c (a +:+ b)).
  cbn [Str.contains]. rewrite IH. apply orb_true_r.
Qed.

Ltac solve_contains :=
  first [ apply contains_here
        | apply contains_append_l; solve_contains
        | apply contains_append_r; solve_contains ].

Lemma div_neq (d : Path) (n n' : string) : n ≠ n' -> d </> n ≠ d </> n'.
Proof. intros Hn E. apply div_inj in E as [_ ?]. done. Qed.

Ltac path_neq := apply div_neq; discriminate.

Ltac lookups :=
  repeat first [ rewrite lookup_insert_eq
               | rewrite lookup_insert_ne by path_neq ].

(** Symbolic execution that keeps what grading found. *)
Ltac exec_graded :=
  repeat (cbn; match goal with
  | |- context [match ?r with Ret _ => _ | Raise _ => _ end] => is_var r; destruct r
  | |- context [(exit_code ?v =? 0)%Z] => destruct (exit_code v =? 0)%Z eqn:?
  | |- context [get_pred_report ?a ?b ?c ?W] =>
      let E := fresh "E" in
      let G := fresh "Hgraded" in
      destruct (get_pred_report_spec a b c W) as (? & ? & E & G); rewrite E; clear E
  | |- context [@lookup _ Report _ _ ?k ?d] =>
      destruct (@lookup _ Report _ _ k d) eqn:?
  end); cbn.

Lemma run_instance_setup_body_graded plan ts pred log_dir report_path w v :
  let res := run_instance_setup_body plan ts pred log_dir
               (log_dir </> "run_instance_after_apply.log") report_path apply_patch
               {| fr_world := w; fr_container := None |} in
  res.1 = Ret (Some v) ->
  exists test_output entry,
    on_eval plan = Ret test_output
    /\ pred_instance_id pred = ts_instance_id ts
    /\ v = (ts_instance_id ts, Some {[ ts_instance_id ts := entry ]})
    /\ texts (fr_world res.2) !! (log_dir </> "test_output_after_apply.txt")
       = Some test_output
    /\ reports (fr_world res.2)
       = <[report_path := {[ ts_instance_id ts := entry ]}]> (reports w)
    /\ match model_patch pred with
       | None => entry = {| patch_is_None := true; patch_exists := false;
                            patch_successfully_applied := false; resolved := false |}
       | Some _ => entry = {| patch_is_None := false; patch_exists := true;
                              patch_successfully_applied := true;
                              resolved := first_exit_code_is_0 test_output |}
       end.
Proof.
  unfold run_instance_setup_body.
  destruct plan as [sl bd st cp ga pf gd ce ev gr ri cl];
    cbn [on_build on_start on_copy_patch on_git_apply on_patch_fuzz on_git_diff
         on_copy_eval on_eval on_grading].
  unfold_engine; unfold_m. exec_graded; try discriminate.
  all: intros [= <-].
  all: match goal with H : {[ _ := _ ]} !! _ = Some _ |- _ =>
         apply lookup_singleton_Some in H as [Hid ->] end.
  all: eexists _, _; split; [reflexivity|]; split; [exact Hid|].
  all: rewrite Hid; split; [reflexivity|].
  all: split; [lookups; reflexivity|]; split; [reflexivity|].
  all: rewrite ?parent_div in *; cbn [texts with_texts with_trace with_live with_images] in *.
  all: destruct (model_patch pred); [|by destruct Hgraded].
  all: destruct Hgraded as (H1 & H2 & H3 & H4 & _).
  all: revert H3 H4; lookups; cbn [default]; intros H3 H4.
  all: match goal with |- ?e = _ => destruct e as [pn pe pa pr] end;
         cbn [patch_is_None patch_exists patch_successfully_applied resolved] in *.
  all: rewrite H1, H2, H3, H4; f_equal; solve_contains.
Qed.


Lemma guarded_outcome_texts plan ts rm lf tried v :
  tried.1 = Ret v ->
  texts (guarded_outcome plan ts rm lf tried).2 = texts (fr_world tried.2).
Proof.
  intros Hv. unfold guarded_outcome. cbv zeta. rewrite Hv. cbn [fst snd].
  by destruct (finally_on_spec plan ts rm (fr_container tried.2) (fr_world tried.2))
    as (_ & _ & -> & _).
Qed.

Lemma run_instance_setup_graded plan ts pred rm fr run_id out timeout w v :
  let log_dir := log_dir_of out run_id pred (ts_instance_id ts) in
  let run := run_instance_setup plan ts pred rm fr run_id out apply_patch timeout w in
  reports w !! (log_dir </> "report.json") = None ->
  run.1 = Ret (Some v) ->
  exists test_output entry,
    on_eval plan = Ret test_output
    /\ pred_instance_id pred = ts_instance_id ts
    /\ v = (ts_instance_id ts, Some {[ ts_instance_id ts := entry ]})
    /\ texts run.2 !! (log_dir </> "test_output_after_apply.txt") = Some test_output
    /\ reports run.2 !! (log_dir </> "report.json")
       = Some {[ ts_instance_id ts := entry ]}
    /\ match model_patch pred with
       | None => entry = {| patch_is_None := true; patch_exists := false;
                            patch_successfully_applied := false; resolved := false |}
       | Some _ => entry = {| patch_is_None := false; patch_exists := true;
                              patch_successfully_applied := true;
                              resolved := first_exit_code_is_0 test_output |}
       end.
Proof.
  cbv zeta. intros Hnone. rewrite run_instance_setup_unfold. cbv zeta. rewrite Hnone.
  destruct (on_setup_logger plan) as [[]|e]; [|done].
  cbn [is_not_apply_patch]. intros Hv.
  pose proof (guarded_outcome_value _ _ _ _ _ _ Hv) as Hbody.
  rewrite guarded_outcome_reports, (guarded_outcome_texts _ _ _ _ _ _ Hbody).
  destruct (run_instance_setup_body_graded _ _ _ _ _ _ _ Hbody)
    as (test_output & entry & He & Hid & -> & Ht & Hr & Hentry).
  exists test_output, entry. rewrite Hr, lookup_insert_eq. done.
Qed.

(** X2.  When a patched-mode call of [run_instance_setup] that found no
    report.json returns a result, the eval script returned some output, the
    prediction carries the id of the test spec, test_output_after_apply.txt
    holds that output, and the report returned and written to report.json is
    the single entry of the task: for a prediction with a patch it says that
    the patch exists and was applied, and that the task is resolved exactly
    when the first exit-code marker of that output carries 0. *)
Theorem report_is_graded_from_this_run plan ts pred rm fr run_id out timeout w v :
  let log_dir := log_dir_of out run_id pred (ts_instance_id ts) in
  let run := run_instance_setup plan ts pred rm fr run_id out apply_patch timeout w in
  reports w !! (log_dir </> "report.json") = None ->
  run.1 = Ret (Some v) ->
  exists test_output entry,
    on_eval plan = Ret test_output
    /\ pred_instance_id pred = ts_instance_id ts
    /\ v = (ts_instance_id ts, Some {[ ts_instance_id ts := entry ]})
    /\ texts run.2 !! (log_dir </> "test_output_after_apply.txt") = Some test_output
    /\ reports run.2 !! (log_dir </> "report.json")
       = Some {[ ts_instance_id ts := entry ]}
    /\ match model_patch pred with
       | None => entry = {| patch_is_None := true; patch_exists := false;
                            patch_successfully_applied := false; resolved := false |}
       | Some _ => entry = {| patch_is_None := false; patch_exists := true;
                              patch_successfully_applied := true;
                              resolved := first_exit_code_is_0 test_output |}
       end.
Proof. exact (run_instance_setup_graded plan ts pred rm fr run_id out timeout w v). Qed.

Lemma report_is_graded_from_this_run_witness :
  exists test_output entry,
    on_eval plan_ok = Ret test_output
    /\ pred_instance_id T1_pred = ts_instance_id T1_spec
    /\ ("T1", Some ({[ "T1" := {| patch_is_None := false; patch_exists := true;
                                 patch_successfully_applied := true;
                                 resolved := true |} ]} : gmap string Report))
       = (ts_instance_id T1_spec, Some {[ ts_instance_id T1_spec := entry ]})
    /\ texts (run_instance_setup plan_ok T1_spec T1_pred true false "run1" "out"
                apply_patch None empty_world).2
         !! (log_dir_of "out" "run1" T1_pred (ts_instance_id T1_spec)
             </> "test_output_after_apply.txt") = Some test_output
    /\ reports (run_instance_setup plan_ok T1_spec T1_pred true false "run1" "out"
                  apply_patch None empty_world).2
         !! (log_dir_of "out" "run1" T1_pred (ts_instance_id T1_spec) </> "report.json")
       = Some {[ ts_instance_id T1_spec := entry ]}
    /\ match model_patch T1_pred with
       | None => entry = {| patch_is_None := true; patch_exists := false;
                            patch_successfully_applied := false; resolved := false |}
       | Some _ => entry = {| patch_is_None := false; patch_exists := true;
                              patch_successfully_applied := true;
                              resolved := first_exit_code_is_0 test_output |}
       end.
Proof.
  apply (report_is_graded_from_this_run plan_ok T1_spec T1_pred true false "run1" "out"
           None empty_world).
  - reflexivity.
  - vm_compute. reflexivity.
Defined.

(** X3.  When the prediction carries another instance id than the test
    spec, a patched-mode call of [run_instance_setup] writes no report.json
    and returns no report: the lookup [report[instance_id]] raises inside the
    [try] block.  The only result it can return is a report that was already
    stored. *)
Theorem mismatched_prediction_id_writes_no_report
    plan ts pred rm fr run_id out timeout w :
  pred_instance_id pred ≠ ts_instance_id ts ->
  let report_path := log_dir_of out run_id pred (ts_instance_id ts) </> "report.json" in
  let run := run_instance_setup plan ts pred rm fr run_id out apply_patch timeout w in
  reports run.2 = reports w
  /\ forall v, run.1 = Ret (Some v) ->
       exists doc, reports w !! report_path = Some doc
                   /\ v = (ts_instance_id ts, Some doc).
Proof.
  intros Hid. cbv zeta. rewrite run_instance_setup_unfold. cbv zeta.
  destruct (reports w !! _) as [doc|] eqn:Hdoc.
  { split; [done|]. intros v [= <-]. by exists doc. }
  destruct (on_setup_logger plan) as [[]|e]; [|by split].
  cbn [is_not_apply_patch]. rewrite guarded_outcome_reports.
  match goal with |- context [run_instance_setup_body ?a ?b ?c ?d ?e ?f ?g ?h] =>
    pose proof (run_instance_setup_body_reports a b c d e f g (fr_world h)) as Hr;
    change {| fr_world := fr_world h; fr_container := None |} with h in Hr;
    pose proof (fun v => run_instance_setup_body_graded a b c d f (fr_world h) v) as Hg;
    change {| fr_world := fr_world h; fr_container := None |} with h in Hg;
    set (tried := run_instance_setup_body a b c d e f g h) in *
  end.
  cbv zeta in Hr, Hg.
  assert (Hno : forall v, tried.1 = Ret (Some v) -> False).
  { intros v Hv. destruct (Hg v Hv) as (? & ? & _ & E & _). done. }
  split.
  - destruct tried.1 as [[[id [doc|]]|]|e]; try done.
    + exfalso. by eapply Hno.
    + by destruct Hr as (_ & _ & ->).
  - intros v Hv. apply guarded_outcome_value in Hv. exfalso. by eapply Hno.
Qed.


Lemma run_instance_setup_body_baseline plan ts pred log_dir report_path w :
  let res := run_instance_setup_body plan ts pred log_dir
               (log_dir </> "run_instance_prev_apply.log") report_path
               not_apply_patch {| fr_world := w; fr_container := None |} in
  exists delta,
    trace (fr_world res.2) = trace w ++ delta
    /\ exec_commands delta = []
    /\ forall v, res.1 = Ret (Some v) ->
         exists test_output,
           on_eval plan = Ret test_output
           /\ v = (ts_instance_id ts, None)
           /\ eval_commands delta = [RUN_EVAL]
           /\ texts (fr_world res.2) !! (log_dir </> "test_output_prev_apply.txt")
              = Some test_output.
Proof.
  unfold run_instance_setup_body.
  destruct plan as [sl bd st cp ga pf gd ce ev gr ri cl];
    cbn [on_build on_start on_copy_patch on_git_apply on_patch_fuzz on_git_diff
         on_copy_eval on_eval on_grading].
  unfold_engine; unfold_m. exec;
    (eexists; split;
       [first [rewrite <- ?app_assoc; reflexivity | exact (eq_sym (app_nil_r _))]|];
     split; [reflexivity|]; intros v Hv; try discriminate).
  injection Hv as <-. eexists. split; [reflexivity|]. split; [reflexivity|].
  split; [reflexivity|]. lookups. reflexivity.
Qed.


Lemma run_instance_setup_baseline plan ts pred rm fr run_id out timeout w :
  let log_dir := log_dir_of out run_id pred (ts_instance_id ts) in
  let run := run_instance_setup plan ts pred rm fr run_id out not_apply_patch timeout w in
  reports run.2 = reports w
  /\ exists delta,
       trace run.2 = trace w ++ delta
       /\ exec_commands delta = []
       /\ forall v, reports w !! (log_dir </> "report.json") = None ->
            run.1 = Ret (Some v) ->
            exists test_output,
              on_eval plan = Ret test_output
              /\ v = (ts_instance_id ts, None)
              /\ eval_commands delta = [RUN_EVAL]
              /\ texts run.2 !! (log_dir </> "test_output_prev_apply.txt")
                 = Some test_output.
Proof.
  cbv zeta. split.
  { destruct (run_instance_setup_reports plan ts pred rm fr run_id out not_apply_patch
                timeout w) as [H|(? & _ & ? & _)]; done. }
  rewrite run_instance_setup_unfold. cbv zeta.
  destruct (reports w !! _) as [doc|] eqn:Hdoc.
  { exists []. rewrite app_nil_r. repeat split; done. }
  destruct (on_setup_logger plan) as [[]|e].
  2:{ exists []. rewrite app_nil_r. repeat split; done. }
  cbn [is_not_apply_patch].
  match goal with |- context [run_instance_setup_body ?a ?b ?c ?d ?e ?f ?g ?h] =>
    destruct (run_instance_setup_body_baseline a b c d f (fr_world h))
      as (delta & Htr & Hex & Hret);
    change {| fr_world := fr_world h; fr_container := None |} with h in Htr, Hret;
    set (tried := run_instance_setup_body a b c d e f g h) in *
  end.
  cbn [fr_world trace with_texts] in Htr.
  eexists. split; [rewrite guarded_outcome_trace, Htr, <- app_assoc; reflexivity|].
  split.
  { unfold exec_commands in *. rewrite omap_app, Hex.
    apply (exec_commands_finally (fr_container tried.2) rm). }
  intros v _ Hv.
  pose proof (guarded_outcome_value _ _ _ _ _ _ Hv) as Hbody.
  destruct (Hret v Hbody) as (test_output & He & -> & Hev & Ht).
  exists test_output. split; [exact He|]. split; [done|]. split.
  - unfold eval_commands in *. rewrite omap_app, Hev.
    destruct (exec_commands_finally (fr_container tried.2) rm (ts_instance_image_key ts))
      as [_ E]. unfold eval_commands in E. by rewrite E.
  - by rewrite (guarded_outcome_texts _ _ _ _ _ _ Hbody).
Qed.

(** X4.  A baseline-mode call of [run_instance_setup] (mode
    not_apply_patch) runs neither [git apply] nor [patch] and leaves the store
    of reports as it was.  When it found no report.json and returns a result,
    the result is [(instance_id, None)], the eval script was run once, and
    test_output_prev_apply.txt holds its output. *)
Theorem baseline_run_applies_no_patch plan ts pred rm fr run_id out timeout w :
  let log_dir := log_dir_of out run_id pred (ts_instance_id ts) in
  let run := run_instance_setup plan ts pred rm fr run_id out not_apply_patch timeout w in
  reports run.2 = reports w
  /\ exists delta,
       trace run.2 = trace w ++ delta
       /\ exec_commands delta = []
       /\ forall v, reports w !! (log_dir </> "report.json") = None ->
            run.1 = Ret (Some v) ->
            exists test_output,
              on_eval plan = Ret test_output
              /\ v = (ts_instance_id ts, None)
              /\ eval_commands delta = [RUN_EVAL]
              /\ texts run.2 !! (log_dir </> "test_output_prev_apply.txt")
                 = Some test_output.
Proof. exact (run_instance_setup_baseline plan ts pred rm fr run_id out timeout w). Qed.

Lemma run_instance_body_raises plan ts pred log_dir log_file report_path w :
  let res := run_instance_body plan ts pred log_dir log_file report_path
               {| fr_world := w; fr_container := None |} in
  (exists e, res.1 = Raise e)
  /\ reports (fr_world res.2) = reports w
  /\ exists delta,
       trace (fr_world res.2) = trace w ++ delta
       /\ (eval_commands delta = [] \/ eval_commands delta = [RUN_EVAL])
       /\ (model_patch pred = Some "none" ->
           exec_commands delta = [] \/ exec_commands delta = ["git diff"]).
Proof.
  unfold run_instance_body.
  destruct plan as [sl bd st cp ga pf gd ce ev gr ri cl];
    cbn [on_build on_start on_copy_patch on_git_apply on_patch_fuzz on_git_diff
         on_copy_eval on_eval on_grading].
  unfold_engine; unfold_m. exec;
    (split; [eexists; reflexivity|]; split; [reflexivity|]; eexists;
     split; [first [rewrite <- ?app_assoc; reflexivity | exact (eq_sym (app_nil_r _))]|];
     split; [cbn; auto|];
     intros Hnone;
     repeat match goal with
            | H : bool_decide _ = false |- _ => apply bool_decide_eq_false in H
            end;
     try contradiction; cbn; auto).
Qed.

(** X7.  [run_instance] never grades: its call of [get_pred_report] passes
    keywords the function does not take, so the [try] block always raises.
    The call leaves the store of reports as it was, and the only result it
    can return is a report that was already stored.  Under the timeout it
    runs the eval script, [/bin/bash /eval.sh], once or not at all, and
    nothing else; for a prediction whose patch is the string "none" the only
    command it runs through [exec_run] is [git diff]. *)
Theorem legacy_pipeline_never_grades plan ts pred rm fr run_id out timeout w :
  let report_path := log_dir_of out run_id pred (ts_instance_id ts) </> "report.json" in
  let run := run_instance plan ts pred rm fr run_id out timeout w in
  reports run.2 = reports w
  /\ (forall v, run.1 = Ret (Some v) ->
        exists doc, reports w !! report_path = Some doc
                    /\ v = (ts_instance_id ts, Some doc) /\ run.2 = w)
  /\ exists delta,
       trace run.2 = trace w ++ delta
       /\ (eval_commands delta = [] \/ eval_commands delta = [RUN_EVAL])
       /\ (model_patch pred = Some "none" ->
           exec_commands delta = [] \/ exec_commands delta = ["git diff"]).
Proof.
  cbv zeta. rewrite run_instance_unfold. cbv zeta.
  destruct (reports w !! _) as [doc|] eqn:Hdoc.
  { split; [done|]. split; [intros v [= <-]; by exists doc|].
    exists []. rewrite app_nil_r. split; [done|]. split; by left. }
  destruct (on_setup_logger plan) as [[]|e].
  2:{ split; [done|]. split; [done|]. exists []. rewrite app_nil_r. split; [done|].
      split; by left. }
  rewrite guarded_outcome_reports.
  match goal with |- context [run_instance_body ?a ?b ?c ?d ?e ?f ?g] =>
    destruct (run_instance_body_raises a b c d e f (fr_world g))
      as ([e0 He] & Hr & delta & Htr & Heval & Hnone);
    change {| fr_world := fr_world g; fr_container := None |} with g in He, Hr, Htr;
    set (tried := run_instance_body a b c d e f g) in *
  end.
  cbn [fr_world trace with_texts] in Htr.
  split; [exact Hr|]. split.
  { intros v Hv. apply guarded_outcome_value in Hv. congruence. }
  eexists. split; [rewrite guarded_outcome_trace, Htr, <- app_assoc; reflexivity|].
  destruct (exec_commands_finally (fr_container tried.2) rm (ts_instance_image_key ts))
    as [Ex Ev].
  split.
  - unfold eval_commands in *. rewrite omap_app, Ev, app_nil_r. exact Heval.
  - intros Hp. unfold exec_commands in *. rewrite omap_app, Ex, app_nil_r.
    by apply Hnone.
Qed.

Lemma finally_on_raises plan ts rm c w e :
  (finally_on plan ts rm c w).1 = Raise e ->
  (rm = true /\ on_remove_image plan = Raise e) \/ on_close_logger plan = Raise e.
Proof.
  unfold finally_on. unfold_engine. unfold_m.
  destruct c, rm, (on_remove_image plan) as [[]|?], (on_close_logger plan) as [[]|?];
    cbn; intros [= <-]; auto.
Qed.

Lemma guarded_outcome_raises plan ts rm lf tried e :
  (guarded_outcome plan ts rm lf tried).1 = Raise e ->
  (rm = true /\ on_remove_image plan = Raise e) \/ on_close_logger plan = Raise e.
Proof.
  unfold guarded_outcome. cbv zeta. cbn [fst].
  destruct (finally_on plan ts rm (fr_container tried.2) _) as [[[]|e'] w'] eqn:E;
    cbn [fst].
  - destruct tried.1 as [v|e0]; [done|].
    by destruct (report_failure_spec (A:=string * option (gmap string Report))
                   (ts_instance_id ts) lf e0 (fr_world tried.2)) as (? & ? & ->).
  - intros [= ->]. eapply finally_on_raises. by rewrite E.
Qed.

Lemma guarded_outcome_remove_image_raises plan ts lf tried e :
  on_remove_image plan = Raise e ->
  (guarded_outcome plan ts true lf tried).1 = Raise e.
Proof.
  intros He. unfold guarded_outcome, finally_on. cbv zeta. unfold_engine. unfold_m.
  rewrite He. by destruct (fr_container tried.2).
Qed.

(** X5.  An exception leaves [run_instance_setup] only from the logger
    setup, which is outside the [try] statement, or from the [finally]
    clause: the image removal or the closing of the logger.  When the logger
    setup raises, the world is as it was; when the image removal raises, the
    call raises that exception whatever the [try] block did. *)
Theorem pipeline_exceptions_come_from_logger_or_image_removal
    plan ts pred rm fr run_id out mode timeout w :
  let report_path := log_dir_of out run_id pred (ts_instance_id ts) </> "report.json" in
  let run := run_instance_setup plan ts pred rm fr run_id out mode timeout w in
  (forall e, run.1 = Raise e ->
     reports w !! report_path = None
     /\ (on_setup_logger plan = Raise e
         \/ (rm = true /\ on_remove_image plan = Raise e)
         \/ on_close_logger plan = Raise e))
  /\ (forall e, reports w !! report_path = None -> on_setup_logger plan = Raise e ->
        run = (Raise e, w))
  /\ (forall e, reports w !! report_path = None -> on_setup_logger plan = Ret tt ->
        rm = true -> on_remove_image plan = Raise e ->
        run.1 = Raise e).
Proof.
  cbv zeta. rewrite run_instance_setup_unfold. cbv zeta.
  destruct (reports w !! _) as [doc|] eqn:Hdoc.
  { split; [done|]. split; done. }
  split; [|split].
  - intros e He. split; [done|].
    destruct (on_setup_logger plan) as [[]|e0].
    + right. by apply guarded_outcome_raises in He.
    + left. by injection He as ->.
  - by intros e _ ->.
  - intros e _ -> -> He. by apply guarded_outcome_remove_image_raises.
Qed.

Lemma mismatched_prediction_id_writes_no_report_witness :
  let report_path := log_dir_of "out" "run1" T2_pred (ts_instance_id T1_spec) </> "report.json" in
  let run := run_instance_setup plan_ok T1_spec T2_pred true false "run1" "out" apply_patch
               None empty_world in
  reports run.2 = reports empty_world
  /\ forall v, run.1 = Ret (Some v) ->
       exists doc, reports empty_world !! report_path = Some doc
                   /\ v = (ts_instance_id T1_spec, Some doc).
Proof.
  apply (mismatched_prediction_id_writes_no_report plan_ok T1_spec T2_pred true false
           "run1" "out" None empty_world).
  discriminate.
Defined.

(** ** Files written by a pipeline call *)

Lemma run_instance_setup_body_texts plan ts pred log_dir report_path mode w p :
  let res := run_instance_setup_body plan ts pred log_dir
               (log_dir </> (if is_not_apply_patch mode then "run_instance_prev_apply.log"
                             else "run_instance_after_apply.log"))
               report_path mode {| fr_world := w; fr_container := None |} in
  (p ∉ pipeline_files log_dir mode -> texts (fr_world res.2) !! p = texts w !! p)
  /\ (is_Some (texts w !! p) -> is_Some (texts (fr_world res.2) !! p))
  /\ run_reports (fr_world res.2) = run_reports w.
Proof.
  unfold run_instance_setup_body, pipeline_files.
  destruct plan as [sl bd st cp ga pf gd ce ev gr ri cl];
    cbn [on_build on_start on_copy_patch on_git_apply on_patch_fuzz on_git_diff
         on_copy_eval on_eval on_grading].
  unfold_engine; unfold_m. exec.
  all: split; [|split; [|reflexivity]].
  all: try (intros Hp; rewrite !not_elem_of_cons in Hp;
            destruct Hp as (H1 & H2 & H3 & H4 & _);
            by rewrite ?lookup_insert_ne by done).
  all: intros Hs; repeat (apply lookup_insert_is_Some'; right); exact Hs.
Qed.

Lemma guarded_outcome_texts_frame plan ts rm lf tried p :
  (p ≠ lf -> texts (guarded_outcome plan ts rm lf tried).2 !! p
             = texts (fr_world tried.2) !! p)
  /\ (is_Some (texts (fr_world tried.2) !! p) ->
      is_Some (texts (guarded_outcome plan ts rm lf tried).2 !! p))
  /\ run_reports (guarded_outcome plan ts rm lf tried).2 = run_reports (fr_world tried.2).
Proof.
  unfold guarded_outcome. cbv zeta. cbn [snd].
  match goal with |- context [finally_on ?a ?b ?c ?d ?e] =>
    destruct (finally_on_spec a b c d e) as (_ & _ & -> & _ & -> & _) end.
  destruct tried.1 as [v|e]; [done|].
  destruct (report_failure_spec (A:=string * option (gmap string Report))
              (ts_instance_id ts) lf e (fr_world tried.2)) as (text & msg & ->).
  cbn. split; [|split; [|done]].
  - intros Hp. by rewrite lookup_insert_ne.
  - intros Hs. apply lookup_insert_is_Some'. by right.
Qed.

Lemma run_instance_setup_files plan ts pred rm fr run_id out mode timeout w :
  let log_dir := log_dir_of out run_id pred (ts_instance_id ts) in
  let run := run_instance_setup plan ts pred rm fr run_id out mode timeout w in
  (forall p, p ∉ pipeline_files log_dir mode -> texts run.2 !! p = texts w !! p)
  /\ (forall q, q ≠ log_dir </> "report.json" -> reports run.2 !! q = reports w !! q)
  /\ (mode = not_apply_patch -> reports run.2 = reports w)
  /\ (forall p, is_Some (texts w !! p) -> is_Some (texts run.2 !! p))
  /\ (forall q, is_Some (reports w !! q) -> is_Some (reports run.2 !! q))
  /\ run_reports run.2 = run_reports w.
Proof.
  cbv zeta.
  assert (Hrep := run_instance_setup_reports plan ts pred rm fr run_id out mode timeout w).
  cbv zeta in Hrep.
  assert (Htexts : forall p,
    (p ∉ pipeline_files (log_dir_of out run_id pred (ts_instance_id ts)) mode ->
     texts (run_instance_setup plan ts pred rm fr run_id out mode timeout w).2 !! p
     = texts w !! p)
    /\ (is_Some (texts w !! p) ->
        is_Some (texts (run_instance_setup plan ts pred rm fr run_id out mode timeout w).2
                 !! p))
    /\ run_reports (run_instance_setup plan ts pred rm fr run_id out mode timeout w).2
       = run_reports w).
  { intros p. rewrite run_instance_setup_unfold. cbv zeta.
    destruct (reports w !! _); [done|].
    destruct (on_setup_logger plan) as [[]|e]; [|done].
    match goal with |- context [run_instance_setup_body ?a ?b ?c ?d ?e ?f ?g ?h] =>
      destruct (run_instance_setup_body_texts a b c d f g (fr_world h) p)
        as (Hb1 & Hb2 & Hb3);
      change {| fr_world := fr_world h; fr_container := None |} with h in Hb1, Hb2, Hb3;
      set (tried := run_instance_setup_body a b c d e f g h) in *
    end.
    match goal with |- context [guarded_outcome ?a ?b ?c ?d tried] =>
      destruct (guarded_outcome_texts_frame a b c d tried p) as (Hg1 & Hg2 & Hg3) end.
    cbn [fr_world texts run_reports with_texts] in Hb1, Hb2, Hb3.
    split; [|split].
    - intros Hp. rewrite Hg1, Hb1; [|done|].
      + apply lookup_insert_ne. intros <-. apply Hp. unfold pipeline_files.
        apply elem_of_cons. by left.
      + intros ->. apply Hp. unfold pipeline_files. apply elem_of_cons. by left.
    - intros Hs. apply Hg2, Hb2. apply lookup_insert_is_Some'. by right.
    - by rewrite Hg3, Hb3. }
  split; [intros p; apply Htexts|].
  split.
  { intros q Hq. destruct Hrep as [->|(doc & _ & _ & ->)]; [done|].
    by rewrite lookup_insert_ne. }
  split.
  { intros ->. destruct Hrep as [->|(doc & _ & ? & _)]; done. }
  split; [intros p; apply Htexts|].
  split; [|apply (Htexts [])].
  intros q Hs. destruct Hrep as [->|(doc & _ & _ & ->)]; [done|].
  apply lookup_insert_is_Some'. by right.
Qed.

(** X6.  A call of [run_instance_setup] writes no text file other than its
    run log, patch.diff, eval.sh and the test output of its mode, all in its
    log directory; it writes no report other than its report.json, and none
    in baseline mode; it removes no text file and no report, and leaves the
    aggregate reports alone. *)
Theorem pipeline_writes_only_its_files plan ts pred rm fr run_id out mode timeout w :
  let log_dir := log_dir_of out run_id pred (ts_instance_id ts) in
  let run := run_instance_setup plan ts pred rm fr run_id out mode timeout w in
  (forall p, p ∉ pipeline_files log_dir mode -> texts run.2 !! p = texts w !! p)
  /\ (forall q, q ≠ log_dir </> "report.json" -> reports run.2 !! q = reports w !! q)
  /\ (mode = not_apply_patch -> reports run.2 = reports w)
  /\ (forall p, is_Some (texts w !! p) -> is_Some (texts run.2 !! p))
  /\ (forall q, is_Some (reports w !! q) -> is_Some (reports run.2 !! q))
  /\ run_reports run.2 = run_reports w.
Proof. exact (run_instance_setup_files plan ts pred rm fr run_id out mode timeout w). Qed.

(** ** The pipeline, admission and the reconciler together *)

Lemma prev_output_not_written out run_id pred id id' :
  log_dir_of out run_id pred id' </> "test_output_prev_apply.txt"
  ∉ pipeline_files (log_dir_of out run_id pred id) apply_patch.
Proof.
  unfold pipeline_files. cbn [is_not_apply_patch].
  rewrite !not_elem_of_cons. repeat split; try apply not_elem_of_nil.
  all: intros E; apply div_inj in E as [_ E]; discriminate.
Qed.

(** X8.  A patched-mode call of [run_instance_setup] does not write
    test_output_prev_apply.txt.  So when that file is absent before the call,
    the two test-output files do not both exist after it, and
    [get_dataset_from_preds] admits the task again, whatever the call did,
    report.json included. *)
Theorem single_mode_run_is_admitted_again plan ts pred rm fr run_id out timeout w :
  let run := run_instance_setup plan ts pred rm fr run_id out apply_patch timeout w in
  texts w !! (log_dir_of out run_id pred (pred_instance_id pred)
              </> "test_output_prev_apply.txt") = None ->
  both_outputs_exist run_id out pred run.2 = false
  /\ forall dataset instance_ids predictions version_spec result i,
       i ∈ dataset ->
       (instance_ids = [] \/ instance_id i ∈ instance_ids) ->
       predictions !! instance_id i = Some pred ->
       is_empty_patch (model_patch pred) = false ->
       (get_dataset_from_preds dataset instance_ids predictions run_id version_spec out
          true run.2).1 = Ret result ->
       i ∈ result.
Proof.
  intros run Hprev.
  assert (Hboth : both_outputs_exist run_id out pred run.2 = false).
  { unfold both_outputs_exist. cbv zeta.
    destruct (run_instance_setup_files plan ts pred rm fr run_id out apply_patch timeout w)
      as (Hfiles & _).
    fold run in Hfiles. rewrite (Hfiles _ (prev_output_not_written _ _ _ _ _)), Hprev.
    rewrite bool_decide_eq_false_2; [done|]. by intros [? ?]. }
  split; [exact Hboth|].
  intros dataset instance_ids predictions version_spec result i Hi Hwant Hp He Hres.
  by apply (admission_of_task _ _ _ _ _ _ _ _ i pred Hres Hi Hwant Hp He).
Qed.

Lemma single_mode_run_is_admitted_again_witness :
  let run := run_instance_setup plan_ok T1_spec T1_pred true false "run1" "out"
               apply_patch None empty_world in
  both_outputs_exist "run1" "out" T1_pred run.2 = false
  /\ forall dataset instance_ids predictions version_spec result i,
       i ∈ dataset ->
       (instance_ids = [] \/ instance_id i ∈ instance_ids) ->
       predictions !! instance_id i = Some T1_pred ->
       is_empty_patch (model_patch T1_pred) = false ->
       (get_dataset_from_preds dataset instance_ids predictions "run1" version_spec "out"
          true run.2).1 = Ret result ->
       i ∈ result.
Proof.
  apply (single_mode_run_is_admitted_again plan_ok T1_spec T1_pred true false "run1" "out"
           None empty_world).
  reflexivity.
Defined.

(** X9.  When no report.json of the task is stored before the run and both
    calls of the dual-mode protocol return a result, the world
    [run_instance_fail_to_pass] leaves holds both test-output files of the
    prediction, and [get_dataset_from_preds] excludes every task with that
    prediction from the next run. *)
Theorem dual_mode_run_is_not_submitted_again
    baseline_plan plan ts pred rm fr run_id out timeout w vb vp :
  let baseline :=
    run_instance_setup baseline_plan ts pred false fr run_id out not_apply_patch timeout w in
  let patched :=
    run_instance_setup plan ts pred rm false run_id out apply_patch timeout baseline.2 in
  reports w !! (log_dir_of out run_id pred (ts_instance_id ts) </> "report.json") = None ->
  baseline.1 = Ret (Some vb) ->
  patched.1 = Ret (Some vp) ->
  (run_instance_fail_to_pass baseline_plan plan ts pred rm fr run_id out timeout w).2
  = patched.2
  /\ both_outputs_exist run_id out pred patched.2 = true
  /\ forall dataset instance_ids predictions version_spec result i,
       predictions !! instance_id i = Some pred ->
       (get_dataset_from_preds dataset instance_ids predictions run_id version_spec out
          true patched.2).1 = Ret result ->
       i ∉ result.
Proof.
  intros baseline patched Hnone Hb Hp.
  destruct (run_instance_setup_baseline baseline_plan ts pred false fr run_id out timeout w)
    as (Hrep & delta & _ & _ & Hret).
  fold baseline in Hrep, Hret.
  destruct (Hret vb Hnone Hb) as (out_b & _ & _ & _ & Hprev).
  assert (Hnone' : reports baseline.2
                     !! (log_dir_of out run_id pred (ts_instance_id ts) </> "report.json")
                   = None) by (by rewrite Hrep).
  destruct (run_instance_setup_graded plan ts pred rm false run_id out timeout baseline.2
              vp Hnone' Hp) as (out_p & entry & _ & Hid & _ & Hafter & _).
  fold patched in Hafter.
  destruct (run_instance_setup_files plan ts pred rm false run_id out apply_patch timeout
              baseline.2) as (_ & _ & _ & Hkeep & _).
  fold patched in Hkeep.
  assert (Hboth : both_outputs_exist run_id out pred patched.2 = true).
  { unfold both_outputs_exist. cbv zeta. rewrite Hid.
    apply andb_true_iff. split; apply bool_decide_eq_true.
    - apply Hkeep. by rewrite Hprev.
    - by rewrite Hafter. }
  split; [|split; [exact Hboth|]].
  - unfold run_instance_fail_to_pass, mbind, M_bind, mret, M_ret.
    fold baseline. destruct baseline as [[b|?] wb] eqn:Eb; [|done].
    cbn [fst snd] in *. fold patched. by destruct patched as [[?|?] ?].
  - intros dataset instance_ids predictions version_spec result i Hpred Hres Hin.
    apply (admission_characterised _ _ _ _ _ _ _ _ Hres) in Hin as [_ Hadm].
    unfold admits in Hadm. rewrite Hpred, Hboth in Hadm.
    cbn in Hadm. by rewrite !andb_false_r in Hadm.
Qed.

(** X10.  Take a patched-mode call of [run_instance_setup] that found no
    report.json and returned a result, for a task of the dataset whose
    prediction has a non-empty patch.  When the ids of the dataset are plain
    path components, every report.json stored before the call for a task of
    the dataset holds the entry of that task, and [make_test_spec] gives a
    spec for every predicted instance, [make_run_report] run after the call
    completes and counts the task as resolved when the first exit-code marker
    in the output of the eval script of that call carries 0, and as
    unresolved otherwise. *)
Theorem verdict_is_first_exit_code_of_this_run
    mk plan ts pred rm fr run_id out timeout w v test_output
    predictions full_dataset reports_dir instance :
  let run := run_instance_setup plan ts pred rm fr run_id out apply_patch timeout w in
  reports w !! (log_dir_of out run_id pred (ts_instance_id ts) </> "report.json") = None ->
  run.1 = Ret (Some v) ->
  on_eval plan = Ret test_output ->
  instance ∈ full_dataset ->
  instance_id instance = ts_instance_id ts ->
  predictions !! instance_id instance = Some pred ->
  is_empty_patch (model_patch pred) = false ->
  (forall i, i ∈ full_dataset -> plain_component (instance_id i) = true) ->
  reports_well_keyed predictions run_id out full_dataset w ->
  (forall i p, i ∈ full_dataset -> predictions !! instance_id i = Some p ->
               is_Some (mk i p)) ->
  exists r w',
    make_run_report mk predictions full_dataset run_id reports_dir out run.2 = (Ret r, w')
    /\ label instance ∈ (if first_exit_code_is_0 test_output
                         then resolved_ids r else unresolved_ids r).
Proof.
  intros run Hnone Hv Hev Hin Hid Hp He Hplain Hwk Hmk.
  destruct (run_instance_setup_graded plan ts pred rm fr run_id out timeout w v Hnone Hv)
    as (out' & entry & Hev' & Hpid & _ & _ & Hrun & Hentry).
  fold run in Hrun.
  assert (out' = test_output) as -> by congruence.
  destruct (run_instance_setup_reports plan ts pred rm fr run_id out apply_patch timeout w)
    as [Hsame|(doc & _ & _ & Hreports)]; fold run in Hsame || fold run in Hreports.
  { rewrite Hsame, Hnone in Hrun. discriminate. }
  assert (doc = {[ ts_instance_id ts := entry ]}) as ->.
  { rewrite Hreports, lookup_insert_eq in Hrun. congruence. }
  assert (Hne : predictions ≠ ∅).
  { intros ->. by rewrite lookup_empty in Hp. }
  assert (Hwk' : reports_well_keyed predictions run_id out full_dataset run.2).
  { intros j pj report Hj Hpj Hrj. rewrite Hreports in Hrj.
    destruct (decide (log_dir_of out run_id pj (instance_id j) </> "report.json"
                      = log_dir_of out run_id pred (ts_instance_id ts) </> "report.json"))
      as [E|E].
    - rewrite E, lookup_insert_eq in Hrj. injection Hrj as <-.
      assert (instance_id j = ts_instance_id ts) as ->.
      { apply div_inj in E as [E _].
        rewrite !log_dir_of_plain in E by (rewrite <- ?Hid; by apply Hplain).
        by apply div_inj in E as [_ E]. }
      rewrite lookup_singleton_eq. eauto.
    - rewrite lookup_insert_ne in Hrj by done. by apply (Hwk j pj report). }
  destruct (make_run_report_spec mk predictions full_dataset run_id reports_dir out run.2
              Hne Hwk' Hmk) as (r & w' & E & Hr).
  exists r, w'. split; [exact E|].
  assert (Hb : bucket_of predictions run_id out run.2 instance
               = Ret (if first_exit_code_is_0 test_output then Resolved else Unresolved)).
  { unfold bucket_of. cbv zeta. rewrite Hp, He, Hid, Hrun, lookup_singleton_eq.
    destruct (model_patch pred); [|done]. rewrite Hentry. done. }
  destruct (first_exit_code_is_0 test_output).
  - apply (Hr Resolved). by exists instance.
  - apply (Hr Unresolved). by exists instance.
Qed.

Lemma dual_mode_run_is_not_submitted_again_witness :
  let baseline :=
    run_instance_setup plan_ok T1_spec T1_pred false false "run1" "out" not_apply_patch
      None empty_world in
  let patched :=
    run_instance_setup plan_ok T1_spec T1_pred true false "run1" "out" apply_patch None
      baseline.2 in
  (run_instance_fail_to_pass plan_ok plan_ok T1_spec T1_pred true false "run1" "out" None
     empty_world).2 = patched.2
  /\ both_outputs_exist "run1" "out" T1_pred patched.2 = true
  /\ forall dataset instance_ids predictions version_spec result i,
       predictions !! instance_id i = Some T1_pred ->
       (get_dataset_from_preds dataset instance_ids predictions "run1" version_spec "out"
          true patched.2).1 = Ret result ->
       i ∉ result.
Proof.
  apply (dual_mode_run_is_not_submitted_again plan_ok plan_ok T1_spec T1_pred true false
           "run1" "out" None empty_world
           ("T1", None)
           ("T1", Some {[ "T1" := {| patch_is_None := false; patch_exists := true;
                                     patch_successfully_applied := true;
                                     resolved := true |} ]})).
  - reflexivity.
  - vm_compute. reflexivity.
  - vm_compute. reflexivity.
Defined.

Lemma verdict_is_first_exit_code_of_this_run_witness :
  let run := run_instance_setup plan_ok T1_spec T1_pred true false "run1" "out"
               apply_patch None empty_world in
  exists r w',
    make_run_report example_make_test_spec T1_predictions [T1; T2] "run1" "reports" "out"
      run.2 = (Ret r, w')
    /\ label T1 ∈ (if first_exit_code_is_0 "+ echo OMNIGRIL_EXIT_CODE=0"
                   then resolved_ids r else unresolved_ids r).
Proof.
  apply (verdict_is_first_exit_code_of_this_run example_make_test_spec plan_ok T1_spec
           T1_pred true false "run1" "out" None empty_world
           ("T1", Some {[ "T1" := {| patch_is_None := false; patch_exists := true;
                                     patch_successfully_applied := true;
                                     resolved := true |} ]})
           "+ echo OMNIGRIL_EXIT_CODE=0" T1_predictions [T1; T2] "reports" T1).
  - reflexivity.
  - vm_compute. reflexivity.
  - reflexivity.
  - apply elem_of_cons. by left.
  - reflexivity.
  - reflexivity.
  - reflexivity.
  - intros i Hi.
    apply elem_of_cons in Hi as [->|Hi]; [reflexivity|].
    apply elem_of_cons in Hi as [->|Hi]; [reflexivity|].
    by apply elem_of_nil in Hi.
  - intros i p report _ _ H.
    change (reports empty_world) with (∅ : gmap Path (gmap string Report)) in H.
    by rewrite lookup_empty in H.
  - intros i p _ _. unfold example_make_test_spec. eauto.
Defined.

(** ** Admission: errors and result *)

(** *** Admission: errors *)

Lemma get_dataset_from_preds_world
    dataset instance_ids predictions run_id version_spec out exclude_completed w :
  let w' := (get_dataset_from_preds dataset instance_ids predictions run_id version_spec
               out exclude_completed w).2 in
  texts w' = texts w /\ reports w' = reports w /\ run_reports w' = run_reports w
  /\ trace w' = trace w /\ live w' = live w /\ images w' = images w /\ pbar w' = pbar w.
Proof.
  cbv zeta. unfold get_dataset_from_preds.
  set (dsids := if String.eqb version_spec "all" then _ else _).
  set (want := list_to_set instance_ids).
  unfold_m.
  assert (Hloop : forall P D (W : World)
                         (k : gset string -> World -> Res (list Instance) * World),
    (forall c W', texts (k c W').2 = texts W' /\ reports (k c W').2 = reports W'
                  /\ run_reports (k c W').2 = run_reports W'
                  /\ trace (k c W').2 = trace W' /\ live (k c W').2 = live W'
                  /\ images (k c W').2 = images W' /\ pbar (k c W').2 = pbar W') ->
    let r := match completed_loop P (dom predictions) run_id out D ∅ W with
             | (Ret a, s') => k a s'
             | (Raise e, s') => (Raise e, s')
             end in
    texts r.2 = texts W /\ reports r.2 = reports W /\ run_reports r.2 = run_reports W
    /\ trace r.2 = trace W /\ live r.2 = live W /\ images r.2 = images W
    /\ pbar r.2 = pbar W).
  { intros P D W k Hk. cbv zeta.
    pose proof (completed_loop_spec P (dom predictions) run_id out D ∅ W) as [HW _].
    destruct (completed_loop P (dom predictions) run_id out D ∅ W) as [[c|e] W'];
      cbn [snd] in HW; subst W'; [apply Hk|done]. }
  destruct (nonempty_list instance_ids); cbn [andb].
  - destruct (bool_decide (want ∖ dsids ≠ ∅)); [done|].
    destruct (bool_decide (want ∖ dom predictions ≠ ∅)),
             (bool_decide (dom predictions ∖ dsids ≠ ∅)); cbn;
      (match goal with |- context [completed_loop ?P _ _ _ ?D _ ?W] =>
         apply (Hloop P D W) end;
       intros c W'; destruct (bool_decide (c ≠ ∅)), exclude_completed; done).
  - destruct (bool_decide (dom predictions ∖ dsids ≠ ∅)); cbn;
      (match goal with |- context [completed_loop ?P _ _ _ ?D _ ?W] =>
         apply (Hloop P D W) end;
       intros c W'; destruct (bool_decide (c ≠ ∅)), exclude_completed; done).
Qed.

(** X11.  When a requested instance id is not among the ids of the dataset
    (for the given version), [get_dataset_from_preds] raises [ValueError]
    before it prints anything or looks at a file. *)
Theorem unknown_requested_id_is_rejected
    dataset instance_ids predictions run_id version_spec out exclude_completed w x :
  x ∈ instance_ids ->
  x ∉ dataset_ids_of version_spec dataset ->
  exists message,
    get_dataset_from_preds dataset instance_ids predictions run_id version_spec out
      exclude_completed w = (Raise (ValueError message), w).
Proof.
  intros Hx Hmiss. unfold get_dataset_from_preds, dataset_ids_of in *.
  set (dsids := if String.eqb version_spec "all" then _ else _) in *.
  unfold_m.
  assert (nonempty_list instance_ids = true) as ->.
  { destruct instance_ids; [by apply elem_of_nil in Hx|done]. }
  rewrite bool_decide_eq_true_2.
  - eexists. reflexivity.
  - intros E. assert (x ∈ (list_to_set instance_ids : gset string) ∖ dsids) as Hin.
    { apply elem_of_difference. split; [by apply elem_of_list_to_set|done]. }
    rewrite E in Hin. by apply elem_of_empty in Hin.
Qed.

Lemma unknown_requested_id_is_rejected_witness :
  exists message,
    get_dataset_from_preds T1_dataset ["T3"] T1_predictions "run1" "all" "out" true
      empty_world = (Raise (ValueError message), empty_world).
Proof.
  apply (unknown_requested_id_is_rejected T1_dataset ["T3"] T1_predictions "run1" "all"
           "out" true empty_world "T3").
  - apply elem_of_cons. by left.
  - vm_compute. set_solver.
Defined.

Lemma completed_loop_raises predictions pids run_id out dataset c w i :
  i ∈ dataset -> instance_id i ∈ pids -> predictions !! instance_id i = None ->
  exists k, (completed_loop predictions pids run_id out dataset c w).1 = Raise (KeyError k)
            /\ k ∈ pids /\ predictions !! k = None.
Proof.
  revert c. induction dataset as [|instance rest IH]; intros c Hi Hp Hnone.
  { by apply elem_of_nil in Hi. }
  rewrite completed_loop_step. unfold in_set.
  destruct (bool_decide (instance_id instance ∈ pids)) eqn:Hin; cbn [negb].
  - apply bool_decide_eq_true in Hin.
    destruct (predictions !! instance_id instance) as [prediction|] eqn:Ep.
    + apply IH; try done.
      apply elem_of_cons in Hi as [->|Hi]; [congruence|done].
    + exists (instance_id instance). done.
  - apply bool_decide_eq_false in Hin. apply IH; try done.
    apply elem_of_cons in Hi as [->|Hi]; [done|done].
Qed.

(** X12.  With no instance ids requested, when the dataset holds an
    instance that has a prediction but whose id is not among the ids of the
    given version, [get_dataset_from_preds] raises [KeyError]: the predictions
    are filtered by version, the ids looked up in them are not. *)
Theorem version_filter_makes_admission_raise_key_error
    dataset predictions run_id version_spec out exclude_completed w i prediction :
  i ∈ dataset ->
  predictions !! instance_id i = Some prediction ->
  instance_id i ∉ dataset_ids_of version_spec dataset ->
  exists k,
    (get_dataset_from_preds dataset [] predictions run_id version_spec out
       exclude_completed w).1 = Raise (KeyError k)
    /\ is_Some (predictions !! k)
    /\ k ∉ dataset_ids_of version_spec dataset.
Proof.
  intros Hi Hp Hmiss. rewrite get_dataset_from_preds_result. cbv zeta.
  cbn [nonempty_list andb]. unfold wanted_dataset. cbn [nonempty_list].
  assert (Hkept : kept_predictions predictions (dataset_ids_of version_spec dataset)
                  = filter (fun kv => fst kv ∈ dataset_ids_of version_spec dataset)
                      predictions).
  { unfold kept_predictions. rewrite bool_decide_eq_true_2; [done|].
    intros E.
    assert (instance_id i ∈ dom predictions ∖ dataset_ids_of version_spec dataset) as Hin.
    { apply elem_of_difference. split; [|done]. apply elem_of_dom. eauto. }
    rewrite E in Hin. by apply elem_of_empty in Hin. }
  destruct (completed_loop_raises
              (kept_predictions predictions (dataset_ids_of version_spec dataset))
              (dom predictions) run_id out dataset ∅ w i Hi) as (k & -> & Hk & Hnone).
  { apply elem_of_dom. eauto. }
  { rewrite Hkept. apply map_lookup_filter_None. right. intros p _. done. }
  exists k. split; [done|]. split; [by apply elem_of_dom|].
  intros Hin. rewrite kept_predictions_in in Hnone by done.
  apply elem_of_dom in Hk as [p Hk]. congruence.
Qed.

Lemma version_filter_makes_admission_raise_key_error_witness :
  exists k,
    (get_dataset_from_preds T1_dataset [] T1_predictions "run1" "2.0" "out" true
       empty_world).1 = Raise (KeyError k)
    /\ is_Some (T1_predictions !! k)
    /\ k ∉ dataset_ids_of "2.0" T1_dataset.
Proof.
  apply (version_filter_makes_admission_raise_key_error T1_dataset T1_predictions "run1"
           "2.0" "out" true empty_world T1 T1_pred).
  - apply elem_of_cons. by left.
  - reflexivity.
  - vm_compute. set_solver.
Defined.

(** *** Admission: what is returned *)

Lemma get_dataset_from_preds_admitted
    dataset instance_ids predictions run_id version_spec out exclude_completed w result :
  (get_dataset_from_preds dataset instance_ids predictions run_id version_spec out
     exclude_completed w).1 = Ret result ->
  result `sublist_of` dataset
  /\ (forall i, i ∈ result ->
        (instance_ids = [] \/ instance_id i ∈ instance_ids)
        /\ exists prediction,
             predictions !! instance_id i = Some prediction
             /\ is_empty_patch (model_patch prediction) = false)
  /\ let w' := (get_dataset_from_preds dataset instance_ids predictions run_id
                  version_spec out exclude_completed w).2 in
     texts w' = texts w /\ reports w' = reports w /\ run_reports w' = run_reports w
     /\ trace w' = trace w /\ live w' = live w /\ images w' = images w.
Proof.
  intros Hres. split; [|split].
  3:{ pose proof (get_dataset_from_preds_world dataset instance_ids predictions run_id
                    version_spec out exclude_completed w) as H.
      cbv zeta in *. tauto. }
  all: revert Hres; rewrite get_dataset_from_preds_result; cbv zeta;
    destruct (_ && _); [discriminate|];
    pose proof (completed_loop_spec
                  (kept_predictions predictions (dataset_ids_of version_spec dataset))
                  (dom predictions) run_id out (wanted_dataset instance_ids dataset) ∅ w)
      as [_ Hloop];
    destruct (completed_loop _ _ _ _ _ _ _).1 as [c|e]; [|discriminate];
    destruct Hloop as [Hall _]; intros [= <-].
  - etransitivity; [apply sublist_filter|].
    assert (Hw : wanted_dataset instance_ids dataset `sublist_of` dataset).
    { unfold wanted_dataset. destruct (nonempty_list instance_ids); [|done].
      apply sublist_filter. }
    destruct (_ && _); [|done]. etransitivity; [apply sublist_filter|done].
  - intros i Hi. apply list_elem_of_filter in Hi as [[Hdom Hne] Hi].
    assert (Hw : i ∈ wanted_dataset instance_ids dataset).
    { destruct (_ && _); [|done]. by apply list_elem_of_filter in Hi as [_ Hi]. }
    split.
    + apply wanted_dataset_elem in Hw as [_ Hw]. unfold in_set in Hw.
      destruct instance_ids as [|x l]; [by left|]. right.
      cbn [nonempty_list negb orb] in Hw.
      apply bool_decide_eq_true in Hw. by apply elem_of_list_to_set in Hw.
    + destruct (Hall i Hw Hdom) as [p Hp]. exists p.
      split; [by apply kept_predictions_lookup in Hp|].
      destruct (is_empty_patch (model_patch p)) eqn:He; [|done].
      exfalso. apply Hne. apply elem_of_dom. exists p.
      by apply map_lookup_filter_Some.
Qed.

(** X13.  When [get_dataset_from_preds] returns, the instances it returns
    are instances of the dataset, in the order of the dataset; each is among
    the requested ids (when some are requested) and has a prediction whose
    patch is neither [None] nor empty.  The call changes nothing but the
    standard output. *)
Theorem admitted_instances_are_predicted_with_a_patch
    dataset instance_ids predictions run_id version_spec out exclude_completed w result :
  (get_dataset_from_preds dataset instance_ids predictions run_id version_spec out
     exclude_completed w).1 = Ret result ->
  result `sublist_of` dataset
  /\ (forall i, i ∈ result ->
        (instance_ids = [] \/ instance_id i ∈ instance_ids)
        /\ exists prediction,
             predictions !! instance_id i = Some prediction
             /\ is_empty_patch (model_patch prediction) = false)
  /\ let w' := (get_dataset_from_preds dataset instance_ids predictions run_id
                  version_spec out exclude_completed w).2 in
     texts w' = texts w /\ reports w' = reports w /\ run_reports w' = run_reports w
     /\ trace w' = trace w /\ live w' = live w /\ images w' = images w.
Proof.
  exact (get_dataset_from_preds_admitted dataset instance_ids predictions run_id
           version_spec out exclude_completed w result).
Qed.

Lemma admitted_instances_are_predicted_with_a_patch_witness :
  [T1] `sublist_of` T1_dataset
  /\ (forall i, i ∈ [T1] ->
        (([] : list string) = [] \/ instance_id i ∈ ([] : list string))
        /\ exists prediction,
             T1_predictions !! instance_id i = Some prediction
             /\ is_empty_patch (model_patch prediction) = false)
  /\ let w' := (get_dataset_from_preds T1_dataset [] T1_predictions "run1" "all" "out"
                  true empty_world).2 in
     texts w' = texts empty_world /\ reports w' = reports empty_world
     /\ run_reports w' = run_reports empty_world
     /\ trace w' = trace empty_world /\ live w' = live empty_world
     /\ images w' = images empty_world.
Proof.
  apply (admitted_instances_are_predicted_with_a_patch T1_dataset [] T1_predictions
           "run1" "all" "out" true empty_world [T1]).
  vm_compute. reflexivity.
Defined.

(** ** The reconciler: outcomes *)

(** *** The reconciler: outcomes *)

Lemma classify_loop_world predictions run_id out full_dataset b w :
  (classify_loop predictions run_id out full_dataset b w).2 = w.
Proof.
  revert b. induction full_dataset as [|instance rest IH]; intros b; [done|].
  rewrite classify_loop_step. destruct (bucket_of _ _ _ _ _); [apply IH|done].
Qed.

Lemma classify_loop_returned predictions run_id out full_dataset b b' w :
  (classify_loop predictions run_id out full_dataset b w).1 = Ret b' ->
  forall instance, instance ∈ full_dataset ->
    exists bk, bucket_of predictions run_id out w instance = Ret bk.
Proof.
  revert b. induction full_dataset as [|i rest IH]; intros b Hret instance Hin.
  { by apply elem_of_nil in Hin. }
  rewrite classify_loop_step in Hret.
  destruct (bucket_of predictions run_id out w i) as [bk|e] eqn:E; [|done].
  apply elem_of_cons in Hin as [->|Hin]; [eauto|]. by eapply IH.
Qed.

Lemma classify_loop_completed predictions run_id out full_dataset b b' w :
  b_completed b = b_resolved b ∪ b_unresolved b ->
  (classify_loop predictions run_id out full_dataset b w).1 = Ret b' ->
  b_completed b' = b_resolved b' ∪ b_unresolved b'.
Proof.
  revert b. induction full_dataset as [|i rest IH]; intros b Hb Hret.
  { by injection Hret as <-. }
  rewrite classify_loop_step in Hret.
  destruct (bucket_of predictions run_id out w i) as [bk|e]; [|done].
  eapply IH; [|exact Hret]. destruct bk; cbn; rewrite ?Hb; set_solver.
Qed.

Lemma classify_loop_no_predictions run_id out full_dataset b w :
  exists b', classify_loop ∅ run_id out full_dataset b w = (Ret b', w).
Proof.
  revert b. induction full_dataset as [|i rest IH]; intros b; [by exists b|].
  rewrite classify_loop_step. unfold bucket_of. cbv zeta. rewrite lookup_empty.
  apply IH.
Qed.

Lemma specs_of_predicted_no_predictions mk full_dataset :
  specs_of_predicted mk ∅ full_dataset = [].
Proof.
  unfold specs_of_predicted. induction full_dataset as [|i rest IH]; [done|].
  cbn. by rewrite lookup_empty.
Qed.

Lemma unremoved_loop_raises images test_specs unremoved :
  None ∈ test_specs ->
  exists message, unremoved_loop images test_specs unremoved
                  = Raise (AttributeError message).
Proof.
  revert unremoved. induction test_specs as [|[spec|] rest IH]; intros unremoved Hin.
  - by apply elem_of_nil in Hin.
  - cbn. apply IH. by apply elem_of_cons in Hin as [|].
  - cbn. eauto.
Qed.

Lemma specs_of_predicted_none mk predictions full_dataset instance prediction :
  instance ∈ full_dataset ->
  predictions !! instance_id instance = Some prediction ->
  mk instance prediction = None ->
  None ∈ specs_of_predicted mk predictions full_dataset.
Proof.
  intros Hin Hp Hmk. unfold specs_of_predicted.
  apply list_elem_of_omap. exists instance. by rewrite Hp, Hmk.
Qed.

(** What [make_run_report] does, by the outcome of its three fallible
    steps. *)
Lemma make_run_report_cases mk predictions full_dataset run_id reports_dir out w :
  let run := make_run_report mk predictions full_dataset run_id reports_dir out w in
  (texts run.2 = texts w /\ reports run.2 = reports w /\ trace run.2 = trace w
   /\ live run.2 = live w /\ images run.2 = images w /\ pbar run.2 = pbar w)
  /\ match (classify_loop predictions run_id out full_dataset no_buckets w).1 with
     | Raise e => run = (Raise e, w)
     | Ret b =>
         match unremoved_loop (images w)
                 (specs_of_predicted mk predictions full_dataset) ∅ with
         | Raise e => run = (Raise e, w)
         | Ret unremoved =>
             match first_prediction predictions with
             | Raise e => run.1 = Raise e /\ run_reports run.2 = run_reports w
             | Ret first =>
                 exists r,
                   run.1 = Ret r
                   /\ run_reports run.2
                      = <[ joinpath (path_of reports_dir)
                             (Str.replace_slash (model_name_or_path first)
                              +:+ "." +:+ run_id +:+ ".json") := r ]>
                          (run_reports w)
                   /\ completed_ids r = b_completed b
                   /\ resolved_ids r = b_resolved b
                   /\ unresolved_ids r = b_unresolved b
                   /\ completed_instances r = size (b_completed b)
                   /\ resolved_instances r = size (b_resolved b)
                   /\ unresolved_instances r = size (b_unresolved b)
                   /\ unremoved_images r = unremoved
             end
         end
     end.
Proof.
  cbv zeta. unfold make_run_report. unfold_m.
  pose proof (classify_loop_world predictions run_id out full_dataset no_buckets w) as Hw.
  destruct (classify_loop predictions run_id out full_dataset no_buckets w) as [[b|e] w0];
    cbn [fst snd] in *; subst w0; [|done].
  destruct (unremoved_loop _ _ _) as [unremoved|e]; cbn; [|done].
  destruct (first_prediction predictions) as [first|e]; cbn; [|done].
  split; [done|]. eexists. split; [reflexivity|]. done.
Qed.

(** X14.  In every report [make_run_report] returns, the completed ids are
    the resolved and the unresolved ids together; when distinct tasks have
    distinct labels the two are disjoint and the completed count is the sum
    of the resolved and the unresolved counts. *)
Theorem completed_is_resolved_or_unresolved
    mk predictions full_dataset run_id reports_dir out w r w' :
  make_run_report mk predictions full_dataset run_id reports_dir out w = (Ret r, w') ->
  completed_ids r = resolved_ids r ∪ unresolved_ids r
  /\ (labels_distinct full_dataset ->
      resolved_ids r ## unresolved_ids r
      /\ completed_instances r = resolved_instances r + unresolved_instances r).
Proof.
  intros Hrun.
  pose proof (make_run_report_cases mk predictions full_dataset run_id reports_dir out w)
    as [_ H].
  cbv zeta in H. rewrite Hrun in H.
  destruct (classify_loop predictions run_id out full_dataset no_buckets w).1
    as [b|e] eqn:Eb; [|done].
  destruct (unremoved_loop _ _ _) as [unremoved|e]; [|done].
  destruct (first_prediction predictions) as [first|e]; [|by destruct H].
  destruct H as (r' & [= <-] & _ & Hc & Hr & Hu & Hnc & Hnr & Hnu & _).
  pose proof (classify_loop_completed predictions run_id out full_dataset no_buckets b w
                ltac:(cbn; set_solver) Eb) as Hinv.
  split; [by rewrite Hc, Hr, Hu|].
  intros Hdistinct.
  assert (Hdisj : b_resolved b ## b_unresolved b).
  { destruct (classify_loop_spec predictions run_id out full_dataset no_buckets w
                (classify_loop_returned _ _ _ _ _ _ _ Eb)) as (b0 & E0 & Hb0).
    assert (b0 = b) as -> by (rewrite E0 in Eb; by injection Eb).
    apply elem_of_disjoint. intros x H1 H2.
    apply (Hb0 Resolved) in H1 as [H1|(i & Hi & Hli & Hbi)]; [by apply elem_of_empty in H1|].
    apply (Hb0 Unresolved) in H2 as [H2|(j & Hj & Hlj & Hbj)]; [by apply elem_of_empty in H2|].
    rewrite (bucket_of_same_id predictions run_id out w i j) in Hbi
      by (apply Hdistinct; congruence).
    congruence. }
  split; [by rewrite Hr, Hu|].
  by rewrite Hnc, Hnr, Hnu, Hinv, size_union.
Qed.

Lemma make_run_report_no_predictions
    mk full_dataset run_id reports_dir out w :
  let run := make_run_report mk ∅ full_dataset run_id reports_dir out w in
  run.1 = Raise IndexError
  /\ run_reports run.2 = run_reports w
  /\ texts run.2 = texts w /\ reports run.2 = reports w.
Proof.
  pose proof (make_run_report_cases mk ∅ full_dataset run_id reports_dir out w)
    as [(Ht & Hr & _) H].
  cbv zeta in *.
  destruct (classify_loop_no_predictions run_id out full_dataset no_buckets w) as [b Eb].
  rewrite Eb, specs_of_predicted_no_predictions in H. cbn in H.
  destruct H as [H1 H2]. done.
Qed.

(** X15.  With no predictions at all, [make_run_report] raises
    [IndexError] for every dataset, at [list(predictions.values())[0]], and
    writes no aggregate report. *)
Theorem no_predictions_make_the_reconciler_fail
    mk full_dataset run_id reports_dir out w :
  let run := make_run_report mk ∅ full_dataset run_id reports_dir out w in
  run.1 = Raise IndexError
  /\ run_reports run.2 = run_reports w
  /\ texts run.2 = texts w /\ reports run.2 = reports w.
Proof.
  exact (make_run_report_no_predictions mk full_dataset run_id reports_dir out w).
Qed.

(** X16.  When [make_test_spec] returns [None] for a predicted instance of
    the dataset, [make_run_report] raises [AttributeError] in its loop over
    the test specs, which it does not filter, and leaves the world as it
    was. *)
Theorem missing_test_spec_makes_the_reconciler_fail
    mk predictions full_dataset run_id reports_dir out w instance prediction :
  reports_well_keyed predictions run_id out full_dataset w ->
  instance ∈ full_dataset ->
  predictions !! instance_id instance = Some prediction ->
  mk instance prediction = None ->
  exists message,
    make_run_report mk predictions full_dataset run_id reports_dir out w
    = (Raise (AttributeError message), w).
Proof.
  intros Hwk Hin Hp Hmk.
  pose proof (make_run_report_cases mk predictions full_dataset run_id reports_dir out w)
    as [_ H].
  cbv zeta in H.
  destruct (classify_loop_spec predictions run_id out full_dataset no_buckets w)
    as (b & Eb & _).
  { intros i Hi. by eapply bucket_of_well_keyed. }
  rewrite Eb in H. cbn [fst] in H.
  destruct (unremoved_loop_raises (images w)
              (specs_of_predicted mk predictions full_dataset) ∅
              (specs_of_predicted_none _ _ _ _ _ Hin Hp Hmk)) as [message E].
  rewrite E in H. eauto.
Qed.

Lemma missing_test_spec_makes_the_reconciler_fail_witness :
  exists message,
    make_run_report no_spec_for_T2 T1_T2_predictions [T1; T2] "run1" "reports" "out"
      empty_world = (Raise (AttributeError message), empty_world).
Proof.
  apply (missing_test_spec_makes_the_reconciler_fail no_spec_for_T2 T1_T2_predictions
           [T1; T2] "run1" "reports" "out" empty_world T2 T2_pred).
  - intros i p report _ _ H.
    change (reports empty_world) with (∅ : gmap Path (gmap string Report)) in H.
    by rewrite lookup_empty in H.
  - apply elem_of_cons. right. apply elem_of_cons. by left.
  - reflexivity.
  - reflexivity.
Defined.

Lemma first_prediction_lookup (predictions : gmap string Prediction) first :
  first_prediction predictions = Ret first ->
  exists id, predictions !! id = Some first.
Proof.
  unfold first_prediction.
  destruct (map_to_list predictions) as [|[k v] l] eqn:E; [done|].
  intros [= <-]. exists k. apply elem_of_map_to_list. rewrite E.
  apply elem_of_cons. by left.
Qed.

(** X17.  [make_run_report] changes no text file, no report.json, no
    container and no image.  When it returns a report, the one file it wrote
    is [reports_dir/<model>.<run_id>.json], the model being that of one of
    the predictions - the one there is when all the predictions are of one
    model - and the file holds the report returned; when it raises, no
    aggregate report is written. *)
Theorem reconciler_writes_only_the_run_report
    mk predictions full_dataset run_id reports_dir out w :
  let run := make_run_report mk predictions full_dataset run_id reports_dir out w in
  let report_file model :=
    joinpath (path_of reports_dir)
      (Str.replace_slash model +:+ "." +:+ run_id +:+ ".json") in
  texts run.2 = texts w /\ reports run.2 = reports w /\ trace run.2 = trace w
  /\ live run.2 = live w /\ images run.2 = images w
  /\ match run.1 with
     | Ret r =>
         (exists id prediction,
            predictions !! id = Some prediction
            /\ run_reports run.2
               = <[ report_file (model_name_or_path prediction) := r ]> (run_reports w))
         /\ forall model,
              (forall id prediction,
                 predictions !! id = Some prediction ->
                 model_name_or_path prediction = model) ->
              run_reports run.2 = <[ report_file model := r ]> (run_reports w)
     | Raise _ => run_reports run.2 = run_reports w
     end.
Proof.
  pose proof (make_run_report_cases mk predictions full_dataset run_id reports_dir out w)
    as [(Ht & Hr & Htr & Hl & Hi & _) H].
  cbv zeta in *. repeat (split; [done|]).
  destruct (classify_loop predictions run_id out full_dataset no_buckets w).1 as [b|e].
  2:{ by rewrite H. }
  destruct (unremoved_loop _ _ _) as [unremoved|e].
  2:{ by rewrite H. }
  destruct (first_prediction predictions) as [first|e] eqn:Ef.
  - destruct H as (r & -> & Hrr & _).
    destruct (first_prediction_lookup predictions first Ef) as [id Hid].
    split; [by exists id, first|].
    intros model Hmodel. by rewrite <- (Hmodel id first Hid).
  - by destruct H as [-> ?].
Qed.

Lemma completed_is_resolved_or_unresolved_witness :
  exists r w',
    make_run_report example_make_test_spec T1_predictions [T1; T2] "run1" "reports" "out"
      report_only_world = (Ret r, w')
    /\ completed_ids r = resolved_ids r ∪ unresolved_ids r
    /\ (labels_distinct [T1; T2] ->
        resolved_ids r ## unresolved_ids r
        /\ completed_instances r = resolved_instances r + unresolved_instances r).
Proof.
  destruct (make_run_report example_make_test_spec T1_predictions [T1; T2] "run1"
              "reports" "out" report_only_world) as [[r|e] w'] eqn:E.
  - exists r, w'. split; [reflexivity|].
    exact (completed_is_resolved_or_unresolved _ _ _ _ _ _ _ _ _ E).
  - vm_compute in E. discriminate E.
Defined.

(** ** The scheduler and admission *)

(** *** The scheduler and admission *)

Lemma make_test_specs_raises mk predictions instances instance :
  instance ∈ instances ->
  predictions !! instance_id instance = None ->
  exists k, make_test_specs mk predictions instances = Raise (KeyError k)
            /\ predictions !! k = None.
Proof.
  induction instances as [|i rest IH]; intros Hin Hnone.
  { by apply elem_of_nil in Hin. }
  cbn [make_test_specs].
  destruct (predictions !! instance_id i) as [p|] eqn:Ep.
  - apply elem_of_cons in Hin as [->|Hin]; [congruence|].
    destruct (IH Hin Hnone) as (k & -> & Hk). eauto.
  - eauto.
Qed.

Lemma make_test_specs_returns mk predictions instances :
  (forall i, i ∈ instances -> is_Some (predictions !! instance_id i)) ->
  exists specs,
    make_test_specs mk predictions instances = Ret specs
    /\ List.length specs = List.length instances
    /\ forall ts, ts ∈ drop_none specs ->
         exists i p, i ∈ instances /\ predictions !! instance_id i = Some p
                     /\ mk i p = Some ts.
Proof.
  induction instances as [|i rest IH]; intros Hall.
  { exists []. split; [done|]. split; [done|]. intros ts Hts. by apply elem_of_nil in Hts. }
  cbn [make_test_specs].
  destruct (Hall i) as [p Hp]; [apply elem_of_cons; by left|]. rewrite Hp.
  destruct IH as (specs & -> & Hlen & Hspecs).
  { intros j Hj. apply Hall. apply elem_of_cons. by right. }
  eexists. split; [reflexivity|]. split; [cbn; by rewrite Hlen|].
  intros ts Hts. unfold drop_none in Hts. cbn [omap] in Hts.
  destruct (mk i p) as [ts0|] eqn:Emk; cbn in Hts.
  - apply elem_of_cons in Hts as [->|Hts].
    + exists i, p. split; [apply elem_of_cons; by left|done].
    + destruct (Hspecs ts Hts) as (j & q & Hj & Hq & Hmk).
      exists j, q. split; [apply elem_of_cons; by right|done].
  - destruct (Hspecs ts Hts) as (j & q & Hj & Hq & Hmk).
    exists j, q. split; [apply elem_of_cons; by right|done].
Qed.

(** X18.  When an instance handed to [run_instances] has no prediction,
    the scheduler raises [KeyError] while it makes the test specs - or, one
    statement earlier, what [docker.from_env()] raised, when it did: no task
    is submitted and the world is as it was. *)
Theorem instance_without_prediction_aborts_the_scheduler
    mk engine plans bplans predictions instances cache_level clean fr max_workers run_id
    out timeout dual w instance :
  instance ∈ instances ->
  predictions !! instance_id instance = None ->
  exists k,
    run_instances mk engine plans bplans predictions instances cache_level clean fr
      max_workers run_id out timeout dual w
    = (Raise (match on_client engine with Ret _ => KeyError k | Raise e => e end), w)
    /\ predictions !! k = None.
Proof.
  intros Hin Hnone.
  destruct (make_test_specs_raises mk predictions instances instance Hin Hnone)
    as (k & E & Hk).
  exists k. split; [|done]. unfold run_instances. rewrite E.
  by destruct (on_client engine) as [[]|e].
Qed.

Lemma instance_without_prediction_aborts_the_scheduler_witness :
  exists k,
    run_instances example_make_test_spec engine_ok (fun _ => plan_ok) (fun _ => plan_ok)
      T1_predictions [T1; T2] "env" false false 4 "run1" "out" None false empty_world
    = (Raise (KeyError k), empty_world)
    /\ T1_predictions !! k = None.
Proof.
  apply (instance_without_prediction_aborts_the_scheduler example_make_test_spec engine_ok
           (fun _ => plan_ok) (fun _ => plan_ok) T1_predictions [T1; T2] "env" false false
           4 "run1" "out" None false empty_world T2).
  - apply elem_of_cons. right. apply elem_of_cons. by left.
  - reflexivity.
Defined.

(** X19.  When [docker.from_env()] and the listing of the images return and
    the executor is given at least one worker, [run_instances] returns on
    every dataset that [get_dataset_from_preds] returned for the same
    predictions, as [main] calls it, when [make_test_spec] keeps the instance
    id: a test spec is made for every admitted instance, no [KeyError] is
    raised, and one future per task is drained. *)
Theorem scheduler_returns_on_every_admitted_dataset
    mk engine plans bplans dataset instance_ids predictions run_id version_spec out
    exclude_completed cache_level clean fr max_workers timeout dual w0 w result :
  on_client engine = Ret tt -> on_images_list engine = Ret tt ->
  (0 < max_workers)%Z ->
  (forall i p ts, mk i p = Some ts -> ts_instance_id ts = instance_id i) ->
  (get_dataset_from_preds dataset instance_ids predictions run_id version_spec out
     exclude_completed w0).1 = Ret result ->
  exists specs w',
    make_test_specs mk predictions result = Ret specs
    /\ List.length specs = List.length result
    /\ run_instances mk engine plans bplans predictions result cache_level clean fr
         max_workers run_id out timeout dual w = (Ret tt, w')
    /\ pbar w' = pbar w + List.length (drop_none specs).
Proof.
  intros Hc Hl Hworkers Hmk Hres.
  destruct (get_dataset_from_preds_admitted _ _ _ _ _ _ _ _ _ Hres) as (_ & Hadm & _).
  destruct (make_test_specs_returns mk predictions result) as (specs & Es & Hlen & Hspecs).
  { intros i Hi. destruct (Hadm i Hi) as (_ & p & -> & _). eauto. }
  destruct (run_instances_spec mk engine plans bplans predictions result cache_level clean
              fr max_workers run_id out timeout dual w specs Hc Hl Hworkers Es)
    as (wa & fs & w1 & w' & _ & _ & _ & Hsub & _ & Hrun & _ & _ & _ & Hp).
  { intros ts Hts. destruct (Hspecs ts Hts) as (i & p & _ & Hp & Hi).
    rewrite (Hmk i p ts Hi). eauto. }
  exists specs, w'. done.
Qed.

Lemma scheduler_returns_on_every_admitted_dataset_witness :
  exists specs w',
    make_test_specs example_make_test_spec T1_predictions [T1] = Ret specs
    /\ List.length specs = List.length [T1]
    /\ run_instances example_make_test_spec engine_ok (fun _ => plan_ok)
         (fun _ => plan_ok) T1_predictions [T1] "env" false false 4 "run1" "out" None
         false empty_world
       = (Ret tt, w')
    /\ pbar w' = pbar empty_world + List.length (drop_none specs).
Proof.
  apply (scheduler_returns_on_every_admitted_dataset example_make_test_spec engine_ok
           (fun _ => plan_ok) (fun _ => plan_ok) T1_dataset [] T1_predictions "run1" "all"
           "out" true "env" false false 4 None false empty_world empty_world [T1]).
  - reflexivity.
  - reflexivity.
  - lia.
  - intros i p ts [= <-]. reflexivity.
  - vm_compute. reflexivity.
Defined.

(** ** Predictions and the entry point *)

(** *** The dict of predictions *)

Lemma foldl_insert_lookup (l : list Prediction) (m : gmap string Prediction) k :
  foldl (fun m pred => <[pred_instance_id pred := pred]> m) m l !! k
  = match last (filter (fun p => pred_instance_id p = k) l) with
    | Some p => Some p
    | None => m !! k
    end.
Proof.
  revert m. induction l as [|p l IH]; intros m; [done|].
  cbn [foldl]. rewrite IH, filter_cons.
  destruct (decide (pred_instance_id p = k)) as [->|Hne].
  - rewrite last_cons. destruct (last (filter _ l)); [done|].
    by rewrite lookup_insert_eq.
  - destruct (last (filter _ l)); [done|]. by rewrite lookup_insert_ne.
Qed.

Lemma predictions_by_id_lookup (predictions : list Prediction) (k : string) :
  predictions_by_id predictions !! k
  = last (filter (fun p => pred_instance_id p = k) predictions)
  /\ (forall p, predictions_by_id predictions !! k = Some p ->
        pred_instance_id p = k /\ p ∈ predictions)
  /\ (k ∈ dom (predictions_by_id predictions)
      <-> k ∈ pred_instance_id <$> predictions).
Proof.
  assert (E : predictions_by_id predictions !! k
              = last (filter (fun p => pred_instance_id p = k) predictions)).
  { unfold predictions_by_id. rewrite foldl_insert_lookup, lookup_empty.
    by destruct (last _). }
  split; [exact E|]. split.
  - intros p Hp. rewrite E in Hp. apply last_Some in Hp as [l' Hl'].
    assert (Hin : p ∈ filter (fun p => pred_instance_id p = k) predictions).
    { rewrite Hl'. apply elem_of_app. right. apply elem_of_cons. by left. }
    by apply list_elem_of_filter in Hin.
  - rewrite elem_of_dom, E, list_elem_of_fmap. split.
    + intros [p Hp]. apply last_Some in Hp as [l' Hl'].
      assert (Hin : p ∈ filter (fun p => pred_instance_id p = k) predictions).
      { rewrite Hl'. apply elem_of_app. right. apply elem_of_cons. by left. }
      apply list_elem_of_filter in Hin as [? ?]. eauto.
    + intros (p & -> & Hin).
      assert (Hf : p ∈ filter (fun q => pred_instance_id q = pred_instance_id p) predictions)
        by (by apply list_elem_of_filter).
      destruct (filter _ predictions) as [|q l'] eqn:El using rev_ind.
      * by apply elem_of_nil in Hf.
      * rewrite last_snoc. eauto.
Qed.

(** X20.  In the dict [{pred["instance_id"]: pred for pred in predictions}]
    of [main], an id is bound to the last prediction of the list that carries
    it; every prediction in the dict is one of the list, bound to its own id,
    and the keys are the ids of the list. *)
Theorem later_prediction_replaces_earlier (predictions : list Prediction) (k : string) :
  predictions_by_id predictions !! k
  = last (filter (fun p => pred_instance_id p = k) predictions)
  /\ (forall p, predictions_by_id predictions !! k = Some p ->
        pred_instance_id p = k /\ p ∈ predictions)
  /\ (k ∈ dom (predictions_by_id predictions)
      <-> k ∈ pred_instance_id <$> predictions).
Proof. exact (predictions_by_id_lookup predictions k). Qed.

(** *** Gold predictions and admission *)

Lemma get_gold_predictions_elem patch dataset version_spec instance_ids p :
  p ∈ get_gold_predictions patch dataset version_spec instance_ids <->
  exists datum,
    datum ∈ dataset
    /\ (instance_ids = [] \/ instance_id datum ∈ instance_ids)
    /\ (version_spec = "all" \/ version datum = version_spec)
    /\ p = {| pred_instance_id := instance_id datum; model_patch := patch datum;
              model_name_or_path := "gold" |}.
Proof.
  unfold get_gold_predictions. cbv zeta.
  assert (Hsel : forall datum,
    datum ∈ (if nonempty_list instance_ids
             then filter (fun i => instance_id i ∈ instance_ids) dataset else dataset)
    <-> datum ∈ dataset /\ (instance_ids = [] \/ instance_id datum ∈ instance_ids)).
  { intros datum. destruct instance_ids as [|x l]; cbn [nonempty_list].
    - split; [auto|tauto].
    - rewrite list_elem_of_filter. split; [intros [? ?]; auto|].
      intros [? [?|?]]; [done|auto]. }
  destruct (String.eqb_spec version_spec "all") as [->|Hne].
  - rewrite list_elem_of_fmap. split.
    + intros (datum & -> & Hd). apply Hsel in Hd as [? ?]. exists datum. auto.
    + intros (datum & Hd & Hi & _ & ->). exists datum. split; [done|]. by apply Hsel.
  - rewrite list_elem_of_fmap. split.
    + intros (datum & -> & Hd). apply list_elem_of_filter in Hd as [Hv Hd].
      apply Hsel in Hd as [? ?]. exists datum. auto.
    + intros (datum & Hd & Hi & [?|Hv] & ->); [done|]. exists datum. split; [done|].
      apply list_elem_of_filter. split; [done|]. by apply Hsel.
Qed.

Lemma dataset_ids_of_elem version_spec dataset x :
  x ∈ dataset_ids_of version_spec dataset <->
  exists datum, datum ∈ dataset /\ instance_id datum = x
                /\ (version_spec = "all" \/ version datum = version_spec).
Proof.
  unfold dataset_ids_of. destruct (String.eqb_spec version_spec "all") as [->|Hne].
  - rewrite elem_of_list_to_set, list_elem_of_fmap. split.
    + intros (d & -> & Hd). exists d. auto.
    + intros (d & Hd & <- & _). eauto.
  - rewrite elem_of_list_to_set, list_elem_of_fmap. split.
    + intros (d & -> & Hd). apply list_elem_of_filter in Hd as [? ?]. exists d. auto.
    + intros (d & Hd & <- & [?|Hv]); [done|]. exists d. split; [done|].
      by apply list_elem_of_filter.
Qed.

Lemma admission_returns_within_dataset
    dataset instance_ids predictions run_id version_spec out exclude_completed w :
  (forall x, x ∈ instance_ids -> x ∈ dataset_ids_of version_spec dataset) ->
  (forall k, k ∈ dom predictions -> k ∈ dataset_ids_of version_spec dataset) ->
  exists result,
    (get_dataset_from_preds dataset instance_ids predictions run_id version_spec out
       exclude_completed w).1 = Ret result.
Proof.
  intros Hids Hdom. rewrite get_dataset_from_preds_result. cbv zeta.
  assert (Hsub : (list_to_set instance_ids : gset string)
                 ∖ dataset_ids_of version_spec dataset = ∅).
  { apply set_eq. intros x. rewrite elem_of_difference, elem_of_list_to_set.
    split; [|set_solver]. intros [Hx Hn]. exfalso. by apply Hn, Hids. }
  rewrite Hsub. rewrite (bool_decide_eq_false_2 (∅ ≠ ∅)) by (intros H; by apply H).
  rewrite andb_false_r.
  destruct (completed_loop_returns
              (kept_predictions predictions (dataset_ids_of version_spec dataset))
              (dom predictions) run_id out (wanted_dataset instance_ids dataset) ∅ w)
    as [c ->]; [|eauto].
  intros i Hi Hin. rewrite kept_predictions_in by (by apply Hdom).
  by apply elem_of_dom.
Qed.

(** X21.  When the requested ids are ids of the dataset (for the given
    version), [get_dataset_from_preds] returns on the dict of the gold
    predictions of the same dataset, version and requested ids: every gold
    prediction is bound to its own id, names the model "gold", and its id is
    among the ids that the version filter keeps. *)
Theorem gold_predictions_pass_admission
    patch dataset instance_ids run_id version_spec out exclude_completed w :
  (forall x, x ∈ instance_ids -> x ∈ dataset_ids_of version_spec dataset) ->
  let predictions :=
    predictions_by_id (get_gold_predictions patch dataset version_spec instance_ids) in
  (forall k p, predictions !! k = Some p ->
     pred_instance_id p = k /\ model_name_or_path p = "gold"
     /\ k ∈ dataset_ids_of version_spec dataset)
  /\ exists result,
       (get_dataset_from_preds dataset instance_ids predictions run_id version_spec out
          exclude_completed w).1 = Ret result.
Proof.
  intros Hids predictions.
  assert (Hgold : forall k p, predictions !! k = Some p ->
            pred_instance_id p = k /\ model_name_or_path p = "gold"
            /\ k ∈ dataset_ids_of version_spec dataset).
  { intros k p Hp.
    destruct (predictions_by_id_lookup
                (get_gold_predictions patch dataset version_spec instance_ids) k)
      as (_ & H & _).
    destruct (H p Hp) as [Hk Hin].
    apply get_gold_predictions_elem in Hin as (datum & Hd & _ & Hv & ->).
    cbn in *. split; [done|]. split; [done|].
    apply dataset_ids_of_elem. exists datum. done. }
  split; [exact Hgold|].
  apply admission_returns_within_dataset; [exact Hids|].
  intros k Hk. apply elem_of_dom in Hk as [p Hp]. by apply (Hgold k p).
Qed.

Lemma gold_predictions_pass_admission_witness :
  let predictions :=
    predictions_by_id (get_gold_predictions (fun _ => Some "--- a/a.py") T1_dataset "1.0" []) in
  (forall k p, predictions !! k = Some p ->
     pred_instance_id p = k /\ model_name_or_path p = "gold"
     /\ k ∈ dataset_ids_of "1.0" T1_dataset)
  /\ exists result,
       (get_dataset_from_preds T1_dataset [] predictions "run1" "1.0" "out" true
          empty_world).1 = Ret result.
Proof.
  apply (gold_predictions_pass_admission (fun _ => Some "--- a/a.py") T1_dataset []
           "run1" "1.0" "out" true empty_world).
  intros x Hx. by apply elem_of_nil in Hx.
Defined.

(** *** Loading the predictions *)

Lemma read_jsonl_spec predictions_path line_num lines predictions w :
  read_jsonl predictions_path line_num lines predictions w
  = (Ret (predictions ++ decoded_lines lines),
     with_stdout
       (fun o => o ++ ((fun n => "Warning: Could not decode JSON on line " +:+ pretty n
                                 +:+ " in " +:+ predictions_path +:+ ". Skipping line.")
                         <$> undecodable_line_numbers line_num lines)) w).
Proof.
  revert line_num predictions w.
  induction lines as [|[| |pred] rest IH]; intros line_num predictions w.
  - cbn. by rewrite app_nil_r, with_stdout_nil.
  - cbn [read_jsonl decoded_lines omap undecodable_line_numbers]. apply IH.
  - cbn [read_jsonl undecodable_line_numbers]. unfold_m. rewrite IH.
    cbn [decoded_lines omap fmap list_fmap]. by rewrite with_stdout_app.
  - cbn [read_jsonl undecodable_line_numbers]. rewrite IH.
    cbn [decoded_lines omap]. by rewrite <- app_assoc.
Qed.

Lemma load_predictions_world env patch dataset predictions_path version_spec instance_ids w :
  let w' := (load_predictions env patch dataset predictions_path version_spec
               instance_ids w).2 in
  texts w' = texts w /\ reports w' = reports w /\ run_reports w' = run_reports w
  /\ trace w' = trace w /\ live w' = live w /\ images w' = images w /\ pbar w' = pbar w.
Proof.
  cbv zeta. unfold load_predictions.
  destruct (String.eqb predictions_path "gold"); [done|].
  destruct (ends_with ".json" predictions_path).
  { destruct (on_json_load env); done. }
  destruct (ends_with ".jsonl" predictions_path); [|done].
  destruct (on_jsonl_open env) as [lines|e]; [|done].
  cbv zeta. rewrite read_jsonl_spec. done.
Qed.

(** X22.  Reading a .jsonl file of predictions, [main] keeps the
    predictions of the lines that decode, in order, skips the empty lines,
    and prints one warning for each line that does not decode, with the
    number of that line in the file. *)
Theorem malformed_jsonl_lines_are_skipped
    env patch dataset predictions_path version_spec instance_ids lines w :
  String.eqb predictions_path "gold" = false ->
  ends_with ".json" predictions_path = false ->
  ends_with ".jsonl" predictions_path = true ->
  on_jsonl_open env = Ret lines ->
  let run := load_predictions env patch dataset predictions_path version_spec
               instance_ids w in
  run.1 = inl (decoded_lines lines)
  /\ stdout run.2
     = stdout w
       ++ ["Reading predictions from .jsonl file: " +:+ predictions_path]
       ++ ((fun n => "Warning: Could not decode JSON on line " +:+ pretty n
                     +:+ " in " +:+ predictions_path +:+ ". Skipping line.")
             <$> undecodable_line_numbers 1 lines)
       ++ ["Successfully loaded " +:+ pretty (List.length (decoded_lines lines))
           +:+ " entries from .jsonl file."].
Proof.
  intros Hg Hj Hl Hopen. cbv zeta. unfold load_predictions.
  rewrite Hg, Hj, Hl, Hopen. cbv zeta. rewrite read_jsonl_spec.
  cbn. by rewrite <- !app_assoc.
Qed.

(** *** [main] *)

Lemma main_run_unfold mk env engine plans bplans dataset instance_ids predictions
    max_workers fr dual cache_level clean run_id out timeout version_spec reports_dir w :
  main_run mk env engine plans bplans dataset instance_ids predictions max_workers fr dual
    cache_level clean run_id out timeout version_spec reports_dir w
  = let preds := predictions_by_id predictions in
    let w1 := with_stdout
                (fun o => o ++ ["collect " +:+ pretty (size preds) +:+ " predictions"]) w in
    match get_dataset_from_preds dataset instance_ids preds run_id version_spec out true w1
    with
    | (Raise e, w2) => (Raise e, w2)
    | (Ret admitted, w2) =>
        match on_list_images engine with
        | Raise e => (Raise e, w2)
        | Ret _ =>
            let w3 := with_stdout
                        (fun o => o ++ ["Running " +:+ pretty (List.length admitted)
                                        +:+ " unevaluated instances..."]) w2 in
            match (if negb (nonempty_list admitted) then print "No instances to run."
                   else run_instances mk engine plans bplans preds admitted cache_level
                          clean fr max_workers run_id out (Some timeout) dual) w3 with
            | (Raise e, w4) => (Raise e, w4)
            | (Ret _, w4) =>
                match clean_images (on_clean_images env) (images w2) cache_level clean w4
                with
                | (Raise e, w5) => (Raise e, w5)
                | (Ret _, w5) =>
                    match make_run_report mk preds dataset run_id reports_dir out w5 with
                    | (Ret _, w6) => (Ret tt, w6)
                    | (Raise e, w6) => (Raise e, w6)
                    end
                end
            end
        end
    end.
Proof.
  unfold main_run. cbv zeta.
  unfold mbind, M_bind, print, modify, gets, outcome, mret, M_ret.
  destruct (get_dataset_from_preds _ _ _ _ _ _ _ _) as [[admitted|e] w2]; [|done].
  destruct (on_list_images engine) as [[]|e]; [|done].
  destruct admitted as [|i admitted]; cbn [nonempty_list negb].
  - destruct (clean_images _ _ _ _ _) as [[[]|e] w5]; [|done].
    by destruct (make_run_report _ _ _ _ _ _ _) as [[r|e] w6].
  - destruct (run_instances _ _ _ _ _ _ _ _ _ _ _ _ _ _ _) as [[[]|e] w4]; [|done].
    destruct (clean_images _ _ _ _ _) as [[[]|e] w5]; [|done].
    by destruct (make_run_report _ _ _ _ _ _ _) as [[r|e] w6].
Qed.

(** [main_run] when admission returns no instance and the listing of the
    images returns: the images are cleaned and the report is made. *)
Lemma main_run_nothing_admitted mk env engine plans bplans dataset instance_ids predictions
    max_workers fr dual cache_level clean run_id out timeout version_spec reports_dir w :
  on_list_images engine = Ret tt ->
  (get_dataset_from_preds dataset instance_ids (predictions_by_id predictions) run_id
     version_spec out true w).1 = Ret [] ->
  let run := main_run mk env engine plans bplans dataset instance_ids predictions
               max_workers fr dual cache_level clean run_id out timeout version_spec
               reports_dir w in
  (trace run.2 = trace w ++ [EvCleanImages cache_level clean]
   /\ live run.2 = live w /\ texts run.2 = texts w /\ reports run.2 = reports w)
  /\ match on_clean_images env with
     | Raise e =>
         run.1 = Raise e /\ run_reports run.2 = run_reports w
         /\ images run.2 = images w
     | Ret removed =>
         images run.2 = images w ∖ removed
         /\ exists wc,
              run_reports wc = run_reports w
              /\ run.1 = match (make_run_report mk (predictions_by_id predictions) dataset
                                  run_id reports_dir out wc).1 with
                         | Ret _ => Ret tt
                         | Raise e => Raise e
                         end
              /\ run.2 = (make_run_report mk (predictions_by_id predictions) dataset
                            run_id reports_dir out wc).2
     end.
Proof.
  intros Hlist Hadm. cbv zeta. rewrite main_run_unfold. cbv zeta. rewrite Hlist.
  set (preds := predictions_by_id predictions) in *.
  set (w1 := with_stdout _ w).
  rewrite (admission_reads_texts_only dataset instance_ids preds run_id version_spec out
             true w w1 eq_refl) in Hadm.
  pose proof (get_dataset_from_preds_world dataset instance_ids preds run_id version_spec
                out true w1) as Hw.
  cbv zeta in Hw.
  destruct (get_dataset_from_preds dataset instance_ids preds run_id version_spec out true
              w1) as [[admitted|e] w2]; cbn [fst snd] in *; [|done].
  injection Hadm as ->. cbn [nonempty_list negb]. unfold print, modify.
  destruct Hw as (Ht & Hr & Hrr & Htr & Hl & Hi & Hp).
  unfold clean_images. unfold_m. cbn.
  destruct (on_clean_images env) as [removed|e]; cbn.
  2:{ rewrite Htr, Hl, Ht, Hr, Hrr, Hi. repeat split; done. }
  match goal with |- context [make_run_report ?a ?b ?c ?d ?e ?f ?W] =>
    pose proof (make_run_report_cases a b c d e f W) as [(Mt & Mr & Mtr & Ml & Mi & _) _];
    set (wc := W) in *
  end.
  cbv zeta in *.
  assert (Hwc : trace wc = trace w ++ [EvCleanImages cache_level clean]
                /\ live wc = live w /\ texts wc = texts w /\ reports wc = reports w
                /\ images wc = images w ∖ removed /\ run_reports wc = run_reports w).
  { subst wc. cbn. rewrite Htr, Hl, Ht, Hr, Hi, Hrr. done. }
  destruct Hwc as (Wtr & Wl & Wt & Wr & Wi & Wrr).
  destruct (make_run_report mk preds dataset run_id reports_dir out wc) as [[r|e] w6] eqn:E;
    cbn [fst snd] in *; rewrite Mt, Mr, Mtr, Ml, Mi;
    (split; [done|]); (split; [done|]); exists wc; rewrite E; done.
Qed.

(** X23.  When admission returns no instance (and the listing of the images
    returns), [main] runs no pipeline: it creates, starts and uses no
    container and writes no text file and no report.json.  Its one call that
    acts on the engine is [clean_images], and the images left are those there
    were without the ones [clean_images] removed; besides, it lists the
    images and the containers.  When moreover no prediction was loaded and
    [clean_images] returns, [main] ends with the [IndexError] of
    [make_run_report] and no aggregate report is written. *)
Theorem nothing_admitted_runs_no_container
    mk env engine patch plans bplans dataset instance_ids predictions_path max_workers fr
    dual cache_level clean open_file_limit run_id out timeout version_spec reports_dir w
    predictions w1 :
  run_id ≠ "" ->
  on_setrlimit env = Ret tt ->
  on_from_env env = Ret tt ->
  on_list_images engine = Ret tt ->
  load_predictions env patch dataset predictions_path version_spec instance_ids w
  = (inl predictions, w1) ->
  (get_dataset_from_preds dataset instance_ids (predictions_by_id predictions) run_id
     version_spec out true w).1 = Ret [] ->
  let run := main mk env engine patch plans bplans dataset instance_ids predictions_path
               max_workers fr dual cache_level clean open_file_limit run_id out timeout
               version_spec reports_dir w in
  trace run.2 = trace w ++ [EvCleanImages cache_level clean]
  /\ live run.2 = live w /\ texts run.2 = texts w /\ reports run.2 = reports w
  /\ images run.2 = match on_clean_images env with
                    | Ret removed => images w ∖ removed
                    | Raise _ => images w
                    end
  /\ (predictions = [] -> raised (on_clean_images env) = false ->
      run.1 = Some (Uncaught IndexError) /\ run_reports run.2 = run_reports w).
Proof.
  intros Hid Hs Hf Hlist Hload Hadm. cbv zeta. unfold main.
  assert ((0 <? String.length run_id)%nat = true) as ->.
  { destruct run_id; [done|reflexivity]. }
  cbn [negb]. rewrite Hs, Hf. unfold outcome, mbind, M_bind. rewrite Hload.
  pose proof (load_predictions_world env patch dataset predictions_path version_spec
                instance_ids w) as Hw.
  cbv zeta in Hw. rewrite Hload in Hw. cbn [snd] in Hw.
  destruct Hw as (Ht & Hr & Hrr & Htr & Hl & Hi & Hp).
  rewrite (admission_reads_texts_only dataset instance_ids (predictions_by_id predictions)
             run_id version_spec out true w w1) in Hadm by done.
  pose proof (main_run_nothing_admitted mk env engine plans bplans dataset instance_ids
                predictions max_workers fr dual cache_level clean run_id out timeout
                version_spec reports_dir w1 Hlist Hadm) as [(Mtr & Ml & Mt & Mr) Hc].
  cbv zeta in *.
  assert (Himg :
    images (main_run mk env engine plans bplans dataset instance_ids predictions
              max_workers fr dual cache_level clean run_id out timeout version_spec
              reports_dir w1).2
    = match on_clean_images env with
      | Ret removed => images w ∖ removed
      | Raise _ => images w
      end).
  { destruct (on_clean_images env) as [removed|e].
    - destruct Hc as [-> _]. by rewrite Hi.
    - destruct Hc as (_ & _ & ->). exact Hi. }
  destruct (main_run mk env engine plans bplans dataset instance_ids predictions max_workers
              fr dual cache_level clean run_id out timeout version_spec reports_dir w1)
    as [[[]|e] w2] eqn:Erun; cbn [fst snd] in *.
  - repeat (split; [congruence|]).
    intros -> Hcl.
    destruct (on_clean_images env) as [removed|e]; [|done].
    destruct Hc as (_ & wc & _ & Hres & _).
    destruct (make_run_report_no_predictions mk dataset run_id reports_dir
                out wc) as (E & _).
    change (predictions_by_id []) with (∅ : gmap string Prediction) in Hres.
    rewrite E in Hres. discriminate.
  - repeat (split; [congruence|]).
    intros -> Hcl.
    destruct (on_clean_images env) as [removed|e']; [|done].
    destruct Hc as (_ & wc & Hrrc & Hres & Hw2).
    destruct (make_run_report_no_predictions mk dataset run_id reports_dir
                out wc) as (E & Err & _).
    change (predictions_by_id []) with (∅ : gmap string Prediction) in Hres, Hw2.
    rewrite E in Hres. injection Hres as ->. split; [done|].
    rewrite Hw2, Err. congruence.
Qed.

Lemma malformed_jsonl_lines_are_skipped_witness :
  let lines := [Decoded T1_pred; BlankLine; Undecodable; Decoded T2_pred] in
  let run := load_predictions
               {| on_setrlimit := Ret tt; on_from_env := Ret tt; on_json_load := Ret [];
                  on_jsonl_open := Ret lines; on_clean_images := Ret ∅ |}
               (fun _ => None) T1_dataset "preds.jsonl" "all" [] empty_world in
  run.1 = inl (decoded_lines lines)
  /\ stdout run.2
     = stdout empty_world
       ++ ["Reading predictions from .jsonl file: " +:+ "preds.jsonl"]
       ++ ((fun n => "Warning: Could not decode JSON on line " +:+ pretty n
                     +:+ " in " +:+ "preds.jsonl" +:+ ". Skipping line.")
             <$> undecodable_line_numbers 1 lines)
       ++ ["Successfully loaded " +:+ pretty (List.length (decoded_lines lines))
           +:+ " entries from .jsonl file."].
Proof.
  apply (malformed_jsonl_lines_are_skipped
           {| on_setrlimit := Ret tt; on_from_env := Ret tt; on_json_load := Ret [];
              on_jsonl_open := Ret [Decoded T1_pred; BlankLine; Undecodable; Decoded T2_pred];
              on_clean_images := Ret ∅ |}
           (fun _ => None) T1_dataset "preds.jsonl" "all" []
           [Decoded T1_pred; BlankLine; Undecodable; Decoded T2_pred] empty_world);
    reflexivity.
Defined.

Lemma nothing_admitted_runs_no_container_witness :
  let run := main example_make_test_spec env_no_predictions engine_ok (fun _ => None)
               (fun _ => plan_ok) (fun _ => plan_ok) T1_dataset [] "preds.json" 4 false
               false "env" false 4096 "run1" "out" 1800 "all" "reports" empty_world in
  trace run.2 = trace empty_world ++ [EvCleanImages "env" false]
  /\ live run.2 = live empty_world
  /\ texts run.2 = texts empty_world
  /\ reports run.2 = reports empty_world
  /\ images run.2 = match on_clean_images env_no_predictions with
                    | Ret removed => images empty_world ∖ removed
                    | Raise _ => images empty_world
                    end
  /\ (([] : list Prediction) = [] -> raised (on_clean_images env_no_predictions) = false ->
      run.1 = Some (Uncaught IndexError)
      /\ run_reports run.2 = run_reports empty_world).
Proof.
  apply (nothing_admitted_runs_no_container example_make_test_spec env_no_predictions
           engine_ok (fun _ => None) (fun _ => plan_ok) (fun _ => plan_ok) T1_dataset []
           "preds.json" 4 false false "env" false 4096 "run1" "out" 1800 "all" "reports"
           empty_world []
           (load_predictions env_no_predictions (fun _ => None) T1_dataset "preds.json"
              "all" [] empty_world).2).
  - discriminate.
  - reflexivity.
  - reflexivity.
  - reflexivity.
  - reflexivity.
  - vm_compute. reflexivity.
Defined.

(** ** The exit-code marker *)

(** *** The exit-code marker *)

Lemma prefix_then_drop (a s : string) d rest :
  String.prefix a s = true ->
  Str.drop (String.length a) s = String d rest ->
  String.prefix (a +:+ String d "") s = true.
Proof.
  revert s. induction a as [|c a IH]; intros s Hp Hd.
  - cbn in Hd. subst s. change ("" +:+ String d "") with (String d "").
    cbn. destruct (ascii_dec d d); [by destruct rest|congruence].
  - destruct s as [|c' s]; [done|].
    change (String c a +:+ String d "") with (String c (a +:+ String d "")).
    cbn in *. destruct (ascii_dec c c'); [|done]. by apply IH.
Qed.

Lemma exit_code_search_sound (s : string) d :
  exit_code_search s = Some d ->
  Str.is_digit d = true /\ Str.contains (EXIT_CODE_MARKER +:+ String d "") s = true.
Proof.
  induction s as [|c s IH].
  - cbn. discriminate.
  - cbn [exit_code_search].
    destruct (exit_code_match_here (String c s)) as [d'|] eqn:E.
    + intros [= ->]. unfold exit_code_match_here in E.
      destruct (String.prefix EXIT_CODE_MARKER (String c s)) eqn:Hp; [|done].
      destruct (Str.drop _ _) as [|d' rest] eqn:Hd; [done|].
      destruct (Str.is_digit d') eqn:Hdig; [|done]. injection E as ->.
      split; [done|]. apply contains_prefix. by eapply prefix_then_drop.
    + intros H. destruct (IH H) as [Hd Hc]. split; [done|].
      cbn [Str.contains]. rewrite Hc. apply orb_true_r.
Qed.

(** X1.  [get_pred_report] reports a prediction as resolved only when the
    prediction has a patch, the test-output file exists, and its text holds
    the marker [echo OMNIGRIL_EXIT_CODE=0]. *)
Theorem resolved_needs_an_exit_code_0_marker
    test_spec prediction test_output_path w doc entry :
  (get_pred_report test_spec prediction test_output_path w).1 = Ret doc ->
  doc !! pred_instance_id prediction = Some entry ->
  resolved entry = true ->
  exists patch test_output,
    model_patch prediction = Some patch
    /\ texts w !! test_output_path = Some test_output
    /\ Str.contains (EXIT_CODE_MARKER +:+ "0") test_output = true.
Proof.
  intros Hrun Hdoc Hres.
  destruct (get_pred_report_spec test_spec prediction test_output_path w)
    as (entry' & warnings & E & H).
  rewrite E in Hrun. injection Hrun as <-.
  rewrite lookup_singleton_eq in Hdoc. injection Hdoc as ->.
  destruct (model_patch prediction) as [patch|].
  2:{ destruct H as [-> _]. discriminate. }
  destruct H as (_ & _ & _ & Hr & _). rewrite Hres in Hr.
  unfold first_exit_code_is_0 in Hr.
  destruct (texts w !! test_output_path) as [test_output|];
    [|vm_compute in Hr; discriminate].
  cbn [from_option] in Hr. change (id test_output) with test_output in Hr.
  destruct (exit_code_search test_output) as [d|] eqn:Es; [|done].
  symmetry in Hr. apply Ascii.eqb_eq in Hr as ->.
  exists patch, test_output. split; [done|]. split; [done|].
  by apply exit_code_search_sound in Es as [_ ?].
Qed.

Lemma resolved_needs_an_exit_code_0_marker_witness :
  exists patch test_output,
    model_patch T1_pred = Some patch
    /\ texts (with_texts (fun t => <[ ["logs"; "test_output_after_apply.txt"]
                                       := "+ echo OMNIGRIL_EXIT_CODE=0" ]> t) empty_world)
         !! ["logs"; "test_output_after_apply.txt"] = Some test_output
    /\ Str.contains (EXIT_CODE_MARKER +:+ "0") test_output = true.
Proof.
  apply (resolved_needs_an_exit_code_0_marker T1_spec T1_pred
           ["logs"; "test_output_after_apply.txt"]
           (with_texts (fun t => <[ ["logs"; "test_output_after_apply.txt"]
                                     := "+ echo OMNIGRIL_EXIT_CODE=0" ]> t) empty_world)
           {[ "T1" := {| patch_is_None := false; patch_exists := true;
                         patch_successfully_applied := false; resolved := true |} ]}
           {| patch_is_None := false; patch_exists := true;
              patch_successfully_applied := false; resolved := true |}).
  - vm_compute. reflexivity.
  - reflexivity.
  - reflexivity.
Defined.

(** ** Reports written by the scheduler *)

#[local] Instance stays_keyed_refl : Reflexive stays_keyed.
Proof. intros w H. exact H. Qed.

#[local] Instance stays_keyed_trans : Transitive stays_keyed.
Proof. intros w1 w2 w3 H12 H23 H. apply H23, H12, H. Qed.

Lemma stays_keyed_reports w w' : reports w' = reports w -> stays_keyed w w'.
Proof. intros E H d id doc. rewrite E. apply H. Qed.

Lemma run_instance_setup_report_written plan ts pred rm fr run_id out mode timeout w :
  let report_path := log_dir_of out run_id pred (ts_instance_id ts) </> "report.json" in
  let run := run_instance_setup plan ts pred rm fr run_id out mode timeout w in
  reports run.2 = reports w
  \/ exists entry,
       reports run.2 = <[report_path := {[ ts_instance_id ts := entry ]}]> (reports w).
Proof.
  cbv zeta. rewrite run_instance_setup_unfold. cbv zeta.
  destruct (reports w !! _) as [doc|]; [by left|].
  destruct (on_setup_logger plan) as [[]|e]; [|by left].
  rewrite guarded_outcome_reports.
  match goal with |- context [run_instance_setup_body ?a ?b ?c ?d ?e ?f ?g ?h] =>
    pose proof (run_instance_setup_body_reports a b c d e f g (fr_world h)) as Hr;
    change {| fr_world := fr_world h; fr_container := None |} with h in Hr
  end.
  cbv zeta in Hr. destruct mode; cbn [is_not_apply_patch] in *.
  - destruct (run_instance_setup_body _ _ _ _ _ _ _ _).1 as [[[id [doc|]]|]|e].
    + by destruct Hr as (_ & ? & _).
    + left. by destruct Hr as (_ & _ & ?).
    + done.
    + by left.
  - match goal with |- context [run_instance_setup_body ?a ?b ?c ?d ?e ?f ?g ?h] =>
      pose proof (fun v => run_instance_setup_body_graded a b c d f (fr_world h) v) as Hg;
      change {| fr_world := fr_world h; fr_container := None |} with h in Hg;
      set (tried := run_instance_setup_body a b c d e f g h) in *
    end.
    cbv zeta in Hg.
    destruct tried.1 as [[[id [doc|]]|]|e] eqn:Et.
    + destruct (Hg _ eq_refl) as (? & entry & _ & _ & [= -> ->] & _ & Hrep & _).
      right. exists entry. exact Hrep.
    + by destruct Hr as (_ & ? & _).
    + done.
    + by left.
Qed.

Lemma run_instance_setup_stays_keyed plan ts pred rm fr run_id out mode timeout :
  plain_component (ts_instance_id ts) = true ->
  keeps stays_keyed (run_instance_setup plan ts pred rm fr run_id out mode timeout).
Proof.
  intros Hplain w Hw.
  destruct (run_instance_setup_report_written plan ts pred rm fr run_id out mode timeout w)
    as [E|(entry & E)]; cbv zeta in E.
  - intros d id doc. rewrite E. apply Hw.
  - intros d id doc. rewrite E.
    destruct (decide (d </> id </> "report.json"
                      = log_dir_of out run_id pred (ts_instance_id ts) </> "report.json"))
      as [Heq|Hne].
    + rewrite Heq, lookup_insert_eq. intros [= <-].
      apply div_inj in Heq as [Heq _]. rewrite log_dir_of_plain in Heq by done.
      apply div_inj in Heq as [_ ->]. rewrite lookup_singleton_eq. eauto.
    + rewrite lookup_insert_ne by done. apply Hw.
Qed.

Lemma submitted_call_stays_keyed dual plans bplans fr run_id out timeout ts pred :
  plain_component (ts_instance_id ts) = true ->
  keeps stays_keyed (submitted_call dual plans bplans fr run_id out timeout ts pred).
Proof.
  intros Hplain. unfold submitted_call.
  destruct dual; [|by apply run_instance_setup_stays_keyed].
  unfold run_instance_fail_to_pass.
  apply keeps_bind; [apply _|by apply run_instance_setup_stays_keyed|intros _].
  apply keeps_bind; [apply _|by apply run_instance_setup_stays_keyed|intros _].
  apply keeps_ret; apply _.
Qed.

Lemma make_test_specs_made mk predictions instances specs ts :
  make_test_specs mk predictions instances = Ret specs ->
  ts ∈ drop_none specs ->
  exists i p, i ∈ instances /\ mk i p = Some ts.
Proof.
  revert specs. induction instances as [|i rest IH]; intros specs; cbn [make_test_specs].
  { intros [= <-] Hts. by apply elem_of_nil in Hts. }
  destruct (predictions !! instance_id i) as [p|]; [|done].
  destruct (make_test_specs mk predictions rest) as [specs'|e]; [|done].
  intros [= <-] Hts. unfold drop_none in Hts. cbn [omap] in Hts.
  assert (Hrest : ts ∈ drop_none specs' -> exists j q, j ∈ i :: rest /\ mk j q = Some ts).
  { intros H. destruct (IH specs' eq_refl H) as (j & q & Hj & Hq).
    exists j, q. split; [apply elem_of_cons; by right|done]. }
  destruct (mk i p) as [ts0|] eqn:Emk; cbn in Hts; [|by apply Hrest].
  apply elem_of_cons in Hts as [->|Hts]; [|by apply Hrest].
  exists i, p. split; [apply elem_of_cons; by left|done].
Qed.

Lemma run_instances_stays_keyed mk engine plans bplans predictions instances cache_level
    clean fr max_workers run_id out timeout dual :
  (forall i p ts, i ∈ instances -> mk i p = Some ts ->
                  plain_component (ts_instance_id ts) = true) ->
  keeps stays_keyed
    (run_instances mk engine plans bplans predictions instances cache_level clean fr
       max_workers run_id out timeout dual).
Proof.
  intros Hplain w.
  destruct (on_client engine) as [[]|e] eqn:Hc.
  2:{ unfold run_instances. rewrite Hc. reflexivity. }
  destruct (make_test_specs mk predictions instances) as [specs|e] eqn:Es.
  2:{ unfold run_instances. rewrite Hc, Es. reflexivity. }
  destruct (on_images_list engine) as [[]|e] eqn:Hl.
  2:{ unfold run_instances. rewrite Hc, Es, Hl. reflexivity. }
  destruct (run_instances_unfold mk engine plans bplans predictions instances cache_level
              clean fr max_workers run_id out timeout dual specs w Hc Hl Es)
    as (w0 & (_ & R0 & _) & ->).
  assert (H0 : stays_keyed w w0) by (by apply stays_keyed_reports).
  etransitivity; [exact H0|].
  unfold mbind, M_bind, thread_pool_executor.
  destruct (max_workers <=? 0)%Z; [reflexivity|]. cbn.
  pose proof (submit_all_kept stays_keyed
                (submitted_call dual plans bplans fr run_id out timeout) predictions
                (drop_none specs)) as Hsub.
  specialize (Hsub (fun ts pred Hts _ =>
    submitted_call_stays_keyed dual plans bplans fr run_id out timeout ts pred
      ltac:(destruct (make_test_specs_made mk predictions instances specs ts Es Hts)
              as (i & p & Hi & Hmk); exact (Hplain i p ts Hi Hmk))) w0).
  destruct (submit_all _ predictions (drop_none specs) w0) as [[fs|e] w1]; cbn [snd] in *;
    [|exact Hsub].
  destruct (drain_spec fs w1) as (w2 & -> & _ & _ & Hr & _). cbn.
  etransitivity; [exact Hsub|]. by apply stays_keyed_reports.
Qed.

Lemma report_store_keyed_well_keyed predictions run_id out full_dataset w :
  (forall i, i ∈ full_dataset -> plain_component (instance_id i) = true) ->
  report_store_keyed w -> reports_well_keyed predictions run_id out full_dataset w.
Proof.
  intros Hplain Hw instance prediction report Hin _ Hr.
  rewrite log_dir_of_plain in Hr by (by apply Hplain).
  by apply Hw in Hr.
Qed.

Lemma unremoved_loop_only_attribute_error images test_specs unremoved e :
  unremoved_loop images test_specs unremoved = Raise e ->
  exists message, e = AttributeError message.
Proof.
  revert unremoved. induction test_specs as [|[spec|] rest IH]; intros unremoved; cbn.
  - discriminate.
  - apply IH.
  - intros [= <-]. eauto.
Qed.

(** X24.  When the instance ids are plain path components (not empty,
    without a slash, neither "." nor ".."), every report.json the scheduler
    writes holds the entry of the instance its directory is named after.  So
    when the store of reports is keyed in this way before [run_instances]
    (an empty store is), it is afterwards, whatever the tasks met and
    however the run ended, and [make_run_report] does not raise [KeyError]
    on it for a dataset of plain ids, whatever the predictions. *)
Theorem reports_of_the_scheduler_are_keyed_by_instance
    mk engine plans bplans predictions instances cache_level clean fr max_workers run_id
    out timeout dual w :
  report_store_keyed w ->
  (forall i p ts, i ∈ instances -> mk i p = Some ts ->
                  plain_component (ts_instance_id ts) = true) ->
  let w' := (run_instances mk engine plans bplans predictions instances cache_level clean
               fr max_workers run_id out timeout dual w).2 in
  report_store_keyed w'
  /\ forall mk' predictions' full_dataset run_id' reports_dir out' k,
       (forall i, i ∈ full_dataset -> plain_component (instance_id i) = true) ->
       (make_run_report mk' predictions' full_dataset run_id' reports_dir out' w').1
       ≠ Raise (KeyError k).
Proof.
  intros Hw Hplain w'.
  assert (Hw' : report_store_keyed w').
  { by apply (run_instances_stays_keyed mk engine plans bplans predictions instances
                cache_level clean fr max_workers run_id out timeout dual Hplain w). }
  split; [exact Hw'|].
  intros mk' predictions' full_dataset run_id' reports_dir out' k Hids.
  destruct (classify_loop_spec predictions' run_id' out' full_dataset no_buckets w')
    as (b & E & _).
  { intros i Hi. eapply bucket_of_well_keyed; [|exact Hi].
    by apply report_store_keyed_well_keyed. }
  pose proof (make_run_report_cases mk' predictions' full_dataset run_id' reports_dir out'
                w') as [_ H].
  cbv zeta in H. rewrite E in H. cbn [fst] in H.
  destruct (unremoved_loop _ _ _) as [unremoved|e] eqn:Eu.
  2:{ rewrite H. cbn. apply unremoved_loop_only_attribute_error in Eu as [m ->]. done. }
  unfold first_prediction in H.
  destruct (map_to_list predictions') as [|kv l].
  - destruct H as [-> _]. done.
  - destruct H as (r & -> & _). done.
Qed.

Lemma reports_of_the_scheduler_are_keyed_by_instance_witness :
  let w' := (run_instances example_make_test_spec engine_ok T2_fails T2_fails
               T1_T2_predictions [T2; T1] "env" false false 4 "run1" "out" None true
               empty_world).2 in
  report_store_keyed w'
  /\ forall mk' predictions' full_dataset run_id' reports_dir out' k,
       (forall i, i ∈ full_dataset -> plain_component (instance_id i) = true) ->
       (make_run_report mk' predictions' full_dataset run_id' reports_dir out' w').1
       ≠ Raise (KeyError k).
Proof.
  apply (reports_of_the_scheduler_are_keyed_by_instance example_make_test_spec engine_ok
           T2_fails T2_fails T1_T2_predictions [T2; T1] "env" false false 4 "run1" "out"
           None true empty_world).
  - intros d id doc H.
    change (reports empty_world) with (∅ : gmap Path (gmap string Report)) in H.
    by rewrite lookup_empty in H.
  - intros i p ts Hi [= <-]. cbn.
    apply elem_of_cons in Hi as [->|Hi]; [reflexivity|].
    apply elem_of_cons in Hi as [->|Hi]; [reflexivity|].
    by apply elem_of_nil in Hi.
Defined.

(** ** Placeholder predictions and admission *)

Lemma get_none_predictions_elem dataset version_spec instance_ids p :
  p ∈ get_none_predictions dataset version_spec instance_ids <->
  exists datum,
    datum ∈ dataset
    /\ (instance_ids = [] \/ instance_id datum ∈ instance_ids)
    /\ (version_spec = "all" \/ version datum = version_spec)
    /\ p = {| pred_instance_id := instance_id datum; model_patch := Some "none";
              model_name_or_path := "gold" |}.
Proof.
  unfold get_none_predictions. cbv zeta.
  assert (Hsel : forall datum,
    datum ∈ (if nonempty_list instance_ids
             then filter (fun i => instance_id i ∈ instance_ids) dataset else dataset)
    <-> datum ∈ dataset /\ (instance_ids = [] \/ instance_id datum ∈ instance_ids)).
  { intros datum. destruct instance_ids as [|x l]; cbn [nonempty_list].
    - split; [auto|tauto].
    - rewrite list_elem_of_filter. split; [intros [? ?]; auto|].
      intros [? [?|?]]; [done|auto]. }
  destruct (String.eqb_spec version_spec "all") as [->|Hne].
  - rewrite list_elem_of_fmap. split.
    + intros (datum & -> & Hd). apply Hsel in Hd as [? ?]. exists datum. auto.
    + intros (datum & Hd & Hi & _ & ->). exists datum. split; [done|]. by apply Hsel.
  - rewrite list_elem_of_fmap. split.
    + intros (datum & -> & Hd). apply list_elem_of_filter in Hd as [Hv Hd].
      apply Hsel in Hd as [? ?]. exists datum. auto.
    + intros (datum & Hd & Hi & [?|Hv] & ->); [done|]. exists datum. split; [done|].
      apply list_elem_of_filter. split; [done|]. by apply Hsel.
Qed.

Lemma none_predictions_lookup dataset version_spec instance_ids k p :
  predictions_by_id (get_none_predictions dataset version_spec instance_ids) !! k = Some p ->
  p = {| pred_instance_id := k; model_patch := Some "none"; model_name_or_path := "gold" |}
  /\ k ∈ dataset_ids_of version_spec dataset.
Proof.
  intros Hp.
  destruct (predictions_by_id_lookup
              (get_none_predictions dataset version_spec instance_ids) k) as (_ & H & _).
  destruct (H p Hp) as [Hk Hin].
  apply get_none_predictions_elem in Hin as (datum & Hd & _ & Hv & ->).
  cbn in Hk. subst k. split; [done|].
  apply dataset_ids_of_elem. exists datum. done.
Qed.

(** X25.  On the dict of the placeholder predictions of
    [get_none_predictions], whose patch is the string "none",
    [get_dataset_from_preds] returns when the requested ids are ids of the
    dataset, and admits a selected instance exactly when its two test-output
    files do not both exist: the placeholder is not an empty patch. *)
Theorem none_predictions_admit_every_unfinished_task
    dataset instance_ids run_id version_spec out w :
  (forall x, x ∈ instance_ids -> x ∈ dataset_ids_of version_spec dataset) ->
  let predictions :=
    predictions_by_id (get_none_predictions dataset version_spec instance_ids) in
  exists result,
    (get_dataset_from_preds dataset instance_ids predictions run_id version_spec out true
       w).1 = Ret result
    /\ forall i,
         i ∈ dataset ->
         (instance_ids = [] \/ instance_id i ∈ instance_ids) ->
         (version_spec = "all" \/ version i = version_spec) ->
         (i ∈ result <->
          both_outputs_exist run_id out
            {| pred_instance_id := instance_id i; model_patch := Some "none";
               model_name_or_path := "gold" |} w = false).
Proof.
  intros Hids predictions.
  destruct (admission_returns_within_dataset dataset instance_ids predictions run_id
              version_spec out true w Hids) as [result Hres].
  { intros k Hk. apply elem_of_dom in Hk as [p Hp].
    by apply none_predictions_lookup in Hp as [_ ?]. }
  exists result. split; [exact Hres|].
  intros i Hi Hwant Hv.
  assert (Hp : predictions
                 !! instance_id i
               = Some {| pred_instance_id := instance_id i; model_patch := Some "none";
                         model_name_or_path := "gold" |}).
  { destruct (predictions_by_id_lookup
                (get_none_predictions dataset version_spec instance_ids) (instance_id i))
      as (_ & _ & Hdom).
    assert (Hin : instance_id i ∈ dom predictions).
    { apply Hdom. apply list_elem_of_fmap.
      exists {| pred_instance_id := instance_id i; model_patch := Some "none";
                model_name_or_path := "gold" |}.
      split; [done|]. apply get_none_predictions_elem. exists i. done. }
    apply elem_of_dom in Hin as [p Hp].
    by destruct (none_predictions_lookup _ _ _ _ _ Hp) as [-> _]. }
  by apply (admission_of_task dataset instance_ids predictions run_id version_spec out w
              result i _ Hres Hi Hwant Hp).
Qed.

Lemma none_predictions_admit_every_unfinished_task_witness :
  let predictions := predictions_by_id (get_none_predictions T1_dataset "1.0" []) in
  exists result,
    (get_dataset_from_preds T1_dataset [] predictions "run1" "1.0" "out" true
       outputs_only_world).1 = Ret result
    /\ forall i,
         i ∈ T1_dataset ->
         (([] : list string) = [] \/ instance_id i ∈ ([] : list string)) ->
         ("1.0" = "all" \/ version i = "1.0") ->
         (i ∈ result <->
          both_outputs_exist "run1" "out"
            {| pred_instance_id := instance_id i; model_patch := Some "none";
               model_name_or_path := "gold" |} outputs_only_world = false).
Proof.
  apply (none_predictions_admit_every_unfinished_task T1_dataset [] "run1" "1.0" "out"
           outputs_only_world).
  intros x Hx. by apply elem_of_nil in Hx.
Defined.
